(** * node-stockfish: the engine pool, the UCI line parser and the depth
      aggregator of [src/stockfish.ts] (class [StockfishInstance], second
      revision in that file), embedded as executable Rocq definitions.

    Conventions of the embedding.
    - A JavaScript string and a Node [Buffer] holding engine output are both
      modelled by [string] (a sequence of 8-bit characters); the engine
      speaks ASCII, on which [Buffer.toString()] is the identity.
    - A JavaScript number is an IEEE 754 binary64 value: [spec_float] at
      precision 53 and maximal exponent 1024, with the operations of
      [SpecFloat].
    - String positions are [Z], because [indexOf] answers [-1].
    - A method that mutates [this] is a function from the instance to the
      instance; a method that can throw returns an [outcome].
    - Everything the instance does to the outside world (spawning and
      killing the process, writing to its stdin, calling a listener, writing
      to the console) is appended to the [trace] field. *)

From Stdlib Require Import ZArith List Bool Ascii String Lia.
From Stdlib Require Import SpecFloat.
Import ListNotations.

Local Open Scope string_scope.
Local Open Scope Z_scope.

(** ** JavaScript string primitives used by the parser *)

Module JSString.

Definition len (s : string) : Z := Z.of_nat (String.length s).

(** Index clamping shared by [indexOf], [substring]: to the range [0, len]. *)
Definition clamp (s : string) (i : Z) : Z := Z.max 0 (Z.min i (len s)).

Fixpoint drop (n : nat) (s : string) : string :=
  match n, s with
  | O, _ => s
  | S n', String _ s' => drop n' s'
  | S _, EmptyString => EmptyString
  end.

Fixpoint take (n : nat) (s : string) : string :=
  match n, s with
  | O, _ => EmptyString
  | S n', String c s' => String c (take n' s')
  | S _, EmptyString => EmptyString
  end.

(** [s.startsWith(pat)] *)
Fixpoint startsWith (pat s : string) : bool :=
  match pat, s with
  | EmptyString, _ => true
  | String a pat', String b s' => if Ascii.eqb a b then startsWith pat' s' else false
  | String _ _, EmptyString => false
  end.

(** First position, counted from [pos] for the head of [s], at which [pat]
    occurs in [s]; [-1] when there is none. *)
Fixpoint find_at (pat s : string) (pos : Z) : Z :=
  if startsWith pat s then pos
  else match s with
       | EmptyString => -1
       | String _ s' => find_at pat s' (pos + 1)
       end.

(** [s.indexOf(pat, from)] *)
Definition indexOf (pat s : string) (from : Z) : Z :=
  let k := clamp s from in
  find_at pat (drop (Z.to_nat k) s) k.

(** [s.includes(pat)] *)
Definition includes (pat s : string) : bool :=
  negb (indexOf pat s 0 =? -1).

(** [s.substring(a, b)]: both ends clamped, swapped when out of order. *)
Definition substring (s : string) (a b : Z) : string :=
  let a' := clamp s a in
  let b' := clamp s b in
  let lo := Z.min a' b' in
  let hi := Z.max a' b' in
  take (Z.to_nat (hi - lo)) (drop (Z.to_nat lo) s).

(** [s.substring(a)] *)
Definition substring_from (s : string) (a : Z) : string :=
  substring s a (len s).

(** [s.split(sep)] for a one-character separator: never the empty list. *)
Fixpoint split (sep : ascii) (s : string) : list string :=
  match s with
  | EmptyString => [EmptyString]
  | String c s' =>
      if Ascii.eqb c sep then EmptyString :: split sep s'
      else match split sep s' with
           | w :: ws => String c w :: ws
           | [] => [String c EmptyString]
           end
  end.

(** White space and line terminators of the ASCII range. *)
Definition is_space (c : ascii) : bool :=
  let n := nat_of_ascii c in
  ((9 <=? n) && (n <=? 13))%nat || (n =? 32)%nat.

Fixpoint trimStart (s : string) : string :=
  match s with
  | String c s' => if is_space c then trimStart s' else s
  | EmptyString => EmptyString
  end.

Fixpoint rev_append (s acc : string) : string :=
  match s with
  | EmptyString => acc
  | String c s' => rev_append s' (String c acc)
  end.

Definition rev (s : string) : string := rev_append s EmptyString.

(** [s.trim()] *)
Definition trim (s : string) : string := rev (trimStart (rev (trimStart s))).

(** [buf.lastIndexOf(c)] for a one-byte needle. *)
Fixpoint last_at (c : ascii) (s : string) (pos : Z) (found : Z) : Z :=
  match s with
  | EmptyString => found
  | String b s' => last_at c s' (pos + 1) (if Ascii.eqb b c then pos else found)
  end.

Definition lastIndexOf (c : ascii) (s : string) : Z := last_at c s 0 (-1).

(** [buf.slice(a, b)]: a negative end counts from the end of the buffer; both
    ends are clamped; an end before the start gives the empty buffer. *)
Definition slice (s : string) (a b : Z) : string :=
  let rel i := if i <? 0 then Z.max 0 (len s + i) else Z.min i (len s) in
  let a' := rel a in
  let b' := rel b in
  take (Z.to_nat (b' - a')) (drop (Z.to_nat a') s).

(** [buf.slice(a)] *)
Definition slice_from (s : string) (a : Z) : string := slice s a (len s).

End JSString.

(** ** JavaScript numbers *)

Module JSNumber.

Definition number := spec_float.

Definition prec : Z := 53.
Definition emax : Z := 1024.

Definition NaN : number := S754_nan.
Definition of_Z (z : Z) : number := binary_normalize prec emax z 0 false.
Definition of_nat (n : nat) : number := of_Z (Z.of_nat n).

Definition zero : number := S754_zero false.
Definition one : number := of_Z 1.
Definition hundred : number := of_Z 100.
Definition minus_one : number := of_Z (-1).

Definition sub : number -> number -> number := SFsub prec emax.
Definition mul : number -> number -> number := SFmul prec emax.
Definition div : number -> number -> number := SFdiv prec emax.

(** [a == b] on two numbers; [a > b] is [ltb b a]. *)
Definition eqb : number -> number -> bool := SFeqb.
Definition ltb : number -> number -> bool := SFltb.

(** Key equality of a [Map] (SameValueZero): [NaN] is equal to itself, the
    two zeros are equal, otherwise numeric equality. *)
Definition sameValueZero (a b : number) : bool :=
  match a, b with
  | S754_nan, S754_nan => true
  | _, _ => SFeqb a b
  end.

(** The array index a number denotes as a property key, if any: an integer
    between 0 and 2^32 - 2. *)
Definition to_index (x : number) : option nat :=
  let bounded z := if z <? 4294967295 then Some (Z.to_nat z) else None in
  match x with
  | S754_zero _ => Some O
  | S754_finite false m e =>
      if 0 <=? e then bounded (Z.pos m * 2 ^ e)
      else if (Z.pos m) mod (2 ^ (- e)) =? 0 then bounded (Z.pos m / 2 ^ (- e))
      else None
  | _ => None
  end.

(** *** ToNumber on strings (the unary [+] of the parser) *)

Definition digit_val (base : Z) (c : ascii) : option Z :=
  let n := Z.of_nat (nat_of_ascii c) in
  let v := if (48 <=? n) && (n <=? 57) then n - 48
           else if (97 <=? n) && (n <=? 102) then n - 87
           else if (65 <=? n) && (n <=? 70) then n - 55
           else 99 in
  if v <? base then Some v else None.

(** Reads the longest run of digits of [base] at the head of [s]: the value
    accumulated onto [acc], how many digits were read, and the rest. *)
Fixpoint digits (base : Z) (s : string) (acc : Z) (count : Z) : Z * Z * string :=
  match s with
  | String c s' =>
      match digit_val base c with
      | Some v => digits base s' (acc * base + v) (count + 1)
      | None => (acc, count, s)
      end
  | EmptyString => (acc, count, s)
  end.

(** The binary64 value nearest to [m * 10 ^ e10], ties to even. *)
Definition of_decimal (neg : bool) (m : Z) (e10 : Z) : number :=
  match m with
  | Z0 => S754_zero neg
  | Zneg _ => S754_nan
  | Zpos p =>
      if 0 <=? e10 then binary_round prec emax neg (Pos.mul p (Z.to_pos (10 ^ e10))) 0
      else
        let '(q, e, l) := SFdiv_core_binary prec emax (Zpos p) 0 (10 ^ (- e10)) 0 in
        binary_round_aux prec emax neg q e l
  end.

(** An optional exponent part [e] / [E], sign, digits at the head of [s]. *)
Definition exponent_part (s : string) : option Z :=
  match s with
  | EmptyString => Some 0
  | String c s' =>
      if (Ascii.eqb c "e" || Ascii.eqb c "E")%char then
        let '(neg, s'') :=
          match s' with
          | String "+"%char t => (false, t)
          | String "-"%char t => (true, t)
          | _ => (false, s')
          end in
        match digits 10 s'' 0 0 with
        | (v, n, EmptyString) => if 0 <? n then Some (if neg then - v else v) else None
        | _ => None
        end
      else None
  end.

(** StrUnsignedDecimalLiteral, the sign already removed. *)
Definition unsigned_decimal (neg : bool) (s : string) : number :=
  if String.eqb s "Infinity" then S754_infinity neg
  else
    let '(ip, ni, s1) := digits 10 s 0 0 in
    let '(m, nf, s2) :=
      match s1 with
      | String "."%char t => digits 10 t ip 0
      | _ => (ip, 0, s1)
      end in
    if (ni + nf =? 0) then NaN
    else match exponent_part s2 with
         | Some e => of_decimal neg m (e - nf)
         | None => NaN
         end.

Definition prefixed_integer (base : Z) (s : string) : number :=
  match digits base s 0 0 with
  | (v, n, EmptyString) => if 0 <? n then of_Z v else NaN
  | _ => NaN
  end.

(** [+s]: StringToNumber of ECMAScript on the trimmed text. *)
Definition ToNumber (s : string) : number :=
  match JSString.trim s with
  | EmptyString => zero
  | String "0"%char (String c t) as w =>
      if (Ascii.eqb c "x" || Ascii.eqb c "X")%char then prefixed_integer 16 t
      else if (Ascii.eqb c "o" || Ascii.eqb c "O")%char then prefixed_integer 8 t
      else if (Ascii.eqb c "b" || Ascii.eqb c "B")%char then prefixed_integer 2 t
      else unsigned_decimal false w
  | String "+"%char t => unsigned_decimal false t
  | String "-"%char t => unsigned_decimal true t
  | w => unsigned_decimal false w
  end.

End JSNumber.

(** ** Data model of [src/stockfish.ts] *)

Import JSString JSNumber.

(** A field that holds an object once it has been assigned: [undefined]
    before the first assignment, [null] after an explicit clearing. *)
Inductive jsref (A : Type) : Type :=
| undefined : jsref A
| null : jsref A
| obj : A -> jsref A.
Arguments undefined {A}.
Arguments null {A}.
Arguments obj {A} _.

(** Truthiness of such a field, as in [if (this.currentAnalysisOptions)]. *)
Definition truthy {A : Type} (r : jsref A) : bool :=
  match r with obj _ => true | _ => false end.

(** [interface StockfishAnalysisOptions { lines?: number }] *)
Record StockfishAnalysisOptions : Type :=
  { opt_lines : option number }.

Inductive StockfishScoreType : Type := exact | mate | lowerbound | upperbound.

(** [class StockfishScore] *)
Record StockfishScore : Type :=
  { score : number; type : StockfishScoreType }.

(** [interface StockfishLine] *)
Record StockfishLine : Type :=
  { line_score : StockfishScore; moves : list string }.

(** A JavaScript array of lines.  [elems] are the index-addressed slots, a
    hole being [None]; [named] holds the properties written under a key that
    is not an array index ([a[-1] = x], [a[NaN] = x]), which neither
    [length] nor [filter] sees. *)
Record JSArray : Type :=
  { elems : list (option StockfishLine);
    named : list (number * StockfishLine) }.

Definition empty_array : JSArray := {| elems := []; named := [] |}.

(** [interface StockfishAnalysis]; [lines] is [None] when the property is
    [undefined], [noLegalMoves] is [false] when it is absent. *)
Record StockfishAnalysis : Type :=
  { depth : number;
    lines : option JSArray;
    noLegalMoves : bool }.

Inductive State : Type := stopping | ready | terminated.
Inductive Turn : Type := white | black.

(** The commands written to the engine's stdin, one line each:
    [uci], [ucinewgame], [position fen <fen>],
    [position startpos moves <moves>], [setoption name MultiPV value <n>],
    [go infinite], [stop]. *)
Inductive command : Type :=
| uci
| ucinewgame
| position_fen (fen : string)
| position_startpos_moves (mvs : string)
| setoption_MultiPV (n : number)
| go_infinite
| stop.

(** A registered listener is known by the order number the caller gave it. *)
Definition listener := nat.

(** What the instance does to the outside world. *)
Inductive event : Type :=
| Spawn
| Write (c : command)
| Kill
| Call (l : listener) (a : StockfishAnalysis)
| ConsoleLog (text : string)
| ConsoleWarn
| ConsoleError (text : string).

(** The fields of [class StockfishInstance], and the [trace] of its
    effects.  The child process handle [instance] is represented by the
    [Spawn] / [Write] / [Kill] events of the trace. *)
Record StockfishInstance : Type :=
  { id : string;
    bestLines : list (number * JSArray);
    currentDepth : number;
    analysisOptions : jsref StockfishAnalysisOptions;
    analysisListeners : list listener;
    state : State;
    hasStarted : bool;
    turn : option Turn;
    currentAnalysisOptions : jsref StockfishAnalysisOptions;
    stockfishOutputBuffer : string;
    trace : list event }.

Definition set_id (v : string) (s : StockfishInstance) : StockfishInstance :=
  {| id := v; bestLines := bestLines s; currentDepth := currentDepth s;
     analysisOptions := analysisOptions s;
     analysisListeners := analysisListeners s; state := state s;
     hasStarted := hasStarted s; turn := turn s;
     currentAnalysisOptions := currentAnalysisOptions s;
     stockfishOutputBuffer := stockfishOutputBuffer s; trace := trace s |}.

Definition set_bestLines (v : list (number * JSArray)) (s : StockfishInstance) :=
  {| id := id s; bestLines := v; currentDepth := currentDepth s;
     analysisOptions := analysisOptions s;
     analysisListeners := analysisListeners s; state := state s;
     hasStarted := hasStarted s; turn := turn s;
     currentAnalysisOptions := currentAnalysisOptions s;
     stockfishOutputBuffer := stockfishOutputBuffer s; trace := trace s |}.

Definition set_currentDepth (v : number) (s : StockfishInstance) :=
  {| id := id s; bestLines := bestLines s; currentDepth := v;
     analysisOptions := analysisOptions s;
     analysisListeners := analysisListeners s; state := state s;
     hasStarted := hasStarted s; turn := turn s;
     currentAnalysisOptions := currentAnalysisOptions s;
     stockfishOutputBuffer := stockfishOutputBuffer s; trace := trace s |}.

Definition set_analysisOptions (v : jsref StockfishAnalysisOptions) (s : StockfishInstance) :=
  {| id := id s; bestLines := bestLines s; currentDepth := currentDepth s;
     analysisOptions := v;
     analysisListeners := analysisListeners s; state := state s;
     hasStarted := hasStarted s; turn := turn s;
     currentAnalysisOptions := currentAnalysisOptions s;
     stockfishOutputBuffer := stockfishOutputBuffer s; trace := trace s |}.

Definition set_analysisListeners (v : list listener) (s : StockfishInstance) :=
  {| id := id s; bestLines := bestLines s; currentDepth := currentDepth s;
     analysisOptions := analysisOptions s;
     analysisListeners := v; state := state s;
     hasStarted := hasStarted s; turn := turn s;
     currentAnalysisOptions := currentAnalysisOptions s;
     stockfishOutputBuffer := stockfishOutputBuffer s; trace := trace s |}.

Definition set_state (v : State) (s : StockfishInstance) :=
  {| id := id s; bestLines := bestLines s; currentDepth := currentDepth s;
     analysisOptions := analysisOptions s;
     analysisListeners := analysisListeners s; state := v;
     hasStarted := hasStarted s; turn := turn s;
     currentAnalysisOptions := currentAnalysisOptions s;
     stockfishOutputBuffer := stockfishOutputBuffer s; trace := trace s |}.

Definition set_hasStarted (v : bool) (s : StockfishInstance) :=
  {| id := id s; bestLines := bestLines s; currentDepth := currentDepth s;
     analysisOptions := analysisOptions s;
     analysisListeners := analysisListeners s; state := state s;
     hasStarted := v; turn := turn s;
     currentAnalysisOptions := currentAnalysisOptions s;
     stockfishOutputBuffer := stockfishOutputBuffer s; trace := trace s |}.

Definition set_turn (v : option Turn) (s : StockfishInstance) :=
  {| id := id s; bestLines := bestLines s; currentDepth := currentDepth s;
     analysisOptions := analysisOptions s;
     analysisListeners := analysisListeners s; state := state s;
     hasStarted := hasStarted s; turn := v;
     currentAnalysisOptions := currentAnalysisOptions s;
     stockfishOutputBuffer := stockfishOutputBuffer s; trace := trace s |}.

Definition set_currentAnalysisOptions (v : jsref StockfishAnalysisOptions) (s : StockfishInstance) :=
  {| id := id s; bestLines := bestLines s; currentDepth := currentDepth s;
     analysisOptions := analysisOptions s;
     analysisListeners := analysisListeners s; state := state s;
     hasStarted := hasStarted s; turn := turn s;
     currentAnalysisOptions := v;
     stockfishOutputBuffer := stockfishOutputBuffer s; trace := trace s |}.

Definition set_stockfishOutputBuffer (v : string) (s : StockfishInstance) :=
  {| id := id s; bestLines := bestLines s; currentDepth := currentDepth s;
     analysisOptions := analysisOptions s;
     analysisListeners := analysisListeners s; state := state s;
     hasStarted := hasStarted s; turn := turn s;
     currentAnalysisOptions := currentAnalysisOptions s;
     stockfishOutputBuffer := v; trace := trace s |}.

(** Appends effects to the trace. *)
Definition emit (evs : list event) (s : StockfishInstance) :=
  {| id := id s; bestLines := bestLines s; currentDepth := currentDepth s;
     analysisOptions := analysisOptions s;
     analysisListeners := analysisListeners s; state := state s;
     hasStarted := hasStarted s; turn := turn s;
     currentAnalysisOptions := currentAnalysisOptions s;
     stockfishOutputBuffer := stockfishOutputBuffer s;
     trace := (trace s ++ evs)%list |}.

(** [this.instance.stdin.write(...)] *)
Definition write (c : command) (s : StockfishInstance) := emit [Write c] s.

(** The result of a method that can throw: the instance as the method left
    it, and whether it returned or raised. *)
Inductive error : Type := TypeError.

Inductive outcome : Type :=
| Returned (s : StockfishInstance)
| Raised (e : error) (s : StockfishInstance).

Definition final (o : outcome) : StockfishInstance :=
  match o with Returned s => s | Raised _ s => s end.

Definition raised (o : outcome) : bool :=
  match o with Returned _ => false | Raised _ _ => true end.

(** ** [Map<number, StockfishLine[]>] and array stores *)

Definition norm_key (k : number) : number :=
  match k with S754_zero _ => zero | _ => k end.

(** [m.get(k)]; [None] is [undefined]. *)
Fixpoint Map_get (k : number) (m : list (number * JSArray)) : option JSArray :=
  match m with
  | [] => None
  | (k', a) :: m' => if sameValueZero k' k then Some a else Map_get k m'
  end.

(** [m.has(k)] *)
Definition Map_has (k : number) (m : list (number * JSArray)) : bool :=
  match Map_get k m with Some _ => true | None => false end.

(** [m.set(k, a)]: an existing key keeps its place, a new one goes last. *)
Fixpoint Map_set (k : number) (a : JSArray) (m : list (number * JSArray))
  : list (number * JSArray) :=
  match m with
  | [] => [(norm_key k, a)]
  | (k', a') :: m' =>
      if sameValueZero k' k then (k', a) :: m' else (k', a') :: Map_set k a m'
  end.

(** [l[i] = v] on the slots: the array grows by holes when [i] is past the
    end. *)
Fixpoint set_index (i : nat) (v : StockfishLine) (l : list (option StockfishLine))
  : list (option StockfishLine) :=
  match i, l with
  | O, [] => [Some v]
  | O, _ :: t => Some v :: t
  | S i', [] => None :: set_index i' v []
  | S i', h :: t => h :: set_index i' v t
  end.

Fixpoint set_named (k : number) (v : StockfishLine) (l : list (number * StockfishLine))
  : list (number * StockfishLine) :=
  match l with
  | [] => [(k, v)]
  | (k', v') :: l' =>
      if sameValueZero k' k then (k', v) :: l' else (k', v') :: set_named k v l'
  end.

(** [a[key] = v] for a numeric [key]. *)
Definition array_set (a : JSArray) (key : number) (v : StockfishLine) : JSArray :=
  match to_index key with
  | Some i => {| elems := set_index i v (elems a); named := named a |}
  | None => {| elems := elems a; named := set_named key v (named a) |}
  end.

(** [a.filter(line => line != null).length]: holes are skipped by [filter],
    and every stored element is an object. *)
Definition populated (a : JSArray) : nat :=
  List.length (List.filter (fun o => match o with Some _ => true | None => false end) (elems a)).

(** [a.length] *)
Definition array_length (a : JSArray) : nat := List.length (elems a).

(** ** Methods of [StockfishInstance] that touch only the instance *)

Definition newline : ascii := "010"%char.
Definition space : ascii := " "%char.

(** [reset()] *)
Definition reset (s : StockfishInstance) : StockfishInstance :=
  set_analysisListeners [] (set_currentDepth zero (set_bestLines [] s)).

(** [setBoardstateByFen(fen)] *)
Definition setBoardstateByFen (fen : string) (s : StockfishInstance) : StockfishInstance :=
  let s := write (position_fen fen) s in
  let side := List.nth_error (split space fen) 1 in
  set_turn (Some (match side with
                  | Some w => if String.eqb w "w" then white else black
                  | None => black
                  end)) s.

(** [setBoardstateByMoves(moves)] *)
Definition setBoardstateByMoves (mvs : string) (s : StockfishInstance) : StockfishInstance :=
  let s := write (position_startpos_moves mvs) s in
  set_turn (Some (if Nat.eqb (Nat.modulo (List.length (split space mvs)) 2) 0
                  then white else black)) s.

(** [startAnalysing(options)].  The source stores the one [options] object
    in both fields and then fills in its [lines]; both fields therefore see
    the filled-in object. *)
Definition startAnalysing (options : StockfishAnalysisOptions) (s : StockfishInstance)
  : StockfishInstance :=
  let n := match opt_lines options with Some n => n | None => one end in
  let options' := {| opt_lines := Some n |} in
  let s := set_currentAnalysisOptions (obj options') s in
  let s := set_hasStarted true s in
  let s := reset s in
  let s := write (setoption_MultiPV n) s in
  let s := set_analysisOptions (obj options') s in
  write go_infinite s.

(** [stopAnalysing()] *)
Definition stopAnalysing (s : StockfishInstance) : StockfishInstance :=
  let s := set_currentAnalysisOptions null s in
  if negb (hasStarted s) then s
  else set_state stopping (write stop s).

(** [onAnalysisData(listener)] *)
Definition onAnalysisData (l : listener) (s : StockfishInstance) : StockfishInstance :=
  set_analysisListeners (analysisListeners s ++ [l])%list s.

(** [this.analysisListeners.forEach(listener => listener(a))] *)
Definition notify (a : StockfishAnalysis) (s : StockfishInstance) : StockfishInstance :=
  emit (List.map (fun l => Call l a) (analysisListeners s)) s.

(** [processNoLegalMoves()] *)
Definition processNoLegalMoves (s : StockfishInstance) : StockfishInstance :=
  notify {| depth := zero; lines := Some empty_array; noLegalMoves := true |} s.

(** [getCurrentBestLines()] *)
Definition getCurrentBestLines (s : StockfishInstance) : StockfishAnalysis :=
  {| depth := currentDepth s;
     lines := Map_get (currentDepth s) (bestLines s);
     noLegalMoves := false |}.

(** *** [processInfo(line)] *)

(** The guard at the head of [processInfo]: all three markers occur. *)
Definition has_fields (line : string) : bool :=
  negb ((indexOf " score " line 0 =? -1)
        || (indexOf " depth " line 0 =? -1)
        || (indexOf " multipv " line 0 =? -1)).

(** [depth] as [processInfo] reads it. *)
Definition depth_of (line : string) : number :=
  let depthIndexBegin := indexOf " depth " line 0 + 7 in
  let depthIndexEnd := indexOf " " line depthIndexBegin in
  ToNumber (substring line depthIndexBegin depthIndexEnd).

(** [lineNumber] as [processInfo] reads it. *)
Definition lineNumber_of (line : string) : number :=
  let lineNumberIndexBegin := indexOf " multipv " line 0 + 9 in
  let lineNumberIndexEnd := indexOf " " line lineNumberIndexBegin in
  ToNumber (substring line lineNumberIndexBegin lineNumberIndexEnd).

(** [scoreType] as [processInfo] reads it. *)
Definition scoreType_of (line : string) : string :=
  let scoreTypeIndexBegin := indexOf " score " line 0 + 7 in
  let scoreTypeIndexEnd := indexOf " " line scoreTypeIndexBegin in
  substring line scoreTypeIndexBegin scoreTypeIndexEnd.

(** The number after the score type, before any scaling. *)
Definition rawScore_of (line : string) : number :=
  let scoreTypeIndexBegin := indexOf " score " line 0 + 7 in
  let scoreTypeIndexEnd := indexOf " " line scoreTypeIndexBegin in
  let scoreIndexBegin := scoreTypeIndexEnd + 1 in
  let scoreIndexEnd := indexOf " " line scoreIndexBegin in
  ToNumber (substring line scoreIndexBegin scoreIndexEnd).

(** The chain of [if (scoreType == ...)]: [None] is the final [else]. *)
Definition score_of (line : string) : option StockfishScore :=
  let scoreType := scoreType_of line in
  if String.eqb scoreType "cp" then
    Some {| score := div (rawScore_of line) hundred; type := exact |}
  else if String.eqb scoreType "mate" then
    Some {| score := rawScore_of line; type := mate |}
  else if String.eqb scoreType "lowerbound" then
    Some {| score := div (rawScore_of line) hundred; type := lowerbound |}
  else if String.eqb scoreType "upperbound" then
    Some {| score := div (rawScore_of line) hundred; type := upperbound |}
  else None.

(** [if (this.turn == 'black') score.score *= -1] *)
Definition perspective (t : option Turn) (sc : StockfishScore) : StockfishScore :=
  match t with
  | Some black => {| score := mul (score sc) minus_one; type := type sc |}
  | _ => sc
  end.

(** [moves] as [processInfo] reads it. *)
Definition moves_of (line : string) : list string :=
  let movesIndexBegin := indexOf " pv " line 0 + 4 in
  split space (substring_from line movesIndexBegin).

(** The store [linesOfCurrentDepth[lineNumber - 1] = { score, moves }], after
    [bestLines] has been given an array for [depth] if it had none.  The
    array is mutated in place, so the map sees the new content. *)
Definition store (d : number) (rank : number) (l : StockfishLine)
    (m : list (number * JSArray)) : list (number * JSArray) :=
  let m := if Map_has d m then m else Map_set d empty_array m in
  match Map_get d m with
  | Some linesOfCurrentDepth =>
      Map_set d (array_set linesOfCurrentDepth (sub rank one) l) m
  | None => m
  end.

(** The expression
    [numLinesOfCurrentDepth == this.analysisOptions.lines
       || depth > 1 && numLinesOfCurrentDepth == this.bestLines.get(1).length];
    [None] when evaluating it throws a [TypeError] (a property read on
    [undefined]). *)
Definition analysisComplete (d : number) (numLinesOfCurrentDepth : number)
    (s : StockfishInstance) : option bool :=
  match analysisOptions s with
  | obj options =>
      let requested :=
        match opt_lines options with
        | Some n => eqb numLinesOfCurrentDepth n
        | None => false
        end in
      if requested then Some true
      else if ltb one d then
        match Map_get one (bestLines s) with
        | Some linesOfDepthOne =>
            Some (eqb numLinesOfCurrentDepth (of_nat (array_length linesOfDepthOne)))
        | None => None
        end
      else Some false
  | _ => None
  end.

Definition processInfo (line : string) (s : StockfishInstance) : outcome :=
  if negb (has_fields line) then Returned s
  else
    let d := depth_of line in
    let lineNumber := lineNumber_of line in
    match score_of line with
    | None =>
        Returned (emit [ConsoleError ("Stockfish: unknown score type: " ++ scoreType_of line)] s)
    | Some sc =>
        let sc := perspective (turn s) sc in
        let mvs := moves_of line in
        let s := set_bestLines
                   (store d lineNumber {| line_score := sc; moves := mvs |} (bestLines s)) s in
        let linesOfCurrentDepth := Map_get d (bestLines s) in
        let numLinesOfCurrentDepth :=
          of_nat (match linesOfCurrentDepth with Some a => populated a | None => O end) in
        match analysisComplete d numLinesOfCurrentDepth s with
        | None => Raised TypeError s
        | Some complete =>
            let s := if complete
                     then notify {| depth := d; lines := linesOfCurrentDepth;
                                    noLegalMoves := false |} s
                     else s in
            Returned (if complete && ltb (currentDepth s) d
                      then set_currentDepth d s else s)
        end
    end.

(** *** [process(chunk)] *)

(** The body of the [for] loop of [process], for one line. *)
Definition process_line (line : string) (s : StockfishInstance) : outcome :=
  let s := if startsWith "bestmove" line then set_state ready s else s in
  match state s with
  | ready =>
      if startsWith "info" line then
        if includes "pv" line then processInfo line s
        else if includes "mate 0" line || includes "cp 0" line then
          Returned (processNoLegalMoves s)
        else if includes "currmove" line || includes "NNUE evaluation" line then
          Returned s
        else
          Returned (emit [ConsoleLog "[ Stockfish: not processed ]:"; ConsoleLog line] s)
      else Returned s
  | _ => Returned s
  end.

(** The [for] loop: an exception leaves the loop. *)
Fixpoint process_lines (ls : list string) (s : StockfishInstance) : outcome :=
  match ls with
  | [] => Returned s
  | line :: ls' =>
      match process_line line s with
      | Returned s' => process_lines ls' s'
      | Raised e s' => Raised e s'
      end
  end.

Definition process (chunk : string) (s : StockfishInstance) : outcome :=
  let ls := List.filter (fun line => 0 <? len (trim line)) (split newline chunk) in
  process_lines ls s.

(** *** The handler of the [data] event of the engine's stdout

    The handler begins with the echo of the chunk to the console under
    [process.env.DEBUG == 'true'] and goes on with the buffer and
    [process].  [onData] is the handler from the statement that prepends
    the buffer on; [onStdoutData], below, is the whole handler: the echo,
    then [onData]. *)

Definition onData (chunk : string) (s : StockfishInstance) : outcome :=
  let chunk := stockfishOutputBuffer s ++ chunk in
  let lastNewline := lastIndexOf newline chunk in
  let s :=
    if negb (lastNewline =? len chunk - 1)
    then set_stockfishOutputBuffer (slice_from chunk (lastNewline + 1)) s
    else set_stockfishOutputBuffer "" s in
  process (slice chunk 0 lastNewline) s.

(** Chunks arrive in order; an exception thrown by the handler is not caught
    by it, and the chunks after it are not looked at here. *)
Fixpoint feed (chunks : list string) (s : StockfishInstance) : outcome :=
  match chunks with
  | [] => Returned s
  | c :: cs =>
      match onData c s with
      | Returned s' => feed cs s'
      | Raised e s' => Raised e s'
      end
  end.

(** [process.env.DEBUG == 'true']: the variable is not set ([None]) or
    holds a string. *)
Definition debug_enabled (DEBUG : option string) : bool :=
  match DEBUG with
  | Some v => String.eqb v "true"
  | None => false
  end.

(** The first statement of the handler. *)
Definition echo (DEBUG : option string) (chunk : string) (s : StockfishInstance)
  : StockfishInstance :=
  if debug_enabled DEBUG
  then emit [ConsoleError ("[ Stockfish ] <<< " ++ chunk)] s
  else s.

(** The handler that [initialise] registers for the [data] event. *)
Definition onStdoutData (DEBUG : option string) (chunk : string) (s : StockfishInstance)
  : outcome :=
  onData chunk (echo DEBUG chunk s).

(** One [data] event after the other; as in [apply_call] below, an exception
    thrown inside the handler leaves the instance as it was at the [throw]. *)
Fixpoint onStdoutChunks (DEBUG : option string) (chunks : list string)
    (s : StockfishInstance) : StockfishInstance :=
  match chunks with
  | [] => s
  | c :: cs => onStdoutChunks DEBUG cs (final (onStdoutData DEBUG c s))
  end.

(** ** The pool: the static maps of the class and the instances they hold *)

(** A reference to an instance object: its position in the [heap]. *)
Definition ref := nat.

(** [Map<string, StockfishInstance>], in insertion order (the order in which
    [values()] iterates). *)
Module StringMap.

Definition t := list (string * ref).

Fixpoint get (k : string) (m : t) : option ref :=
  match m with
  | [] => None
  | (k', r) :: m' => if String.eqb k' k then Some r else get k m'
  end.

Definition has (k : string) (m : t) : bool :=
  match get k m with Some _ => true | None => false end.

Fixpoint set (k : string) (r : ref) (m : t) : t :=
  match m with
  | [] => [(k, r)]
  | (k', r') :: m' =>
      if String.eqb k' k then (k', r) :: m' else (k', r') :: set k r m'
  end.

Fixpoint delete (k : string) (m : t) : t :=
  match m with
  | [] => []
  | (k', r') :: m' =>
      if String.eqb k' k then m' else (k', r') :: delete k m'
  end.

Definition size (m : t) : nat := List.length m.

(** [m.values().next().value] *)
Definition first (m : t) : option ref :=
  match m with
  | [] => None
  | (_, r) :: _ => Some r
  end.

End StringMap.

Record Pool : Type :=
  { heap : list StockfishInstance;
    usedInstances : StringMap.t;
    idleInstances : StringMap.t }.

Definition MAX_IDLE_INSTANCES : nat := 4.

Definition empty_pool : Pool :=
  {| heap := []; usedInstances := []; idleInstances := [] |}.

Definition deref (p : Pool) (r : ref) : option StockfishInstance :=
  List.nth_error (heap p) r.

Fixpoint replace_nth {A : Type} (n : nat) (x : A) (l : list A) : list A :=
  match n, l with
  | _, [] => []
  | O, _ :: t => x :: t
  | S n', h :: t => h :: replace_nth n' x t
  end.

(** Writes the fields of the object behind [r]. *)
Definition assign (r : ref) (s : StockfishInstance) (p : Pool) : Pool :=
  {| heap := replace_nth r s (heap p);
     usedInstances := usedInstances p;
     idleInstances := idleInstances p |}.

Definition set_used (m : StringMap.t) (p : Pool) : Pool :=
  {| heap := heap p; usedInstances := m; idleInstances := idleInstances p |}.

Definition set_idle (m : StringMap.t) (p : Pool) : Pool :=
  {| heap := heap p; usedInstances := usedInstances p; idleInstances := m |}.

(** Applies a method that touches only the instance to the object behind
    [r].  [None] stands for a reference to no object, which no JavaScript
    caller can hold. *)
Definition on_instance (f : StockfishInstance -> StockfishInstance) (r : ref) (p : Pool)
  : option Pool :=
  match deref p r with
  | Some s => Some (assign r (f s) p)
  | None => None
  end.

(** A freshly allocated object, before the constructor body has run:
    [hasStarted = false] is the one field initialiser of the class; [state]
    is assigned before anything reads it. *)
Definition blank : StockfishInstance :=
  {| id := ""; bestLines := []; currentDepth := zero;
     analysisOptions := undefined; analysisListeners := [];
     state := ready; hasStarted := false; turn := None;
     currentAnalysisOptions := undefined;
     stockfishOutputBuffer := ""; trace := [] |}.

(** [initialise()], on the object behind [r].  [fresh] is the value that
    [randomBytes(16).toString('hex')] returns in this call. *)
Definition initialise (fresh : string) (r : ref) (p : Pool) : option Pool :=
  match deref p r with
  | None => None
  | Some s =>
      let s := set_id fresh s in
      let s := emit [Spawn] s in
      let s := reset s in
      let p := set_idle (StringMap.set (id s) r (idleInstances p)) p in
      let s := set_stockfishOutputBuffer "" s in
      let s := write uci s in
      let s := write ucinewgame s in
      let s := set_state ready s in
      Some (assign r s p)
  end.

(** [new StockfishInstance()]: allocation, then [initialise()]. *)
Definition construct (fresh : string) (p : Pool) : option (Pool * ref) :=
  let r := List.length (heap p) in
  let p := {| heap := (heap p ++ [blank])%list;
              usedInstances := usedInstances p;
              idleInstances := idleInstances p |} in
  match initialise fresh r p with
  | Some p' => Some (p', r)
  | None => None
  end.

(** [static getInstance()].  [fresh] is consumed only when an instance is
    constructed. *)
Definition getInstance (fresh : string) (p : Pool) : option (Pool * ref) :=
  if (0 <? StringMap.size (idleInstances p))%nat then
    match StringMap.first (idleInstances p) with
    | Some instance =>
        match deref p instance with
        | Some s =>
            let p := set_idle (StringMap.delete (id s) (idleInstances p)) p in
            let p := set_used (StringMap.set (id s) instance (usedInstances p)) p in
            Some (p, instance)
        | None => None
        end
    | None => None
    end
  else
    match construct fresh p with
    | Some (p, instance) =>
        match deref p instance with
        | Some s =>
            let p := set_used (StringMap.set (id s) instance (usedInstances p)) p in
            Some (p, instance)
        | None => None
        end
    | None => None
    end.

(** [terminate()] *)
Definition terminate (r : ref) (p : Pool) : option Pool :=
  match deref p r with
  | None => None
  | Some s =>
      let p := set_used (StringMap.delete (id s) (usedInstances p)) p in
      let p := set_idle (StringMap.delete (id s) (idleInstances p)) p in
      let s := set_state terminated s in
      let s := emit [Kill] s in
      Some (assign r s p)
  end.

(** [stopUsing()] *)
Definition stopUsing (r : ref) (p : Pool) : option Pool :=
  match deref p r with
  | None => None
  | Some s =>
      let p := set_used (StringMap.delete (id s) (usedInstances p)) p in
      if Nat.eqb (StringMap.size (idleInstances p)) MAX_IDLE_INSTANCES then
        terminate r p
      else
        Some (set_idle (StringMap.set (id s) r (idleInstances p)) p)
  end.

(** The handler of the [exit] event of the child process of the object
    behind [r]. *)
Definition onExit (fresh : string) (r : ref) (p : Pool) : option Pool :=
  match deref p r with
  | None => None
  | Some s =>
      match state s with
      | terminated => Some p
      | _ =>
          let p := assign r (emit [ConsoleWarn] s) p in
          match initialise fresh r p with
          | None => None
          | Some p =>
              match deref p r with
              | None => None
              | Some s =>
                  match currentAnalysisOptions s with
                  | obj options => Some (assign r (startAnalysing options s) p)
                  | _ => Some p
                  end
              end
          end
      end
  end.

(** ** Sessions: the calls a client and the engine make on one instance *)

(** The complete lines that the [data] handler passes on when [chunk]
    arrives while [buffer] is carried over, and the buffer it leaves. *)
Definition ready_lines (buffer chunk : string) : list string :=
  let chunk := buffer ++ chunk in
  List.filter (fun line => 0 <? len (trim line))
              (split newline (slice chunk 0 (lastIndexOf newline chunk))).

Definition carried (buffer chunk : string) : string :=
  let chunk := buffer ++ chunk in
  let lastNewline := lastIndexOf newline chunk in
  if negb (lastNewline =? len chunk - 1) then slice_from chunk (lastNewline + 1) else "".

Inductive call : Type :=
| SetFen (fen : string)
| SetMoves (mvs : string)
| Start (options : StockfishAnalysisOptions)
| Stop
| Listen (l : listener)
| Data (chunk : string).

(** One call.  [Data chunk] is a [data] event while [DEBUG] is not
    ['true'], so that the handler's echo is off.  An exception thrown inside
    the [data] handler leaves the instance as it was at the [throw]. *)
Definition apply_call (c : call) (s : StockfishInstance) : StockfishInstance :=
  match c with
  | SetFen fen => setBoardstateByFen fen s
  | SetMoves mvs => setBoardstateByMoves mvs s
  | Start options => startAnalysing options s
  | Stop => stopAnalysing s
  | Listen l => onAnalysisData l s
  | Data chunk => final (onData chunk s)
  end.

Fixpoint run (cs : list call) (s : StockfishInstance) : StockfishInstance :=
  match cs with
  | [] => s
  | c :: cs' => run cs' (apply_call c s)
  end.

Definition is_start (c : call) : bool :=
  match c with Start _ => true | _ => false end.

(** All the lines that reach the loop of [process] during [cs], the first
    chunk meeting [buffer]. *)
Fixpoint lines_processed (buffer : string) (cs : list call) : list string :=
  match cs with
  | [] => []
  | Data chunk :: cs' =>
      (ready_lines buffer chunk ++ lines_processed (carried buffer chunk) cs')%list
  | _ :: cs' => lines_processed buffer cs'
  end.

(** The effects a method added to the trace. *)
Definition emitted (before after : StockfishInstance) : list event :=
  List.skipn (List.length (trace before)) (trace after).

(** Order on depths: equal, or strictly smaller by the comparison of the
    source ([b > a]). *)
Definition depth_le (a b : number) : Prop := a = b \/ ltb a b = true.

(** A line that [process] and [processInfo] decode and store: an [info] line
    with [pv] in it, the three markers, and one of the four score types. *)
Definition decodable (line : string) : bool :=
  startsWith "info" line && includes "pv" line && has_fields line
  && match score_of line with Some _ => true | None => false end.

(** The effects of [processInfo] and of [process_line]: console output and
    listener calls, nothing sent to or done with the engine process. *)
Definition quiet (e : event) : Prop :=
  match e with
  | Call _ _ | ConsoleLog _ | ConsoleError _ => True
  | _ => False
  end.

(** A line that does not put anything under depth 0: if it is decodable,
    the depth it carries is not zero. *)
Definition nonzero_depth (line : string) : Prop :=
  decodable line = true -> sameValueZero (depth_of line) zero = false.

(** What a discarded line may do: nothing to [bestLines], [currentDepth]
    and [state], and only quiet effects. *)
Definition unchanged (s s' : StockfishInstance) : Prop :=
  bestLines s' = bestLines s /\
  currentDepth s' = currentDepth s /\
  state s' = state s /\
  exists evs : list event, trace s' = (trace s ++ evs)%list /\ Forall quiet evs.

(** A line that [process] discards: not the [bestmove] sentinel, and not
    decodable. *)
Definition discarded (line : string) : Prop :=
  startsWith "bestmove" line = false /\ decodable line = false.

(** ** The wording of the specification, for comparison *)

(** Completion test as the specification words it: the populated count at
    [d] equals the requested line count, or [d > 1] and the populated count
    at [d] equals the populated count recorded at depth 1. *)
Definition populated_at (d : number) (m : list (number * JSArray)) : number :=
  of_nat (match Map_get d m with Some a => populated a | None => O end).

Definition completion_test_spec (requested : number) (m : list (number * JSArray))
    (d : number) : bool :=
  eqb (populated_at d m) requested
  || (ltb one d && eqb (populated_at d m) (populated_at one m)).

(** Terminal position as the specification words it: a zero-magnitude score
    combined with a mate-in-zero marker. *)
Definition terminal_position_spec (line : string) : bool :=
  includes "cp 0" line && includes "mate 0" line.

(** ** Concrete instances and lines used below *)

Definition nl : string := String newline "".

Definition fen_black_to_move : string :=
  "rnbqkbnr/pppp1ppp/8/4p3/4P3/2N5/PPPP1PPP/R1BQKBNR b KQkq - 0 1".

Definition three : number := of_Z 3.
Definition minus_half : number := S754_finite true 4503599627370496 (-53).

(** An instance in a session with one line requested, black to move, and
    one listener. *)
Definition session_black : StockfishInstance :=
  run [SetFen fen_black_to_move; Start {| opt_lines := None |}; Listen 0%nat] blank.

(** An instance in a session with three lines requested, and one listener. *)
Definition session_three : StockfishInstance :=
  run [SetMoves "e2e4 e7e5"; Start {| opt_lines := Some three |}; Listen 0%nat] blank.

Definition info_line (d rank kind value pv : string) : string :=
  "info depth " ++ d ++ " seldepth " ++ d ++ " multipv " ++ rank
    ++ " score " ++ kind ++ " " ++ value ++ " nodes 20 nps 1000 time 1 pv " ++ pv.

(** Example lines. *)
Definition depth5_rank2 : string := info_line "5" "2" "cp" "20" "d2d4 d7d5".
Definition depth2_rank1 : string := info_line "2" "1" "cp" "12" "e2e4".
Definition depth10_black : string := info_line "10" "1" "cp" "50" "e7e5".
Definition depth0_line : string := info_line "0" "1" "cp" "10" "e2e4".
Definition stalemate_line : string := "info depth 0 score cp 0".
Definition checkmate_line : string := "info depth 0 score mate 0".

(** One line of depth 1, and the two chunks it makes when the stream is cut
    inside its last move. *)
Definition depth1_line : string := info_line "1" "1" "cp" "10" "e2e4".
Definition head_chunk : string :=
  "info depth 1 seldepth 1 multipv 1 score cp 10 nodes 20 nps 1000 time 1 pv e2".
Definition tail_chunk : string := "e4" ++ nl.

(** An instance in a session with one line requested, white to move, and
    one listener. *)
Definition session_one : StockfishInstance :=
  run [SetMoves "e2e4 e7e5"; Start {| opt_lines := None |}; Listen 0%nat] blank.

Definition tenth : number := div (of_Z 10) hundred.

(** The state in which the specification's completion example is decided:
    three lines requested, the engine has reported ranks 1 and 2 at depth 1
    and rank 1 at depth 5. *)
Definition two_ranks_reported : StockfishInstance :=
  run [Data (info_line "1" "1" "cp" "31" "e2e4" ++ nl
             ++ info_line "1" "2" "cp" "25" "d2d4" ++ nl
             ++ info_line "5" "1" "cp" "34" "e2e4 e7e5 g1f3" ++ nl)]
      session_three.

(** A state in which the array of depth 1 has a hole: three lines requested,
    the only line received is rank 2 of depth 1. *)
Definition depth_one_sparse : StockfishInstance :=
  run [Data (info_line "1" "2" "cp" "25" "d2d4" ++ nl)] session_three.

(** A constructed instance, started with three lines requested. *)
Definition started_instance : StockfishInstance :=
  startAnalysing {| opt_lines := Some three |}
    (set_state ready (write ucinewgame (write uci
       (set_stockfishOutputBuffer "" (reset (emit [Spawn] (set_id "a3f1" blank))))))).

(** A pool in which the instance handed out by the first [getInstance] has
    been started with three lines. *)
Definition pool_in_session : Pool :=
  match getInstance "a3f1" empty_pool with
  | Some (p, r) =>
      match on_instance (startAnalysing {| opt_lines := Some three |}) r p with
      | Some p' => p'
      | None => p
      end
  | None => empty_pool
  end.



(** ** Further vocabulary for the properties of the parser and the pool *)

(** Whether the character [c] occurs in [s], and how often. *)
Fixpoint has_char (c : ascii) (s : string) : bool :=
  match s with
  | EmptyString => false
  | String b s' => Ascii.eqb b c || has_char c s'
  end.

Fixpoint count_char (c : ascii) (s : string) : nat :=
  match s with
  | EmptyString => O
  | String b s' => (if Ascii.eqb b c then 1 else 0) + count_char c s'
  end.

(** [l.join(sep)] for a one-character separator. *)
Fixpoint join (sep : ascii) (l : list string) : string :=
  match l with
  | [] => EmptyString
  | [w] => w
  | w :: l' => w ++ String sep (join sep l')
  end.

(** [bestLines.get(d)?.[j]]: the line stored for rank [j + 1] of depth [d];
    [None] is [undefined] (no array for [d], a hole, or past the end). *)
Definition slot (m : list (number * JSArray)) (d : number) (j : nat)
  : option StockfishLine :=
  match Map_get d m with
  | Some a =>
      match List.nth_error (elems a) j with
      | Some (Some l) => Some l
      | _ => None
      end
  | None => None
  end.


(** The keys of a [Map] are distinct. *)
Definition keys_unique (m : StringMap.t) : Prop := NoDup (List.map fst m).

(** The calls on the pool that are under the caller's control. *)
Inductive pool_call : Type :=
| Acquire (fresh : string)
| Release (r : ref)
| Terminate (r : ref).

Definition pool_step (c : pool_call) (p : Pool) : option Pool :=
  match c with
  | Acquire fresh =>
      match getInstance fresh p with
      | Some (p', _) => Some p'
      | None => None
      end
  | Release r => stopUsing r p
  | Terminate r => terminate r p
  end.

Fixpoint pool_run (cs : list pool_call) (p : Pool) : option Pool :=
  match cs with
  | [] => Some p
  | c :: cs' =>
      match pool_step c p with
      | Some p' => pool_run cs' p'
      | None => None
      end
  end.

(** A pool in which five instances have been handed out (each instance twice,
    see [getInstance]) and four of them released: the idle map is full and
    instance 4 is still in use. *)
Definition pool_at_capacity : Pool :=
  match pool_run [Acquire "a0"; Acquire "b0"; Acquire "a1"; Acquire "b1";
                  Acquire "a2"; Acquire "b2"; Acquire "a3"; Acquire "b3";
                  Acquire "a4"; Acquire "b4";
                  Release 0%nat; Release 1%nat; Release 2%nat; Release 3%nat]
                 empty_pool with
  | Some p => p
  | None => empty_pool
  end.

(** No position is sent to the engine by this effect. *)
Definition no_position (e : event) : Prop :=
  match e with
  | Write (position_fen _) | Write (position_startpos_moves _) => False
  | _ => True
  end.


(** The instance [s] had its effects come after the effects [earlier]. *)
Definition with_earlier (earlier : list event) (s : StockfishInstance)
  : StockfishInstance :=
  {| id := id s; bestLines := bestLines s; currentDepth := currentDepth s;
     analysisOptions := analysisOptions s;
     analysisListeners := analysisListeners s; state := state s;
     hasStarted := hasStarted s; turn := turn s;
     currentAnalysisOptions := currentAnalysisOptions s;
     stockfishOutputBuffer := stockfishOutputBuffer s;
     trace := (earlier ++ trace s)%list |}.

(** The instance with no effects recorded. *)
Definition without_trace (s : StockfishInstance) : StockfishInstance :=
  {| id := id s; bestLines := bestLines s; currentDepth := currentDepth s;
     analysisOptions := analysisOptions s;
     analysisListeners := analysisListeners s; state := state s;
     hasStarted := hasStarted s; turn := turn s;
     currentAnalysisOptions := currentAnalysisOptions s;
     stockfishOutputBuffer := stockfishOutputBuffer s;
     trace := [] |}.

Definition outcome_map (f : StockfishInstance -> StockfishInstance) (o : outcome)
  : outcome :=
  match o with
  | Returned s => Returned (f s)
  | Raised e s => Raised e (f s)
  end.

(** ** The request handlers of [src/routes.ts]

    A handler receives the parsed JSON body and answers with a status code
    and a body.  What [res.end] sends is kept structured: the fixed texts are
    constructors, the two JSON answers carry the value that is serialised.
    The handlers do not yield between reading the pool and answering, so each
    is one step on the pool.  [None] stands for a reference to no object, as
    in [on_instance]. *)

Module Routes.

(** [interface StartAnalysingRequest { moves?, fen?, lines? }] *)
Record StartAnalysingRequest : Type :=
  { req_moves : option string;
    req_fen : option string;
    req_lines : option number }.

(** [interface StopAnalysisRequest { id }] *)
Record StopAnalysisRequest : Type := { stop_id : option string }.

(** [interface GetBestLinesRequest { id }] *)
Record GetBestLinesRequest : Type := { query_id : option string }.

(** What is sent: the text about the missing moves or fen field, the text
    about the missing id field, the text that no analysis with the given ID
    was found, the text that the analysis has been stopped, the
    [StartAnalysingResponse] with its [id], and the answer of
    [getCurrentBestLines]. *)
Inductive body : Type :=
| MissingMovesOrFen
| MissingId
| NoAnalysisFound
| AnalysisStopped
| StartAnalysingResponse (id : string)
| BestLines (a : StockfishAnalysis).

Record response : Type := { statusCode : nat; sent : body }.

(** The part of [startAnalysing] after the check of the body: an instance
    is taken from the pool, given the position by [setBoardstate], started
    with the requested line count, and its [id] is answered. *)
Definition start_on (setBoardstate : StockfishInstance -> StockfishInstance)
    (fresh : string) (req : StartAnalysingRequest) (p : Pool)
  : option (response * Pool) :=
  match getInstance fresh p with
  | None => None
  | Some (p, stockfishInstance) =>
      match on_instance
              (fun s => startAnalysing {| opt_lines := req_lines req |} (setBoardstate s))
              stockfishInstance p with
      | None => None
      | Some p =>
          match deref p stockfishInstance with
          | None => None
          | Some s =>
              Some ({| statusCode := 200; sent := StartAnalysingResponse (id s) |}, p)
          end
      end
  end.

(** [export const startAnalysing]; [fresh] is what [randomBytes] returns if
    an instance is constructed. *)
Definition startAnalysing (fresh : string) (req : StartAnalysingRequest) (p : Pool)
  : option (response * Pool) :=
  match req_moves req, req_fen req with
  | None, None => Some ({| statusCode := 400; sent := MissingMovesOrFen |}, p)
  | None, Some f => start_on (setBoardstateByFen f) fresh req p
  | Some m, _ => start_on (setBoardstateByMoves m) fresh req p
  end.

(** [export const stopAnalysing] *)
Definition stopAnalysing (req : StopAnalysisRequest) (p : Pool)
  : option (response * Pool) :=
  match stop_id req with
  | None => Some ({| statusCode := 400; sent := MissingId |}, p)
  | Some i =>
      match StringMap.get i (usedInstances p) with
      | None => Some ({| statusCode := 404; sent := NoAnalysisFound |}, p)
      | Some stockfishInstance =>
          match on_instance stopAnalysing stockfishInstance p with
          | None => None
          | Some p =>
              match stopUsing stockfishInstance p with
              | None => None
              | Some p => Some ({| statusCode := 200; sent := AnalysisStopped |}, p)
              end
          end
      end
  end.

(** [export const getBestLines] *)
Definition getBestLines (req : GetBestLinesRequest) (p : Pool)
  : option (response * Pool) :=
  match query_id req with
  | None => Some ({| statusCode := 400; sent := MissingId |}, p)
  | Some i =>
      match StringMap.get i (usedInstances p) with
      | None => Some ({| statusCode := 404; sent := NoAnalysisFound |}, p)
      | Some stockfishInstance =>
          match deref p stockfishInstance with
          | None => None
          | Some s =>
              Some ({| statusCode := 200; sent := BestLines (getCurrentBestLines s) |}, p)
          end
      end
  end.

End Routes.

(** Every instance that the idle map names is allocated. *)
Definition idle_allocated (p : Pool) : Prop :=
  Forall (fun kr => (snd kr < List.length (heap p))%nat) (idleInstances p).

(** Every instance that the used map names is allocated. *)
Definition used_allocated (p : Pool) : Prop :=
  Forall (fun kr => (snd kr < List.length (heap p))%nat) (usedInstances p).


(** The line in place [j] of an array, if the place is populated. *)
Definition slot_of (e : list (option StockfishLine)) (j : nat) : option StockfishLine :=
  match List.nth_error e j with
  | Some (Some l) => Some l
  | _ => None
  end.

(** [getCurrentBestLines] has lines to answer unless [currentDepth] is 0. *)
Definition query_defined (s : StockfishInstance) : Prop :=
  currentDepth s = zero \/ Map_get (currentDepth s) (bestLines s) <> None.

(** Calls go to registered listeners only, and the list of listeners is
    left alone. *)
Definition calls_registered (s s' : StockfishInstance) : Prop :=
  analysisListeners s' = analysisListeners s /\
  exists evs : list event,
    trace s' = (trace s ++ evs)%list /\
    forall l a, In (Call l a) evs -> In l (analysisListeners s).

(** * Properties *)

(** The string and number primitives are reasoned about through their
    lemmas, and evaluated only on closed terms. *)
Arguments startsWith : simpl never.
Arguments includes : simpl never.
Arguments indexOf : simpl never.
Arguments substring : simpl never.
Arguments has_fields : simpl never.
Arguments depth_of : simpl never.
Arguments lineNumber_of : simpl never.
Arguments score_of : simpl never.
Arguments scoreType_of : simpl never.
Arguments moves_of : simpl never.
Arguments store : simpl never.
Arguments analysisComplete : simpl never.
Arguments ltb : simpl never.
Arguments eqb : simpl never.
Arguments of_nat : simpl never.
Arguments String.append : simpl never.

(** ** Numbers: comparison and key equality *)

Lemma SFcompare_Eq_iff (x y : number) :
  SFcompare x y = Some Eq <-> (x <> S754_nan /\ norm_key x = norm_key y).
Proof.
  split.
  - destruct x as [sx|sx| |sx mx ex], y as [sy|sy| |sy my ey]; simpl; try discriminate;
      try (destruct sx; discriminate); try (destruct sy; discriminate).
    + intros _. split; [discriminate | reflexivity].
    + destruct sx, sy; try discriminate; intros _; split; (discriminate || reflexivity).
    + destruct sx, sy; try discriminate.
      * destruct (Z.compare_spec ex ey); try discriminate.
        intros E. injection E as E. apply CompOpp_iff in E. simpl in E.
        apply Pos.compare_eq in E. subst. split; (discriminate || reflexivity).
      * destruct (Z.compare_spec ex ey); try discriminate.
        intros E. injection E as E.
        apply Pos.compare_eq in E. subst. split; (discriminate || reflexivity).
  - intros [Hn E].
    destruct x as [sx|sx| |sx mx ex], y as [sy|sy| |sy my ey]; simpl in *; try discriminate;
      try congruence.
    + injection E as <-. destruct sx; reflexivity.
    + injection E as <- <- <-. rewrite Z.compare_refl, Pos.compare_cont_refl.
      destruct sx; reflexivity.
Qed.

Lemma sameValueZero_iff (x y : number) :
  sameValueZero x y = true <-> norm_key x = norm_key y.
Proof.
  unfold sameValueZero, SFeqb.
  destruct x as [sx|sx| |sx mx ex] eqn:Ex; rewrite <- Ex.
  all: try (destruct (SFcompare x y) as [[]|] eqn:C;
    [ apply SFcompare_Eq_iff in C; destruct C as [_ C]; split; [intros _; exact C | reflexivity]
    | split; [discriminate | intros E; assert (SFcompare x y = Some Eq) as C'
        by (apply SFcompare_Eq_iff; split; [subst x; discriminate | exact E]); congruence ] .. ]).
  subst x. destruct y; simpl; split; try discriminate; reflexivity.
Qed.

Lemma sameValueZero_refl (x : number) : sameValueZero x x = true.
Proof. apply sameValueZero_iff. reflexivity. Qed.

Lemma sameValueZero_false_iff (x y : number) :
  sameValueZero x y = false <-> norm_key x <> norm_key y.
Proof.
  rewrite <- sameValueZero_iff. destruct (sameValueZero x y); split; congruence.
Qed.

Lemma norm_key_idem (x : number) : norm_key (norm_key x) = norm_key x.
Proof. destruct x; reflexivity. Qed.

(** [a > b] and [b > c] give [a > c]. *)
Lemma ltb_trans (a b c : number) :
  ltb a b = true -> ltb b c = true -> ltb a c = true.
Proof.
  unfold ltb, SFltb.
  destruct a as [sa|sa| |sa ma ea], b as [sb|sb| |sb mb eb], c as [sc|sc| |sc mc ec];
    simpl; try discriminate; try reflexivity;
    try (destruct sa, sb, sc; simpl; try discriminate; try reflexivity; fail);
    try (destruct sa, sb; simpl; try discriminate; try reflexivity; fail);
    try (destruct sa, sc; simpl; try discriminate; try reflexivity; fail);
    try (destruct sb, sc; simpl; try discriminate; try reflexivity; fail).
  all: destruct sa, sb, sc; simpl; try discriminate; try reflexivity.
  all: repeat match goal with
       | |- context [Z.compare ?x ?y] => destruct (Z.compare_spec x y)
       end; simpl; try discriminate; try reflexivity; subst; try lia.
  all: rewrite ?Pos.compare_cont_spec; simpl;
       repeat match goal with
       | |- context [Pos.compare ?x ?y] => destruct (Pos.compare_spec x y)
       end; simpl; try discriminate; try reflexivity; subst; try lia.
Qed.

Lemma ltb_irrefl (a : number) : ltb a a = false.
Proof.
  unfold ltb, SFltb. destruct (SFcompare a a) as [[]|] eqn:C; try reflexivity.
  destruct a as [sa|sa| |sa ma ea]; simpl in C; try discriminate.
  - destruct sa; discriminate.
  - rewrite Z.compare_refl, Pos.compare_cont_refl in C. destruct sa; discriminate.
Qed.

(** ** The pool *)

Lemma nth_error_replace_nth {A : Type} (l : list A) (n : nat) (x : A) :
  (n < List.length l)%nat -> List.nth_error (replace_nth n x l) n = Some x.
Proof.
  revert n. induction l as [|h t IH]; intros [|n] Hn; simpl in *; try lia.
  - reflexivity.
  - apply IH. lia.
Qed.

Lemma nth_error_snoc {A : Type} (l : list A) (x : A) :
  List.nth_error (l ++ [x]) (List.length l) = Some x.
Proof. induction l; simpl; auto. Qed.

Lemma StringMap_get_set (k : string) (r : ref) (m : StringMap.t) :
  StringMap.get k (StringMap.set k r m) = Some r.
Proof.
  induction m as [|[k' r'] m IH]; simpl.
  - rewrite String.eqb_refl. reflexivity.
  - destruct (String.eqb k' k) eqn:E; simpl; rewrite E; auto.
Qed.

Lemma StringMap_get_set_other (k k' : string) (r : ref) (m : StringMap.t) :
  k <> k' -> StringMap.get k' (StringMap.set k r m) = StringMap.get k' m.
Proof.
  intros Hk. induction m as [|[k0 r0] m IH]; simpl.
  - apply String.eqb_neq in Hk. rewrite Hk. reflexivity.
  - destruct (String.eqb k0 k) eqn:E; simpl.
    + apply String.eqb_eq in E. subst k0.
      apply String.eqb_neq in Hk. rewrite Hk. reflexivity.
    + rewrite IH. reflexivity.
Qed.

(** C1.  [getInstance] on a pool with no idle instance constructs one,
    which registers itself as idle, and then only adds it to the used map:
    the new identifier is a key of both maps, bound to the same object, and
    the next [getInstance] hands that object out a second time. *)
Theorem getInstance_constructed_is_idle_and_used :
  forall (fresh : string) (p : Pool),
    idleInstances p = [] ->
    exists (p' : Pool) (r : ref),
      getInstance fresh p = Some (p', r) /\
      StringMap.get fresh (idleInstances p') = Some r /\
      StringMap.get fresh (usedInstances p') = Some r /\
      forall fresh' : string,
        exists p'' : Pool, getInstance fresh' p' = Some (p'', r).
Proof.
  intros fresh p Hidle.
  unfold getInstance. rewrite Hidle. simpl.
  unfold construct, initialise, deref. simpl.
  rewrite nth_error_snoc. simpl.
  rewrite nth_error_replace_nth by (rewrite length_app; simpl; lia).
  simpl. rewrite Hidle. simpl.
  eexists _, _. split; [reflexivity|]. simpl.
  rewrite String.eqb_refl. split; [reflexivity|].
  split; [apply StringMap_get_set|].
  intros fresh'. unfold getInstance. simpl.
  unfold deref. simpl.
  rewrite nth_error_replace_nth by (rewrite length_app; simpl; lia).
  simpl. eexists. reflexivity.
Qed.

Lemma getInstance_constructed_is_idle_and_used_witness :
  idleInstances empty_pool = [] /\
  exists (p' : Pool) (r : ref),
    getInstance "a3f1" empty_pool = Some (p', r) /\
    StringMap.get "a3f1" (idleInstances p') = Some r /\
    StringMap.get "a3f1" (usedInstances p') = Some r /\
    forall fresh' : string,
      exists p'' : Pool, getInstance fresh' p' = Some (p'', r).
Proof.
  split; [reflexivity|].
  apply (getInstance_constructed_is_idle_and_used "a3f1" empty_pool).
  reflexivity.
Defined.

Lemma length_replace_nth {A : Type} (l : list A) (n : nat) (x : A) :
  List.length (replace_nth n x l) = List.length l.
Proof.
  revert n. induction l as [|h t IH]; intros [|n]; simpl; auto.
Qed.

Lemma deref_assign (p : Pool) (r : ref) (s' : StockfishInstance) :
  (r < List.length (heap p))%nat -> deref (assign r s' p) r = Some s'.
Proof. unfold deref, assign. simpl. apply nth_error_replace_nth. Qed.

(** C2.  When the process of a live instance exits, the handler runs
    [initialise] again, which respawns the engine and replays
    [startAnalysing] if a configuration is recorded, but also draws a new
    identifier and registers the object as idle under it: the object no
    longer carries the identifier it was handed out with, and it is now
    reachable from both maps (under the old key in [usedInstances], under
    the new one in [idleInstances]). *)
Theorem onExit_changes_identifier_and_membership :
  forall (fresh : string) (r : ref) (p : Pool) (s : StockfishInstance),
    deref p r = Some s ->
    state s <> terminated ->
    StringMap.get (id s) (usedInstances p) = Some r ->
    String.eqb (id s) fresh = false ->
    exists (p' : Pool) (s' : StockfishInstance),
      onExit fresh r p = Some p' /\
      deref p' r = Some s' /\
      id s' = fresh /\
      id s' <> id s /\
      StringMap.get fresh (idleInstances p') = Some r /\
      usedInstances p' = usedInstances p /\
      StringMap.get (id s) (usedInstances p') = Some r /\
      state s' = ready /\
      trace s' =
        (trace s ++ [ConsoleWarn; Spawn; Write uci; Write ucinewgame]
           ++ match currentAnalysisOptions s with
              | obj options =>
                  [Write (setoption_MultiPV
                            (match opt_lines options with Some n => n | None => one end));
                   Write go_infinite]
              | _ => []
              end)%list.
Proof.
  intros fresh r p s Hs Hst Hused Hfresh.
  assert (Hne : fresh <> id s).
  { intros E. subst fresh. rewrite String.eqb_refl in Hfresh. discriminate. }
  assert (Hr : (r < List.length (heap p))%nat)
    by (apply nth_error_Some; unfold deref in Hs; congruence).
  unfold onExit. rewrite Hs.
  destruct (state s) eqn:Est; try congruence.
  all: unfold initialise; rewrite deref_assign by exact Hr; simpl.
  all: rewrite deref_assign by (simpl; rewrite length_replace_nth; exact Hr); simpl.
  all: destruct (currentAnalysisOptions s) as [| |options] eqn:Ecur; simpl.
  all: eexists _, _; split; [reflexivity|].
  all: split;
       [ apply deref_assign; simpl; rewrite ?length_replace_nth; exact Hr |].
  all: simpl; repeat split; try reflexivity; try apply StringMap_get_set;
       try exact Hne; try exact Hused.
  all: rewrite <- ?app_assoc; simpl; reflexivity.
Qed.

Lemma onExit_changes_identifier_and_membership_witness :
  exists (p' : Pool) (s' : StockfishInstance),
    onExit "77c0" 0%nat pool_in_session = Some p' /\
    deref p' 0%nat = Some s' /\
    id s' = "77c0" /\
    usedInstances p' = [("a3f1", 0%nat)] /\
    idleInstances p' = [("a3f1", 0%nat); ("77c0", 0%nat)].
Proof.
  destruct (onExit_changes_identifier_and_membership "77c0" 0%nat pool_in_session
              (startAnalysing {| opt_lines := Some three |}
                 (set_state ready (write ucinewgame (write uci
                    (set_stockfishOutputBuffer ""
                       (reset (emit [Spawn] (set_id "a3f1" blank))))))))
              eq_refl ltac:(discriminate) eq_refl eq_refl)
    as (p' & s' & Hexit & Hderef & Hid & _ & _ & Hused & _).
  exists p', s'. repeat split; try assumption.
  vm_compute in Hexit. injection Hexit as <-. reflexivity.
Defined.

(** ** The parser: what one line can change *)

Lemma emitted_app (s s' : StockfishInstance) (evs : list event) :
  trace s' = (trace s ++ evs)%list -> emitted s s' = evs.
Proof.
  unfold emitted. intros ->.
  rewrite skipn_app, skipn_all, Nat.sub_diag. reflexivity.
Qed.

Lemma emitted_same_trace (s s' : StockfishInstance) :
  trace s' = trace s -> emitted s s' = [].
Proof. intros E. apply emitted_app. rewrite app_nil_r. exact E. Qed.

Lemma emitted_refl (s : StockfishInstance) : emitted s s = [].
Proof. apply emitted_same_trace. reflexivity. Qed.

Lemma Forall_quiet_calls (a : StockfishAnalysis) (ls : list listener) :
  Forall quiet (List.map (fun l => Call l a) ls).
Proof. induction ls; simpl; constructor; simpl; auto. Qed.

(** Splits [processInfo] into its paths. *)
Ltac processInfo_paths line s :=
  unfold processInfo;
  destruct (has_fields line) eqn:Hfields; simpl;
  [ destruct (score_of line) as [sc|] eqn:Hscore; simpl;
    [ match goal with
      | |- context [analysisComplete ?d ?n ?s1] =>
          destruct (analysisComplete d n s1) as [[|]|] eqn:Hcomplete; simpl;
          [ destruct (ltb (currentDepth s) (depth_of line)) eqn:Hdeeper; simpl | | ]
      end
    | ]
  | ].

(** The fields [processInfo] never assigns. *)
Lemma processInfo_frame (line : string) (s : StockfishInstance) :
  let s' := final (processInfo line s) in
  id s' = id s /\ analysisOptions s' = analysisOptions s /\
  analysisListeners s' = analysisListeners s /\ state s' = state s /\
  hasStarted s' = hasStarted s /\ turn s' = turn s /\
  currentAnalysisOptions s' = currentAnalysisOptions s /\
  stockfishOutputBuffer s' = stockfishOutputBuffer s.
Proof.
  processInfo_paths line s; repeat split; reflexivity.
Qed.

Lemma processInfo_trace (line : string) (s : StockfishInstance) :
  exists evs : list event,
    trace (final (processInfo line s)) = (trace s ++ evs)%list /\ Forall quiet evs /\
    forall l a, In (Call l a) evs -> noLegalMoves a = false.
Proof.
  processInfo_paths line s.
  1,2: eexists; split; [reflexivity|]; split; [apply Forall_quiet_calls|];
       intros l a Hin; apply in_map_iff in Hin; destruct Hin as (l0 & E & _);
       injection E as _ <-; reflexivity.
  1,2,4: exists []; rewrite app_nil_r; split; [reflexivity|]; split; [constructor|];
       intros l a [].
  eexists; split; [reflexivity|]; split; [repeat constructor|].
  intros l a [E|[]]; discriminate.
Qed.

(** [currentDepth] after [processInfo]: unchanged, or raised to the depth of
    the line, and then the listeners were called for that depth. *)
Lemma processInfo_currentDepth (line : string) (s : StockfishInstance) :
  let s' := final (processInfo line s) in
  currentDepth s' = currentDepth s \/
  (ltb (currentDepth s) (currentDepth s') = true /\
   currentDepth s' = depth_of line /\
   processInfo line s = Returned s' /\
   emitted s s' =
     List.map (fun l => Call l {| depth := currentDepth s';
                                  lines := Map_get (currentDepth s') (bestLines s');
                                  noLegalMoves := false |})
              (analysisListeners s)).
Proof.
  processInfo_paths line s; try (left; reflexivity).
  right. split; [exact Hdeeper|]. split; [reflexivity|]. split; [reflexivity|].
  apply emitted_app. reflexivity.
Qed.

Lemma startsWith_info_not_bestmove (line : string) :
  startsWith "info" line = true -> startsWith "bestmove" line = false.
Proof.
  destruct line as [|c line]; [intros H; vm_compute in H; discriminate|].
  unfold startsWith; fold startsWith.
  destruct (Ascii.eqb_spec "i"%char c) as [<-|]; [intros _; reflexivity|discriminate].
Qed.

Lemma startsWith_bestmove_not_info (line : string) :
  startsWith "bestmove" line = true -> startsWith "info" line = false.
Proof.
  intros H. destruct (startsWith "info" line) eqn:E; [|reflexivity].
  apply startsWith_info_not_bestmove in E. congruence.
Qed.

(** The fields [process_line] never assigns. *)
Lemma process_line_frame (line : string) (s : StockfishInstance) :
  let s' := final (process_line line s) in
  id s' = id s /\ analysisOptions s' = analysisOptions s /\
  analysisListeners s' = analysisListeners s /\
  hasStarted s' = hasStarted s /\ turn s' = turn s /\
  currentAnalysisOptions s' = currentAnalysisOptions s /\
  stockfishOutputBuffer s' = stockfishOutputBuffer s.
Proof.
  unfold process_line. cbv zeta.
  set (s1 := if startsWith "bestmove" line then set_state ready s else s).
  assert (H1 : id s1 = id s /\ analysisOptions s1 = analysisOptions s /\
               analysisListeners s1 = analysisListeners s /\
               hasStarted s1 = hasStarted s /\ turn s1 = turn s /\
               currentAnalysisOptions s1 = currentAnalysisOptions s /\
               stockfishOutputBuffer s1 = stockfishOutputBuffer s)
    by (subst s1; destruct (startsWith "bestmove" line); repeat split; reflexivity).
  destruct H1 as (E1 & E2 & E3 & E4 & E5 & E6 & E7).
  destruct (state s1); simpl; try (repeat split; assumption).
  destruct (startsWith "info" line); simpl; try (repeat split; assumption).
  destruct (includes "pv" line); simpl.
  - destruct (processInfo_frame line s1) as (F1 & F2 & F3 & _ & F4 & F5 & F6 & F7).
    repeat split; congruence.
  - destruct (includes "mate 0" line || includes "cp 0" line); simpl;
      [repeat split; assumption|].
    destruct (includes "currmove" line || includes "NNUE evaluation" line); simpl;
      repeat split; assumption.
Qed.

(** [currentDepth] after one line: as after [processInfo]. *)
Lemma process_line_currentDepth (line : string) (s : StockfishInstance) :
  let s' := final (process_line line s) in
  currentDepth s' = currentDepth s \/
  (ltb (currentDepth s) (currentDepth s') = true /\
   currentDepth s' = depth_of line /\
   decodable line = true /\
   process_line line s = Returned s' /\
   emitted s s' =
     List.map (fun l => Call l {| depth := currentDepth s';
                                  lines := Map_get (currentDepth s') (bestLines s');
                                  noLegalMoves := false |})
              (analysisListeners s)).
Proof.
  unfold process_line, decodable. cbv zeta.
  destruct (startsWith "bestmove" line) eqn:Hbest.
  - assert (Hinfo : startsWith "info" line = false).
    { destruct (startsWith "info" line) eqn:E; [|reflexivity].
      apply startsWith_info_not_bestmove in E. congruence. }
    simpl. rewrite Hinfo. left. reflexivity.
  - destruct (state s) eqn:Hstate; simpl; try (left; reflexivity).
    destruct (startsWith "info" line); simpl; try (left; reflexivity).
    destruct (includes "pv" line); simpl.
    + destruct (processInfo_currentDepth line s) as [E|(H1 & H2 & H3 & H4)];
        [left; exact E|].
      right. repeat split; try assumption.
      revert H1 H3. unfold processInfo.
      destruct (has_fields line); simpl;
        [|intros H1; rewrite ltb_irrefl in H1; discriminate].
      destruct (score_of line); simpl; [reflexivity|].
      intros H1; rewrite ltb_irrefl in H1; discriminate.
    + destruct (includes "mate 0" line || includes "cp 0" line); simpl;
        [left; reflexivity|].
      destruct (includes "currmove" line || includes "NNUE evaluation" line); simpl;
        left; reflexivity.
Qed.

Lemma unchanged_refl (s : StockfishInstance) : unchanged s s.
Proof.
  repeat split. exists []. rewrite app_nil_r. split; [reflexivity|constructor].
Qed.

Lemma unchanged_trans (a b c : StockfishInstance) :
  unchanged a b -> unchanged b c -> unchanged a c.
Proof.
  intros (B1 & D1 & S1 & e1 & T1 & Q1) (B2 & D2 & S2 & e2 & T2 & Q2).
  repeat split; try congruence.
  exists (e1 ++ e2)%list. split.
  - rewrite T2, T1, app_assoc. reflexivity.
  - apply Forall_app. split; assumption.
Qed.

Lemma unchanged_emit (s : StockfishInstance) (evs : list event) :
  Forall quiet evs -> unchanged s (emit evs s).
Proof. intros H. repeat split. exists evs. split; [reflexivity|exact H]. Qed.

Lemma process_line_discarded (line : string) (s : StockfishInstance) :
  discarded line ->
  exists s' : StockfishInstance, process_line line s = Returned s' /\ unchanged s s'.
Proof.
  intros [Hbest Hdec]. unfold process_line. rewrite Hbest.
  unfold decodable in Hdec.
  destruct (state s) eqn:Hstate; simpl;
    try (exists s; split; [reflexivity|apply unchanged_refl]).
  destruct (startsWith "info" line); simpl in *;
    [|exists s; split; [reflexivity|apply unchanged_refl]].
  destruct (includes "pv" line); simpl in *.
  - unfold processInfo. destruct (has_fields line); simpl in *.
    + destruct (score_of line); [discriminate|].
      eexists; split; [reflexivity|]. apply unchanged_emit. repeat constructor.
    + exists s; split; [reflexivity|apply unchanged_refl].
  - destruct (includes "mate 0" line || includes "cp 0" line); simpl.
    + eexists; split; [reflexivity|]. apply unchanged_emit. apply Forall_quiet_calls.
    + destruct (includes "currmove" line || includes "NNUE evaluation" line); simpl.
      * exists s; split; [reflexivity|apply unchanged_refl].
      * eexists; split; [reflexivity|]. apply unchanged_emit. repeat constructor.
Qed.

Lemma process_lines_discarded (ls : list string) (s : StockfishInstance) :
  Forall discarded ls ->
  exists s' : StockfishInstance, process_lines ls s = Returned s' /\ unchanged s s'.
Proof.
  revert s. induction ls as [|line ls IH]; intros s Hls; simpl.
  - exists s. split; [reflexivity|apply unchanged_refl].
  - inversion Hls as [|? ? Hline Hrest]; subst.
    destruct (process_line_discarded line s Hline) as (s1 & E1 & U1).
    rewrite E1. destruct (IH s1 Hrest) as (s2 & E2 & U2).
    exists s2. split; [exact E2|]. eapply unchanged_trans; eassumption.
Qed.

(** The same for a whole chunk of engine output, all of whose ready lines
    are discarded. *)
Lemma discarded_chunk_changes_nothing (chunk : string) (s : StockfishInstance) :
  Forall discarded (ready_lines (stockfishOutputBuffer s) chunk) ->
  exists s' : StockfishInstance,
    onData chunk s = Returned s' /\
    bestLines s' = bestLines s /\
    currentDepth s' = currentDepth s /\
    state s' = state s /\
    Forall quiet (emitted s s').
Proof.
  intros Hls. unfold onData, process. cbv zeta.
  fold (ready_lines (stockfishOutputBuffer s) chunk).
  match goal with
  | |- context [process_lines ?ls ?s0] =>
      destruct (process_lines_discarded ls s0 Hls) as (s' & E & B & D & S & evs & T & Q)
  end.
  exists s'. split; [exact E|].
  destruct (negb (lastIndexOf newline (stockfishOutputBuffer s ++ chunk)
                  =? len (stockfishOutputBuffer s ++ chunk) - 1));
    simpl in *; repeat split; try assumption;
    rewrite (emitted_app _ _ _ T); exact Q.
Qed.

(** ** The depth aggregator *)

Lemma Map_get_set_same (k : number) (a : JSArray) (m : list (number * JSArray)) :
  Map_get k (Map_set k a m) = Some a.
Proof.
  induction m as [|[k' a'] m IH]; simpl.
  - assert (E : sameValueZero (norm_key k) k = true)
      by (apply sameValueZero_iff; apply norm_key_idem).
    rewrite E. reflexivity.
  - destruct (sameValueZero k' k) eqn:E; simpl; rewrite E; auto.
Qed.

Lemma Map_get_set_other (k k' : number) (a : JSArray) (m : list (number * JSArray)) :
  sameValueZero k k' = false -> Map_get k' (Map_set k a m) = Map_get k' m.
Proof.
  intros Hk. apply sameValueZero_false_iff in Hk.
  induction m as [|[k0 a0] m IH]; simpl.
  - assert (E : sameValueZero (norm_key k) k' = false)
      by (apply sameValueZero_false_iff; rewrite norm_key_idem; exact Hk).
    rewrite E. reflexivity.
  - destruct (sameValueZero k0 k) eqn:E; simpl.
    + apply sameValueZero_iff in E.
      assert (E' : sameValueZero k0 k' = false)
        by (apply sameValueZero_false_iff; congruence).
      rewrite E'. reflexivity.
    + rewrite IH. reflexivity.
Qed.

(** After the store the map has an array for the depth of the line: the
    one it had, or a new one, with the line written into it. *)
Lemma Map_get_store_same (d rank : number) (l : StockfishLine) (m : list (number * JSArray)) :
  Map_get d (store d rank l m) =
    Some (array_set (match Map_get d m with Some a => a | None => empty_array end)
                    (sub rank one) l).
Proof.
  unfold store, Map_has.
  destruct (Map_get d m) as [a|] eqn:E.
  - rewrite E. apply Map_get_set_same.
  - rewrite Map_get_set_same. apply Map_get_set_same.
Qed.

Lemma Map_get_store_other (d rank k : number) (l : StockfishLine) (m : list (number * JSArray)) :
  sameValueZero d k = false -> Map_get k (store d rank l m) = Map_get k m.
Proof.
  intros Hk. unfold store, Map_has.
  destruct (Map_get d m) as [a|] eqn:E.
  - rewrite E. apply Map_get_set_other. exact Hk.
  - rewrite Map_get_set_same. rewrite !Map_get_set_other by exact Hk. reflexivity.
Qed.

Lemma nth_error_set_index (i : nat) (v : StockfishLine) (l : list (option StockfishLine)) :
  List.nth_error (set_index i v l) i = Some (Some v).
Proof.
  revert l. induction i as [|i IH]; intros [|h t]; simpl; auto.
Qed.

(** [bestLines] after [processInfo] on a line that passes the guards. *)
Lemma processInfo_bestLines (line : string) (s : StockfishInstance) (sc : StockfishScore) :
  has_fields line = true ->
  score_of line = Some sc ->
  bestLines (final (processInfo line s)) =
    store (depth_of line) (lineNumber_of line)
          {| line_score := perspective (turn s) sc; moves := moves_of line |}
          (bestLines s).
Proof.
  intros Hf Hs. unfold processInfo. rewrite Hf, Hs. simpl.
  match goal with
  | |- context [analysisComplete ?d ?n ?s1] =>
      destruct (analysisComplete d n s1) as [[|]|]; simpl
  end; try reflexivity.
  destruct (ltb (currentDepth s) (depth_of line)); reflexivity.
Qed.

(** Every listener call made by [processInfo] reports the depth of the line
    and the array stored for it. *)
Lemma processInfo_calls (line : string) (s : StockfishInstance) (l : listener)
    (a : StockfishAnalysis) :
  In (Call l a) (emitted s (final (processInfo line s))) ->
  depth a = depth_of line /\
  lines a = Map_get (depth_of line) (bestLines (final (processInfo line s))).
Proof.
  processInfo_paths line s.
  1,2: erewrite emitted_app by reflexivity; intros Hin;
       apply in_map_iff in Hin; destruct Hin as (l0 & E & _);
       injection E as _ <-; split; reflexivity.
  1,2,4: rewrite emitted_same_trace by reflexivity; intros [].
  erewrite emitted_app by reflexivity. intros [E|[]]. discriminate.
Qed.





(** The completion test reads the length of the array of depth 1; when a
    line of a deeper depth is stored before any line of depth 1, that read
    throws.  The statement above says nothing about this exception. *)
Lemma completion_test_throws_without_depth_one :
  decodable depth5_rank2 = true /\
  process_line depth5_rank2 session_three =
    Raised TypeError (final (process_line depth5_rank2 session_three)).
Proof. split; vm_compute; reflexivity. Qed.

(** C8.  With black to move, the line that [processInfo] stores at the
    rank of the info line (and hands to the listeners through the array of
    its depth) carries the decoded score multiplied by -1, the score type
    unchanged. *)
Theorem black_to_move_score_is_negated :
  forall (line : string) (s : StockfishInstance) (sc : StockfishScore) (i : nat),
    turn s = Some black ->
    has_fields line = true ->
    score_of line = Some sc ->
    to_index (sub (lineNumber_of line) one) = Some i ->
    exists linesOfCurrentDepth : JSArray,
      Map_get (depth_of line) (bestLines (final (processInfo line s)))
        = Some linesOfCurrentDepth /\
      List.nth_error (elems linesOfCurrentDepth) i
        = Some (Some {| line_score := {| score := mul (score sc) minus_one;
                                         type := type sc |};
                        moves := moves_of line |}) /\
      forall (l : listener) (a : StockfishAnalysis),
        In (Call l a) (emitted s (final (processInfo line s))) ->
        depth a = depth_of line /\ lines a = Some linesOfCurrentDepth.
Proof.
  intros line s sc i Hturn Hf Hs Hi.
  pose proof (processInfo_bestLines line s sc Hf Hs) as Hbl.
  rewrite Hturn in Hbl. simpl in Hbl.
  eexists. split.
  - rewrite Hbl. apply Map_get_store_same.
  - split.
    + unfold array_set. rewrite Hi. simpl. apply nth_error_set_index.
    + intros l a Hin. apply processInfo_calls in Hin. destruct Hin as [Hd Hl].
      split; [exact Hd|]. rewrite Hl, Hbl. apply Map_get_store_same.
Qed.

(** The constant [minus_half] is the number -0.5. *)
Example minus_half_is_minus_0_5 :
  ToNumber "-0.5" = minus_half /\ SFadd prec emax minus_half minus_half = minus_one.
Proof. split; vm_compute; reflexivity. Qed.

(** The instance of the theorem in the specification's example: black to
    move, raw score [cp 50]; the line sent to the listener has the exact
    score -0.5. *)
Lemma black_to_move_score_is_negated_witness :
  turn session_black = Some black /\
  has_fields depth10_black = true /\
  exists linesOfCurrentDepth : JSArray,
    Map_get (of_Z 10)
            (bestLines (final (processInfo depth10_black session_black)))
      = Some linesOfCurrentDepth /\
    elems linesOfCurrentDepth
      = [Some {| line_score := {| score := minus_half; type := exact |};
                 moves := ["e7e5"] |}] /\
    emitted session_black
            (final (processInfo depth10_black session_black))
      = [Call 0%nat {| depth := of_Z 10; lines := Some linesOfCurrentDepth;
                       noLegalMoves := false |}].
Proof.
  split; [reflexivity|]. split; [vm_compute; reflexivity|].
  destruct (black_to_move_score_is_negated
              depth10_black session_black
              {| score := div (of_Z 50) hundred; type := exact |} 0%nat)
    as (arr & Hget & _ & _); try (vm_compute; reflexivity).
  exists arr. split; [exact Hget|].
  vm_compute in Hget. injection Hget as <-.
  split; vm_compute; reflexivity.
Defined.

(** C4 as the specification states it fails: in [depth_one_sparse] the populated
    count recorded at depth 1 is 1 (its array has length 2); a rank-1 line of
    depth 2 makes the populated count at depth 2 equal to 1, so the completion
    test of the specification holds, yet [processInfo] calls no listener and
    leaves [currentDepth] alone. *)
Lemma completion_test_counterexample :
  analysisListeners depth_one_sparse = [0%nat] /\
  analysisOptions depth_one_sparse = obj {| opt_lines := Some three |} /\
  completion_test_spec three
    (bestLines (final (processInfo depth2_rank1 depth_one_sparse)))
    (depth_of depth2_rank1) = true /\
  raised (processInfo depth2_rank1 depth_one_sparse) = false /\
  emitted depth_one_sparse (final (processInfo depth2_rank1 depth_one_sparse)) = [] /\
  currentDepth (final (processInfo depth2_rank1 depth_one_sparse))
    = currentDepth depth_one_sparse.
Proof. vm_compute. repeat split; reflexivity. Qed.

(** C4, amended.  For an info line that passes the guards, with a line
    count requested and an array present for depth 1 once the line is stored,
    depth [d] of the line is complete exactly when the populated count at [d]
    equals the requested count, or [d > 1] and the populated count at [d]
    equals the length of the array of depth 1 (holes included).  When it is
    complete every listener is called once, in registration order, with
    [d] and the array of [d], and [currentDepth] becomes [d] if [d] is
    deeper; otherwise nothing is called and [currentDepth] stays. *)
Theorem completion_uses_length_of_depth_one :
  forall (line : string) (s : StockfishInstance) (sc : StockfishScore)
         (options : StockfishAnalysisOptions) (n : number) (linesOfDepthOne : JSArray),
    has_fields line = true ->
    score_of line = Some sc ->
    analysisOptions s = obj options ->
    opt_lines options = Some n ->
    let d := depth_of line in
    let m := store d (lineNumber_of line)
                   {| line_score := perspective (turn s) sc; moves := moves_of line |}
                   (bestLines s) in
    Map_get one m = Some linesOfDepthOne ->
    let complete :=
      eqb (populated_at d m) n
      || (ltb one d && eqb (populated_at d m) (of_nat (array_length linesOfDepthOne))) in
    let s' := final (processInfo line s) in
    processInfo line s = Returned s' /\
    bestLines s' = m /\
    emitted s s' =
      (if complete
       then List.map (fun l => Call l {| depth := d; lines := Map_get d m;
                                         noLegalMoves := false |})
                     (analysisListeners s)
       else []) /\
    currentDepth s' =
      (if complete && ltb (currentDepth s) d then d else currentDepth s).
Proof.
  intros line s sc options n a1 Hf Hs Hopt Hn d m H1 complete s'.
  subst s' complete. unfold processInfo. rewrite Hf, Hs. simpl.
  fold d. fold m. unfold analysisComplete. simpl. rewrite Hopt, Hn, H1.
  unfold populated_at.
  destruct (eqb (of_nat match Map_get d m with Some a => populated a | None => 0%nat end) n)
    eqn:E1; simpl.
  - destruct (ltb (currentDepth s) d) eqn:E2; simpl;
      repeat split; try reflexivity; apply emitted_app; reflexivity.
  - destruct (ltb one d) eqn:E3; simpl.
    + destruct (eqb (of_nat match Map_get d m with Some a => populated a | None => 0%nat end)
                    (of_nat (array_length a1))) eqn:E4; simpl.
      * destruct (ltb (currentDepth s) d) eqn:E2; simpl;
          repeat split; try reflexivity; apply emitted_app; reflexivity.
      * repeat split; try reflexivity. apply emitted_same_trace. reflexivity.
    + repeat split; try reflexivity. apply emitted_same_trace. reflexivity.
Qed.

(** The specification's example: three lines requested, two ranks reported
    at depth 1 and deeper; the rank-2 line of depth 5 completes depth 5. *)
Lemma completion_uses_length_of_depth_one_witness :
  analysisOptions two_ranks_reported = obj {| opt_lines := Some three |} /\
  currentDepth two_ranks_reported = zero /\
  raised (processInfo depth5_rank2 two_ranks_reported) = false /\
  (exists a b : StockfishLine,
     emitted two_ranks_reported (final (processInfo depth5_rank2 two_ranks_reported)) =
       [Call 0%nat {| depth := of_Z 5;
                      lines := Some {| elems := [Some a; Some b]; named := [] |};
                      noLegalMoves := false |}]) /\
  currentDepth (final (processInfo depth5_rank2 two_ranks_reported)) = of_Z 5.
Proof.
  destruct (completion_uses_length_of_depth_one
              depth5_rank2 two_ranks_reported
              {| score := div (of_Z 20) hundred; type := exact |}
              {| opt_lines := Some three |} three
              {| elems := [Some {| line_score := {| score := div (of_Z 31) hundred;
                                                    type := exact |};
                                   moves := ["e2e4"] |};
                           Some {| line_score := {| score := div (of_Z 25) hundred;
                                                    type := exact |};
                                   moves := ["d2d4"] |}];
                 named := [] |})
    as (Hret & _ & Hem & Hcur); try (vm_compute; reflexivity).
  split; [vm_compute; reflexivity|]. split; [vm_compute; reflexivity|].
  split; [rewrite Hret; reflexivity|]. split.
  - rewrite Hem. vm_compute. eexists _, _. reflexivity.
  - rewrite Hcur. vm_compute. reflexivity.
Defined.

(** ** Routing of a line *)

(** C6 as the specification states it fails: the line a stalemate produces has a
    zero score and no mate marker, so it is not a terminal position in the
    specification's wording, yet it is routed to [processNoLegalMoves]. *)
Lemma no_legal_moves_counterexample :
  state session_black = ready /\
  terminal_position_spec stalemate_line = false /\
  process_line stalemate_line session_black
    = Returned (processNoLegalMoves session_black) /\
  emitted session_black (processNoLegalMoves session_black) =
    [Call 0%nat {| depth := zero; lines := Some empty_array; noLegalMoves := true |}].
Proof. vm_compute. repeat split; reflexivity. Qed.

(** C6, amended.  While the instance is ready, an [info] line is routed
    to [processNoLegalMoves] exactly when it has no [pv] in it and contains
    [mate 0] or [cp 0] (either one is enough): then every listener is called
    with depth 0, no lines and the [noLegalMoves] flag, and [bestLines] and
    [currentDepth] stay as they were; on every other [info] line no listener
    is called with the flag set. *)
Theorem no_legal_moves_routing :
  forall (line : string) (s : StockfishInstance),
    state s = ready ->
    startsWith "info" line = true ->
    let s' := final (process_line line s) in
    if negb (includes "pv" line) && (includes "mate 0" line || includes "cp 0" line)
    then process_line line s = Returned (processNoLegalMoves s) /\
         emitted s s' =
           List.map (fun l => Call l {| depth := zero; lines := Some empty_array;
                                        noLegalMoves := true |})
                    (analysisListeners s) /\
         bestLines s' = bestLines s /\ currentDepth s' = currentDepth s
    else forall (l : listener) (a : StockfishAnalysis),
           In (Call l a) (emitted s s') -> noLegalMoves a = false.
Proof.
  intros line s Hready Hinfo. cbv zeta.
  unfold process_line. rewrite (startsWith_info_not_bestmove line Hinfo).
  rewrite Hready, Hinfo.
  destruct (includes "pv" line); simpl.
  - intros l a Hin.
    destruct (processInfo_trace line s) as (evs & Htr & _ & Hcalls).
    rewrite (emitted_app _ _ _ Htr) in Hin. eapply Hcalls. exact Hin.
  - destruct (includes "mate 0" line || includes "cp 0" line); simpl.
    + repeat split; try reflexivity. apply emitted_app. reflexivity.
    + destruct (includes "currmove" line || includes "NNUE evaluation" line); simpl.
      * rewrite emitted_refl. intros l a [].
      * erewrite emitted_app by reflexivity.
        intros l a [E|[E|[]]]; discriminate.
Qed.

Lemma no_legal_moves_routing_witness :
  state session_black = ready /\
  startsWith "info" checkmate_line = true /\
  process_line checkmate_line session_black
    = Returned (processNoLegalMoves session_black) /\
  emitted session_black (final (process_line checkmate_line session_black))
    = [Call 0%nat {| depth := zero; lines := Some empty_array; noLegalMoves := true |}].
Proof.
  split; [reflexivity|]. split; [reflexivity|].
  pose proof (no_legal_moves_routing checkmate_line session_black
                eq_refl eq_refl) as H.
  cbv zeta in H.
  change (negb (includes "pv" checkmate_line)
          && (includes "mate 0" checkmate_line
              || includes "cp 0" checkmate_line)) with true in H.
  destruct H as (Hret & Hem & _). split; [exact Hret|]. exact Hem.
Defined.

(** ** Sessions *)

(** The [data] handler: the buffer is replaced, then the ready lines are
    processed in order. *)
Lemma onData_eq (chunk : string) (s : StockfishInstance) :
  onData chunk s =
    process_lines (ready_lines (stockfishOutputBuffer s) chunk)
      (set_stockfishOutputBuffer (carried (stockfishOutputBuffer s) chunk) s).
Proof.
  unfold onData, process, ready_lines, carried. cbv zeta.
  destruct (negb (lastIndexOf newline (stockfishOutputBuffer s ++ chunk)
                  =? len (stockfishOutputBuffer s ++ chunk) - 1)); reflexivity.
Qed.

(** A relation between the instance before and after that every processed
    line respects is respected by a whole chunk. *)
Section Preservation.

Variable R : StockfishInstance -> StockfishInstance -> Prop.
Hypothesis R_refl : forall s, R s s.
Hypothesis R_trans : forall a b c, R a b -> R b c -> R a c.
Hypothesis R_line : forall line s, R s (final (process_line line s)).
Hypothesis R_buffer : forall b s, R s (set_stockfishOutputBuffer b s).

Lemma process_lines_preserves (ls : list string) (s : StockfishInstance) :
  R s (final (process_lines ls s)).
Proof.
  revert s. induction ls as [|line ls IH]; intros s; simpl; [apply R_refl|].
  pose proof (R_line line s) as H.
  destruct (process_line line s) as [s1|e s1]; simpl in *.
  - eapply R_trans; [exact H | apply IH].
  - exact H.
Qed.

Lemma onData_preserves (chunk : string) (s : StockfishInstance) :
  R s (final (onData chunk s)).
Proof.
  rewrite onData_eq.
  eapply R_trans; [apply R_buffer | apply process_lines_preserves].
Qed.

End Preservation.

Lemma hasStarted_onData (chunk : string) (s : StockfishInstance) :
  hasStarted (final (onData chunk s)) = hasStarted s.
Proof.
  apply (onData_preserves (fun a b => hasStarted b = hasStarted a)); auto.
  - intros a b c H1 H2. congruence.
  - intros line s0. apply process_line_frame.
Qed.

Lemma stockfishOutputBuffer_process_lines (ls : list string) (s : StockfishInstance) :
  stockfishOutputBuffer (final (process_lines ls s)) = stockfishOutputBuffer s.
Proof.
  apply (process_lines_preserves
           (fun a b => stockfishOutputBuffer b = stockfishOutputBuffer a)); auto.
  - intros a b c H1 H2. congruence.
  - intros line s0. apply process_line_frame.
Qed.

Lemma hasStarted_apply_call (c : call) (s : StockfishInstance) :
  hasStarted (apply_call c s) = hasStarted s || is_start c.
Proof.
  destruct c; simpl; rewrite ?orb_false_r, ?orb_true_r; try reflexivity.
  - unfold stopAnalysing. simpl.
    destruct (hasStarted s) eqn:E; simpl; rewrite ?E; reflexivity.
  - apply hasStarted_onData.
Qed.

(** C7 as the specification states it fails: after a start and an explicit stop
    [hasStarted] is still set. *)
Lemma hasStarted_counterexample :
  hasStarted (run [Start {| opt_lines := None |}] blank) = true /\
  hasStarted (run [Start {| opt_lines := None |}; Stop] blank) = true.
Proof. split; reflexivity. Qed.

(** C7, amended.  [hasStarted] is false on a new instance, becomes true
    at the first [startAnalysing] and is never cleared afterwards, not by
    [stopAnalysing] either: after any calls it is set exactly when it was
    set before or one of the calls was a start.  While it is false,
    [stopAnalysing] writes nothing to the engine and leaves [state] alone;
    all it does is set [currentAnalysisOptions] to [null]. *)
Theorem hasStarted_is_set_by_start_and_never_cleared :
  forall (cs : list call) (s : StockfishInstance),
    hasStarted (run cs s) = hasStarted s || List.existsb is_start cs /\
    hasStarted (stopAnalysing s) = hasStarted s /\
    (hasStarted s = false ->
     stopAnalysing s = set_currentAnalysisOptions null s).
Proof.
  intros cs s. split; [|split].
  - revert s. induction cs as [|c cs IH]; intros s; simpl.
    + rewrite orb_false_r. reflexivity.
    + rewrite IH, hasStarted_apply_call, orb_assoc. reflexivity.
  - pose proof (hasStarted_apply_call Stop s) as H. simpl in H.
    rewrite orb_false_r in H. exact H.
  - intros H. unfold stopAnalysing. simpl. rewrite H. reflexivity.
Qed.

Lemma hasStarted_is_set_by_start_and_never_cleared_witness :
  hasStarted (run [SetMoves "e2e4"; Stop; Data ("readyok" ++ nl)] blank) = false /\
  hasStarted blank = false /\
  stopAnalysing blank = set_currentAnalysisOptions null blank /\
  trace (stopAnalysing blank) = [].
Proof.
  destruct (hasStarted_is_set_by_start_and_never_cleared
              [SetMoves "e2e4"; Stop; Data ("readyok" ++ nl)] blank)
    as (Hrun & _ & Hstop).
  split; [rewrite Hrun; reflexivity|].
  split; [reflexivity|].
  split; [apply Hstop; reflexivity|].
  rewrite (Hstop eq_refl). reflexivity.
Defined.

(** *** [currentDepth] *)

Lemma depth_le_refl (a : number) : depth_le a a.
Proof. left. reflexivity. Qed.

Lemma depth_le_trans (a b c : number) : depth_le a b -> depth_le b c -> depth_le a c.
Proof.
  intros [->|H1] [->|H2]; try (left; reflexivity); try (right; assumption).
  right. eapply ltb_trans; eassumption.
Qed.

(** On numbers other than [NaN], [depth_le] gives the comparison [<=]. *)
Lemma depth_le_leb (a b : number) :
  depth_le a b -> a <> S754_nan -> SFleb a b = true.
Proof.
  intros [->|H] Ha; unfold SFleb.
  - assert (E : SFcompare b b = Some Eq)
      by (apply SFcompare_Eq_iff; split; [exact Ha | reflexivity]).
    rewrite E. reflexivity.
  - unfold ltb, SFltb in H. destruct (SFcompare a b) as [[]|]; try discriminate.
    reflexivity.
Qed.

Lemma currentDepth_onData (chunk : string) (s : StockfishInstance) :
  depth_le (currentDepth s) (currentDepth (final (onData chunk s))).
Proof.
  apply (onData_preserves (fun a b => depth_le (currentDepth a) (currentDepth b))).
  - intros a. apply depth_le_refl.
  - intros a b c. apply depth_le_trans.
  - intros line s0.
    destruct (process_line_currentDepth line s0) as [E|(H & _)].
    + left. symmetry. exact E.
    + right. exact H.
  - intros b s0. apply depth_le_refl.
Qed.

Lemma currentDepth_apply_call (c : call) (s : StockfishInstance) :
  is_start c = false ->
  (forall chunk, c <> Data chunk) ->
  currentDepth (apply_call c s) = currentDepth s.
Proof.
  intros Hc Hd. destruct c; simpl in *; try reflexivity; try discriminate.
  - unfold stopAnalysing. simpl. destruct (hasStarted s); reflexivity.
  - exfalso. eapply Hd. reflexivity.
Qed.

(** Respawning the engine resets the analysis data as well. *)
Lemma initialise_resets_currentDepth (fresh : string) (r : ref) (p p' : Pool) :
  initialise fresh r p = Some p' ->
  exists s' : StockfishInstance, deref p' r = Some s' /\ currentDepth s' = zero.
Proof.
  unfold initialise. destruct (deref p r) as [s|] eqn:E; [|discriminate].
  intros H. injection H as <-.
  eexists. split.
  - apply deref_assign. simpl. apply nth_error_Some. unfold deref in E. congruence.
  - reflexivity.
Qed.

(** C9.  A session begins with [startAnalysing], whose [reset] puts
    [currentDepth] at 0.  Within the session, that is along calls none of
    which is a [startAnalysing], [currentDepth] never decreases; no call
    other than engine output changes it; and a processed line changes it
    only by raising it to the depth of that line, in the step in which the
    listeners are called for that depth. *)
Theorem currentDepth_is_monotone_between_resets :
  forall s : StockfishInstance,
    (forall options : StockfishAnalysisOptions,
        currentDepth (startAnalysing options s) = zero) /\
    (forall cs : list call,
        List.existsb is_start cs = false ->
        depth_le (currentDepth s) (currentDepth (run cs s))) /\
    (forall c : call,
        is_start c = false ->
        (forall chunk, c <> Data chunk) ->
        currentDepth (apply_call c s) = currentDepth s) /\
    (forall line : string,
        currentDepth (final (process_line line s)) = currentDepth s \/
        (ltb (currentDepth s) (currentDepth (final (process_line line s))) = true /\
         currentDepth (final (process_line line s)) = depth_of line /\
         decodable line = true /\
         raised (process_line line s) = false /\
         emitted s (final (process_line line s)) =
           List.map
             (fun l => Call l {| depth := depth_of line;
                                 lines := Map_get (depth_of line)
                                            (bestLines (final (process_line line s)));
                                 noLegalMoves := false |})
             (analysisListeners s))).
Proof.
  intros s. split; [|split; [|split]].
  - intros options. reflexivity.
  - intros cs. revert s. induction cs as [|c cs IH]; intros s Hcs; simpl in *.
    + apply depth_le_refl.
    + apply orb_false_iff in Hcs. destruct Hcs as [Hc Hcs].
      eapply depth_le_trans; [|apply IH; exact Hcs].
      destruct c; simpl in *; try discriminate; try apply depth_le_refl.
      * unfold stopAnalysing. simpl. destruct (hasStarted s); apply depth_le_refl.
      * apply currentDepth_onData.
  - intros c. apply currentDepth_apply_call.
  - intros line.
    destruct (process_line_currentDepth line s) as [E|(H1 & H2 & H3 & H4 & H5)];
      [left; exact E|right].
    repeat split; try assumption.
    + rewrite H4. reflexivity.
    + rewrite H5. rewrite H2. reflexivity.
Qed.

Lemma currentDepth_is_monotone_between_resets_witness :
  List.existsb is_start [Data (depth10_black ++ nl); Stop] = false /\
  currentDepth session_black = zero /\
  currentDepth (run [Data (depth10_black ++ nl); Stop] session_black) = of_Z 10 /\
  depth_le (currentDepth session_black)
           (currentDepth (run [Data (depth10_black ++ nl); Stop] session_black)).
Proof.
  split; [reflexivity|]. split; [reflexivity|]. split; [vm_compute; reflexivity|].
  apply (currentDepth_is_monotone_between_resets session_black).
  reflexivity.
Defined.

(** *** The query before any depth has completed *)

Lemma process_line_bestLines_cases (line : string) (s : StockfishInstance) :
  bestLines (final (process_line line s)) = bestLines s \/
  (decodable line = true /\
   exists l : StockfishLine,
     bestLines (final (process_line line s)) =
       store (depth_of line) (lineNumber_of line) l (bestLines s)).
Proof.
  unfold process_line, decodable. cbv zeta.
  set (s1 := if startsWith "bestmove" line then set_state ready s else s).
  assert (E : bestLines s1 = bestLines s)
    by (subst s1; destruct (startsWith "bestmove" line); reflexivity).
  destruct (state s1); simpl; try (left; exact E).
  destruct (startsWith "info" line); simpl; try (left; exact E).
  destruct (includes "pv" line); simpl.
  - rewrite <- E. unfold processInfo.
    destruct (has_fields line) eqn:Hf; simpl; [|left; reflexivity].
    destruct (score_of line) as [sc|] eqn:Hs; [|left; reflexivity].
    right. split; [reflexivity|]. eexists.
    pose proof (processInfo_bestLines line s1 sc Hf Hs) as H.
    unfold processInfo in H. rewrite Hf, Hs in H. exact H.
  - destruct (includes "mate 0" line || includes "cp 0" line); simpl;
      [left; exact E|].
    destruct (includes "currmove" line || includes "NNUE evaluation" line); simpl;
      left; exact E.
Qed.

Lemma process_lines_no_depth_zero (ls : list string) (s : StockfishInstance) :
  Forall nonzero_depth ls ->
  Map_get zero (bestLines s) = None ->
  Map_get zero (bestLines (final (process_lines ls s))) = None.
Proof.
  revert s. induction ls as [|line ls IH]; intros s Hls Hs; simpl; [exact Hs|].
  inversion Hls as [|? ? Hline Hrest]; subst.
  assert (H1 : Map_get zero (bestLines (final (process_line line s))) = None).
  { destruct (process_line_bestLines_cases line s) as [E|(Hd & l & E)]; rewrite E.
    - exact Hs.
    - rewrite Map_get_store_other by (apply Hline; exact Hd). exact Hs. }
  destruct (process_line line s) as [s1|e s1]; simpl in *.
  - apply IH; assumption.
  - exact H1.
Qed.

Lemma run_no_depth_zero (cs : list call) (s : StockfishInstance) :
  List.existsb is_start cs = false ->
  Forall nonzero_depth (lines_processed (stockfishOutputBuffer s) cs) ->
  Map_get zero (bestLines s) = None ->
  Map_get zero (bestLines (run cs s)) = None.
Proof.
  revert s. induction cs as [|c cs IH]; intros s Hcs Hls Hs; [exact Hs|].
  cbn [run List.existsb] in *.
  apply orb_false_iff in Hcs. destruct Hcs as [Hc Hcs].
  destruct c; cbn [apply_call is_start lines_processed] in *; try discriminate.
  - apply IH; assumption.
  - apply IH; assumption.
  - apply IH; try assumption;
      unfold stopAnalysing; cbn [hasStarted set_currentAnalysisOptions];
      destruct (hasStarted s); assumption.
  - apply IH; assumption.
  - apply Forall_app in Hls. destruct Hls as [Hready Hrest].
    rewrite onData_eq. apply IH; try assumption.
    + rewrite stockfishOutputBuffer_process_lines. exact Hrest.
    + apply process_lines_no_depth_zero; assumption.
Qed.

(** C10 as the specification states it fails: three lines are requested and the
    engine reports rank 1 of depth 0.  No depth has completed (no listener is
    called, [currentDepth] is 0, nothing is thrown), but [bestLines] has an
    array for depth 0 and [getCurrentBestLines] answers with it. *)
Lemma getCurrentBestLines_counterexample :
  currentDepth (run [Listen 0%nat; Data (depth0_line ++ nl)]
                    (startAnalysing {| opt_lines := Some three |} blank)) = zero /\
  raised (onData (depth0_line ++ nl)
            (run [Listen 0%nat] (startAnalysing {| opt_lines := Some three |} blank)))
    = false /\
  emitted (run [Listen 0%nat] (startAnalysing {| opt_lines := Some three |} blank))
          (run [Listen 0%nat; Data (depth0_line ++ nl)]
               (startAnalysing {| opt_lines := Some three |} blank)) = [] /\
  getCurrentBestLines (run [Listen 0%nat; Data (depth0_line ++ nl)]
                           (startAnalysing {| opt_lines := Some three |} blank)) =
    {| depth := zero;
       lines := Some {| elems := [Some {| line_score := {| score := tenth; type := exact |};
                                          moves := ["e2e4"] |}];
                        named := [] |};
       noLegalMoves := false |}.
Proof. repeat split; vm_compute; reflexivity. Qed.

(** C10, amended.  In a session started by [startAnalysing], as long as
    [currentDepth] is still 0 (no depth has completed) and the engine has sent
    no decodable line whose depth is 0, [bestLines] has no entry for depth 0
    and [getCurrentBestLines] answers depth 0 with [lines] undefined. *)
Theorem getCurrentBestLines_before_first_completion :
  forall (s : StockfishInstance) (options : StockfishAnalysisOptions) (cs : list call),
    List.existsb is_start cs = false ->
    Forall nonzero_depth (lines_processed (stockfishOutputBuffer s) cs) ->
    currentDepth (run cs (startAnalysing options s)) = zero ->
    getCurrentBestLines (run cs (startAnalysing options s)) =
      {| depth := zero; lines := None; noLegalMoves := false |}.
Proof.
  intros s options cs Hcs Hls Hzero.
  unfold getCurrentBestLines. rewrite Hzero.
  rewrite run_no_depth_zero; auto.
Qed.

Lemma getCurrentBestLines_before_first_completion_witness :
  currentDepth (run [Listen 0%nat; Data (depth1_line ++ nl)]
                    (startAnalysing {| opt_lines := Some three |} blank)) = zero /\
  raised (onData (depth1_line ++ nl)
            (run [Listen 0%nat] (startAnalysing {| opt_lines := Some three |} blank)))
    = false /\
  bestLines (run [Listen 0%nat; Data (depth1_line ++ nl)]
                 (startAnalysing {| opt_lines := Some three |} blank)) <> [] /\
  getCurrentBestLines (run [Listen 0%nat; Data (depth1_line ++ nl)]
                           (startAnalysing {| opt_lines := Some three |} blank)) =
    {| depth := zero; lines := None; noLegalMoves := false |}.
Proof.
  split; [vm_compute; reflexivity|].
  split; [vm_compute; reflexivity|].
  split; [vm_compute; discriminate|].
  apply (getCurrentBestLines_before_first_completion
           blank {| opt_lines := Some three |} [Listen 0%nat; Data (depth1_line ++ nl)]).
  - reflexivity.
  - assert (E : lines_processed (stockfishOutputBuffer blank)
                  [Listen 0%nat; Data (depth1_line ++ nl)] = [depth1_line])
      by (vm_compute; reflexivity).
    rewrite E. constructor; [|constructor].
    intros _. vm_compute. reflexivity.
  - vm_compute. reflexivity.
Defined.

(** ** Chunks of engine output *)

Lemma take_all (s : string) : take (String.length s) s = s.
Proof. induction s as [|c s IH]; simpl; [reflexivity|]. rewrite IH. reflexivity. Qed.

Lemma slice_from_0 (s : string) : slice_from s 0 = s.
Proof.
  unfold slice_from, slice, len.
  assert (E : (Z.of_nat (String.length s) <? 0) = false) by (apply Z.ltb_ge; lia).
  rewrite E. change (0 <? 0) with false. cbv iota.
  rewrite Z.min_id. rewrite (Z.min_l 0) by lia.
  rewrite Z.sub_0_r, Nat2Z.id. change (Z.to_nat 0) with O.
  cbn [drop]. apply take_all.
Qed.

(** A chunk that brings no newline is kept whole in the buffer, and yet all
    of it but its last byte is handed to [process] at once. *)
Lemma onData_without_newline (chunk : string) (s : StockfishInstance) :
  lastIndexOf newline (stockfishOutputBuffer s ++ chunk) = -1 ->
  onData chunk s =
    process (slice (stockfishOutputBuffer s ++ chunk) 0 (-1))
            (set_stockfishOutputBuffer (stockfishOutputBuffer s ++ chunk) s).
Proof.
  intros H. unfold onData. cbv zeta. rewrite H.
  destruct (negb (-1 =? len (stockfishOutputBuffer s ++ chunk) - 1)) eqn:E.
  - change (-1 + 1) with 0. rewrite slice_from_0. reflexivity.
  - apply negb_false_iff in E. apply Z.eqb_eq in E.
    assert (L : String.length (stockfishOutputBuffer s ++ chunk) = O)
      by (unfold len in E; lia).
    destruct (stockfishOutputBuffer s ++ chunk); [reflexivity|discriminate].
Qed.

(** C3.  The line [depth1_line] delivered in one chunk makes one listener
    call, with the move [e2e4].  Delivered as [head_chunk] then
    [tail_chunk], which concatenate to the same bytes and are cut away from
    any newline, it makes two: the first chunk is already processed, short of
    its last byte, and reports the move [e]; the completed line is then
    reported again. *)
Theorem split_line_is_reported_twice :
  (head_chunk ++ tail_chunk = depth1_line ++ nl /\
   lastIndexOf newline head_chunk = -1) /\
  emitted session_one (final (feed [depth1_line ++ nl] session_one)) =
    [Call 0%nat
       {| depth := one;
          lines := Some {| elems := [Some {| line_score := {| score := tenth;
                                                              type := exact |};
                                             moves := ["e2e4"] |}];
                           named := [] |};
          noLegalMoves := false |}] /\
  emitted session_one (final (feed [head_chunk; tail_chunk] session_one)) =
    [Call 0%nat
       {| depth := one;
          lines := Some {| elems := [Some {| line_score := {| score := tenth;
                                                              type := exact |};
                                             moves := ["e"] |}];
                           named := [] |};
          noLegalMoves := false |};
     Call 0%nat
       {| depth := one;
          lines := Some {| elems := [Some {| line_score := {| score := tenth;
                                                              type := exact |};
                                             moves := ["e2e4"] |}];
                           named := [] |};
          noLegalMoves := false |}].
Proof. repeat split; vm_compute; reflexivity. Qed.

(** * Further properties of the code *)

(** ** Strings: splitting, joining and searching *)

Lemma append_nil_l (b : string) : "" ++ b = b.
Proof. reflexivity. Qed.

Lemma append_cons (x : ascii) (a b : string) : String x a ++ b = String x (a ++ b).
Proof. reflexivity. Qed.

(** Pushes the characters of literal and constructor-headed prefixes out of
    the concatenations of the goal. *)
Ltac push_append := rewrite ?append_cons, ?append_nil_l.

Lemma append_assoc (a b c : string) : (a ++ b) ++ c = a ++ (b ++ c).
Proof. induction a as [|x a IH]; push_append; [reflexivity|]. rewrite IH. reflexivity. Qed.

Lemma length_append (a b : string) :
  String.length (a ++ b) = (String.length a + String.length b)%nat.
Proof.
  induction a as [|x a IH]; push_append; simpl; [reflexivity|].
  rewrite IH. reflexivity.
Qed.

Lemma len_append (a b : string) : len (a ++ b) = len a + len b.
Proof. unfold len. rewrite length_append. lia. Qed.

Lemma len_nonneg (s : string) : 0 <= len s.
Proof. unfold len. lia. Qed.

Lemma drop_append (a b : string) : drop (String.length a) (a ++ b) = b.
Proof. induction a as [|x a IH]; push_append; simpl; auto. Qed.

Lemma take_append (a b : string) : take (String.length a) (a ++ b) = a.
Proof.
  induction a as [|x a IH]; push_append; simpl; [destruct b; reflexivity|].
  rewrite IH. reflexivity.
Qed.

Lemma length_drop (n : nat) (s : string) :
  String.length (drop n s) = (String.length s - n)%nat.
Proof. revert s. induction n as [|n IH]; intros [|c s]; simpl; auto. Qed.

Lemma split_not_nil (sep : ascii) (s : string) : split sep s <> [].
Proof.
  induction s as [|c s IH]; simpl; [discriminate|].
  destruct (Ascii.eqb c sep); [discriminate|].
  destruct (split sep s); [contradiction|discriminate].
Qed.

Lemma length_split (sep : ascii) (s : string) :
  List.length (split sep s) = S (count_char sep s).
Proof.
  induction s as [|c s IH]; simpl; [reflexivity|].
  destruct (Ascii.eqb c sep); simpl.
  - rewrite IH. reflexivity.
  - pose proof (split_not_nil sep s) as Hn.
    destruct (split sep s) as [|w ws]; [contradiction|]. simpl in *. exact IH.
Qed.

Lemma split_no_sep (sep : ascii) (s : string) :
  has_char sep s = false -> split sep s = [s].
Proof.
  induction s as [|c s IH]; simpl; [reflexivity|].
  intros H. apply orb_false_iff in H. destruct H as [Hc Hs].
  rewrite Hc, (IH Hs). reflexivity.
Qed.

Lemma split_append_sep (sep : ascii) (a b : string) :
  split sep (a ++ String sep b) = (split sep a ++ split sep b)%list.
Proof.
  induction a as [|c a IH]; push_append; simpl.
  - rewrite Ascii.eqb_refl. reflexivity.
  - destruct (Ascii.eqb c sep); [rewrite IH; reflexivity|].
    rewrite IH. pose proof (split_not_nil sep a) as Hn.
    destruct (split sep a) as [|w ws]; [contradiction|]. reflexivity.
Qed.

Lemma split_join (sep : ascii) (l : list string) :
  l <> [] ->
  Forall (fun w => has_char sep w = false) l ->
  split sep (join sep l) = l.
Proof.
  induction l as [|w l IH]; intros Hn Hl; [contradiction|].
  inversion Hl as [|? ? Hw Hrest]; subst.
  destruct l as [|w' l'].
  - simpl. apply split_no_sep. exact Hw.
  - change (join sep (w :: w' :: l')) with (w ++ String sep (join sep (w' :: l'))).
    rewrite split_append_sep, (split_no_sep sep w Hw), IH by (discriminate || assumption).
    reflexivity.
Qed.

Lemma mod2_even (n : nat) : Nat.eqb (Nat.modulo n 2) 0 = Nat.even n.
Proof.
  assert (H : Nat.eqb (Nat.modulo n 2) 0 = Nat.even n /\
              Nat.eqb (Nat.modulo (S n) 2) 0 = Nat.even (S n)).
  { induction n as [|n [IH1 IH2]]; [split; reflexivity|].
    split; [exact IH2|].
    rewrite Nat.even_succ_succ, <- IH1.
    replace (S (S n)) with (n + 1 * 2)%nat by lia.
    rewrite Nat.Div0.mod_add. reflexivity. }
  apply H.
Qed.

(** X1.  [setBoardstateByMoves] caches the side to move from the number of
    words of the move string: white when it is even, black when it is odd.
    The words are what [split(' ')] gives, so the empty string (no move
    played yet) counts as one empty word and caches black. *)
Theorem setBoardstateByMoves_turn_is_parity_of_words :
  forall (tokens : list string) (s : StockfishInstance),
    tokens <> [] ->
    Forall (fun w => has_char space w = false) tokens ->
    turn (setBoardstateByMoves (join space tokens) s) =
      Some (if Nat.even (List.length tokens) then white else black) /\
    trace (setBoardstateByMoves (join space tokens) s) =
      (trace s ++ [Write (position_startpos_moves (join space tokens))])%list.
Proof.
  intros tokens s Hn Hl. unfold setBoardstateByMoves, set_turn, write, emit.
  cbn [turn trace]. rewrite split_join by assumption. rewrite mod2_even.
  split; reflexivity.
Qed.

Lemma setBoardstateByMoves_turn_is_parity_of_words_witness :
  turn (setBoardstateByMoves "e2e4 e7e5 b1c3" blank) = Some black /\
  turn (setBoardstateByMoves "e2e4 e7e5" blank) = Some white /\
  turn (setBoardstateByMoves "" blank) = Some black.
Proof.
  split; [|split].
  - apply (setBoardstateByMoves_turn_is_parity_of_words ["e2e4"; "e7e5"; "b1c3"] blank).
    + discriminate.
    + repeat constructor.
  - apply (setBoardstateByMoves_turn_is_parity_of_words ["e2e4"; "e7e5"] blank).
    + discriminate.
    + repeat constructor.
  - apply (setBoardstateByMoves_turn_is_parity_of_words [""] blank).
    + discriminate.
    + repeat constructor.
Defined.

(** *** Reading a field of an info line *)

Lemma clamp_id (s : string) (i : Z) : 0 <= i <= len s -> clamp s i = i.
Proof. unfold clamp. lia. Qed.

Lemma drop_ge (n : nat) (s : string) : (String.length s <= n)%nat -> drop n s = "".
Proof.
  revert s. induction n as [|n IH]; intros [|c s] H; simpl in *; try reflexivity; try lia.
  apply IH. lia.
Qed.

Lemma take_ge (n : nat) (s : string) : (String.length s <= n)%nat -> take n s = s.
Proof.
  revert s. induction n as [|n IH]; intros [|c s] H; simpl in *; try reflexivity; try lia.
  rewrite IH by lia. reflexivity.
Qed.

Lemma drop_drop (n m : nat) (s : string) : drop n (drop m s) = drop (m + n) s.
Proof.
  revert s. induction m as [|m IH]; intros s; simpl; [reflexivity|].
  destruct s as [|c s]; [destruct n; reflexivity|]. apply IH.
Qed.

Lemma find_at_space_token (tok rest : string) (k : Z) :
  has_char space tok = false ->
  find_at " " (tok ++ String space rest) k = k + len tok.
Proof.
  revert k. induction tok as [|c tok IH]; intros k H; push_append.
  - unfold find_at, startsWith. rewrite Ascii.eqb_refl. unfold len. simpl. lia.
  - simpl in H. apply orb_false_iff in H. destruct H as [Hc Htok].
    assert (E : Ascii.eqb " "%char c = false) by (rewrite Ascii.eqb_sym; exact Hc).
    unfold find_at; fold find_at. unfold startsWith. rewrite E.
    rewrite IH by exact Htok.
    unfold len. simpl String.length. lia.
Qed.

Lemma find_at_space_none (tok : string) (k : Z) :
  has_char space tok = false -> find_at " " tok k = -1.
Proof.
  revert k. induction tok as [|c tok IH]; intros k H; [reflexivity|].
  simpl in H. apply orb_false_iff in H. destruct H as [Hc Htok].
  assert (E : Ascii.eqb " "%char c = false) by (rewrite Ascii.eqb_sym; exact Hc).
  unfold find_at; fold find_at. unfold startsWith. rewrite E.
  apply IH. exact Htok.
Qed.

Lemma substring_take_drop (s : string) (a b : Z) :
  0 <= a <= b -> b <= len s ->
  substring s a b = take (Z.to_nat (b - a)) (drop (Z.to_nat a) s).
Proof.
  intros Ha Hb. unfold substring.
  rewrite !clamp_id by lia. rewrite Z.min_l, Z.max_r by lia. reflexivity.
Qed.

(** The text between position [a] and the next space, when a space
    follows. *)
Lemma token_before_space (line tok rest : string) (a : Z) :
  0 <= a ->
  drop (Z.to_nat a) line = tok ++ String space rest ->
  has_char space tok = false ->
  indexOf " " line a = a + len tok /\
  substring line a (indexOf " " line a) = tok.
Proof.
  intros Ha Hdrop Htok.
  assert (Hlen : a + len tok + 1 + len rest = len line).
  { pose proof (length_drop (Z.to_nat a) line) as L. rewrite Hdrop in L.
    rewrite length_append in L. simpl in L. unfold len. lia. }
  pose proof (len_nonneg tok). pose proof (len_nonneg rest).
  assert (Hidx : indexOf " " line a = a + len tok).
  { unfold indexOf. rewrite clamp_id by lia. rewrite Hdrop.
    apply find_at_space_token. exact Htok. }
  split; [exact Hidx|]. rewrite Hidx.
  rewrite substring_take_drop by lia. rewrite Hdrop.
  replace (Z.to_nat (a + len tok - a)) with (String.length tok) by (unfold len; lia).
  apply take_append.
Qed.

(** The same when no space follows: the search answers -1, and [substring]
    with a negative end gives the beginning of the line. *)
Lemma token_without_space (line tok : string) (a : Z) :
  0 <= a ->
  drop (Z.to_nat a) line = tok ->
  has_char space tok = false ->
  indexOf " " line a = -1 /\
  substring line a (indexOf " " line a) = substring line 0 a.
Proof.
  intros Ha Hdrop Htok.
  assert (Hidx : indexOf " " line a = -1).
  { unfold indexOf. apply find_at_space_none.
    unfold clamp. pose proof (len_nonneg line).
    destruct (Z.le_gt_cases a (len line)).
    - rewrite Z.min_l, Z.max_r by lia. rewrite Hdrop. exact Htok.
    - rewrite Z.min_r, Z.max_r by lia. rewrite drop_ge by (unfold len; lia). reflexivity. }
  split; [exact Hidx|]. rewrite Hidx. unfold substring.
  pose proof (len_nonneg line).
  assert (E1 : clamp line (-1) = 0) by (unfold clamp; lia).
  assert (E0 : clamp line 0 = 0) by (unfold clamp; lia).
  rewrite E1, E0. rewrite (Z.min_comm (clamp line a)), (Z.max_comm (clamp line a)).
  reflexivity.
Qed.

Lemma substring_from_drop (s : string) (a : Z) :
  0 <= a -> substring_from s a = drop (Z.to_nat a) s.
Proof.
  intros Ha. unfold substring_from, substring. pose proof (len_nonneg s) as Hs.
  rewrite (clamp_id s (len s)) by lia.
  assert (Hc : 0 <= clamp s a <= len s) by (unfold clamp; lia).
  rewrite Z.min_l, Z.max_r by lia.
  rewrite take_ge by (rewrite length_drop; unfold len in *; lia).
  destruct (Z.le_gt_cases a (len s)).
  - rewrite clamp_id by lia. reflexivity.
  - rewrite !drop_ge by (unfold clamp, len in *; lia). reflexivity.
Qed.

Lemma drop_past_token (line tok rest : string) (a : Z) :
  0 <= a ->
  drop (Z.to_nat a) line = tok ++ String space rest ->
  drop (Z.to_nat (a + len tok + 1)) line = rest.
Proof.
  intros Ha Hdrop. pose proof (len_nonneg tok).
  replace (Z.to_nat (a + len tok + 1))
    with (Z.to_nat a + (String.length tok + 1))%nat by (unfold len in *; lia).
  rewrite <- drop_drop, Hdrop, <- drop_drop, drop_append. reflexivity.
Qed.

(** X2.  How [processInfo] reads the fields of a line.  If what follows the
    first [ depth ] marker is a word [d] and a space, the depth is [+d]; the
    same for [ multipv ] and the rank; if what follows the first [ score ]
    marker is a word [k], a space, a word [v] and a space, the score type is
    [k] and the raw score is [+v].  The guard for the three markers passes. *)
Theorem fields_are_the_words_after_their_markers :
  forall (line d rd r rm k v rs : string),
    0 <= indexOf " depth " line 0 ->
    drop (Z.to_nat (indexOf " depth " line 0 + 7)) line = d ++ String space rd ->
    has_char space d = false ->
    0 <= indexOf " multipv " line 0 ->
    drop (Z.to_nat (indexOf " multipv " line 0 + 9)) line = r ++ String space rm ->
    has_char space r = false ->
    0 <= indexOf " score " line 0 ->
    drop (Z.to_nat (indexOf " score " line 0 + 7)) line
      = k ++ String space (v ++ String space rs) ->
    has_char space k = false ->
    has_char space v = false ->
    has_fields line = true /\
    depth_of line = ToNumber d /\
    lineNumber_of line = ToNumber r /\
    scoreType_of line = k /\
    rawScore_of line = ToNumber v.
Proof.
  intros line d rd r rm k v rs Hpd Hd Hds Hpm Hr Hrs Hps Hk Hks Hvs.
  split; [|split; [|split; [|split]]].
  - unfold has_fields.
    assert (E1 : (indexOf " score " line 0 =? -1) = false) by (apply Z.eqb_neq; lia).
    assert (E2 : (indexOf " depth " line 0 =? -1) = false) by (apply Z.eqb_neq; lia).
    assert (E3 : (indexOf " multipv " line 0 =? -1) = false) by (apply Z.eqb_neq; lia).
    rewrite E1, E2, E3. reflexivity.
  - unfold depth_of. cbv zeta.
    destruct (token_before_space line d rd (indexOf " depth " line 0 + 7)
                ltac:(lia) Hd Hds) as [_ E].
    rewrite E. reflexivity.
  - unfold lineNumber_of. cbv zeta.
    destruct (token_before_space line r rm (indexOf " multipv " line 0 + 9)
                ltac:(lia) Hr Hrs) as [_ E].
    rewrite E. reflexivity.
  - unfold scoreType_of. cbv zeta.
    destruct (token_before_space line k (v ++ String space rs)
                (indexOf " score " line 0 + 7) ltac:(lia) Hk Hks) as [_ E].
    exact E.
  - unfold rawScore_of. cbv zeta.
    destruct (token_before_space line k (v ++ String space rs)
                (indexOf " score " line 0 + 7) ltac:(lia) Hk Hks) as [E _].
    rewrite E.
    pose proof (len_nonneg k).
    assert (Hv : drop (Z.to_nat (indexOf " score " line 0 + 7 + len k + 1)) line
                 = v ++ String space rs)
      by (apply drop_past_token; [lia|exact Hk]).
    destruct (token_before_space line v rs (indexOf " score " line 0 + 7 + len k + 1)
                ltac:(lia) Hv Hvs) as [_ E'].
    rewrite E'. reflexivity.
Qed.

Lemma fields_are_the_words_after_their_markers_witness :
  has_fields depth10_black = true /\
  depth_of depth10_black = ToNumber "10" /\
  lineNumber_of depth10_black = ToNumber "1" /\
  scoreType_of depth10_black = "cp" /\
  rawScore_of depth10_black = ToNumber "50".
Proof.
  apply (fields_are_the_words_after_their_markers depth10_black
           "10" "seldepth 10 multipv 1 score cp 50 nodes 20 nps 1000 time 1 pv e7e5"
           "1" "score cp 50 nodes 20 nps 1000 time 1 pv e7e5"
           "cp" "50" "nodes 20 nps 1000 time 1 pv e7e5");
    vm_compute; (reflexivity || discriminate).
Defined.

(** X3.  A field that is the last word of the line, with no space after it,
    is not read: the search for the closing space answers -1, and
    [substring(begin, -1)] is the beginning of the line up to [begin], so the
    depth becomes the number that whole prefix converts to. *)
Theorem depth_at_end_of_line_reads_the_prefix :
  forall (line d : string),
    0 <= indexOf " depth " line 0 ->
    drop (Z.to_nat (indexOf " depth " line 0 + 7)) line = d ->
    has_char space d = false ->
    depth_of line = ToNumber (substring line 0 (indexOf " depth " line 0 + 7)).
Proof.
  intros line d Hpd Hd Hds. unfold depth_of. cbv zeta.
  destruct (token_without_space line d (indexOf " depth " line 0 + 7)
              ltac:(lia) Hd Hds) as [_ E].
  rewrite E. reflexivity.
Qed.

Lemma depth_at_end_of_line_reads_the_prefix_witness :
  depth_of "info multipv 1 score cp 31 pv e2e4 depth 12" = NaN /\
  ToNumber "12" = of_Z 12.
Proof.
  split; [|vm_compute; reflexivity].
  rewrite (depth_at_end_of_line_reads_the_prefix
             "info multipv 1 score cp 31 pv e2e4 depth 12" "12");
    vm_compute; (reflexivity || discriminate).
Defined.

(** X4.  The moves of a line are the words after the first [ pv ] marker,
    in order; when the line has no [ pv ] marker (it reached [processInfo]
    through the [pv] of [multipv]), they are the words of the line itself from
    its fourth character on. *)
Theorem moves_are_the_words_after_pv :
  forall (line : string),
    (forall tokens : list string,
        0 <= indexOf " pv " line 0 ->
        drop (Z.to_nat (indexOf " pv " line 0 + 4)) line = join space tokens ->
        tokens <> [] ->
        Forall (fun w => has_char space w = false) tokens ->
        moves_of line = tokens) /\
    (indexOf " pv " line 0 = -1 ->
     moves_of line = split space (drop 3 line)).
Proof.
  intros line. split.
  - intros tokens Hp Hdrop Hn Hl. unfold moves_of. cbv zeta.
    rewrite substring_from_drop by lia. rewrite Hdrop.
    apply split_join; assumption.
  - intros Hp. unfold moves_of. cbv zeta. rewrite Hp.
    rewrite substring_from_drop by lia. reflexivity.
Qed.

Lemma moves_are_the_words_after_pv_witness :
  moves_of (info_line "5" "1" "cp" "34" "e2e4 e7e5 g1f3") = ["e2e4"; "e7e5"; "g1f3"] /\
  moves_of "info depth 5 multipv 1 score cp 34" =
    ["o"; "depth"; "5"; "multipv"; "1"; "score"; "cp"; "34"].
Proof.
  destruct (moves_are_the_words_after_pv (info_line "5" "1" "cp" "34" "e2e4 e7e5 g1f3"))
    as [H1 _].
  destruct (moves_are_the_words_after_pv "info depth 5 multipv 1 score cp 34")
    as [_ H2].
  split.
  - apply (H1 ["e2e4"; "e7e5"; "g1f3"]);
      try (vm_compute; (reflexivity || discriminate)).
    repeat constructor.
  - rewrite H2 by (vm_compute; reflexivity). vm_compute. reflexivity.
Defined.

(** ** Chunks and lines *)

Lemma process_lines_app (l1 l2 : list string) (s : StockfishInstance) :
  process_lines (l1 ++ l2) s =
    match process_lines l1 s with
    | Returned s' => process_lines l2 s'
    | Raised e s' => Raised e s'
    end.
Proof.
  revert s. induction l1 as [|line l1 IH]; intros s; simpl; [reflexivity|].
  destruct (process_line line s) as [s1|e s1]; [apply IH|reflexivity].
Qed.

(** X5.  [process] treats a text as its lines, one after the other: the
    text [a], a newline, and the text [b] are processed as [a] first and then
    [b] on the instance that [a] left, unless [a] raised. *)
Theorem process_of_two_texts :
  forall (a b : string) (s : StockfishInstance),
    process (a ++ String newline b) s =
      match process a s with
      | Returned s' => process b s'
      | Raised e s' => Raised e s'
      end.
Proof.
  intros a b s. unfold process. cbv zeta.
  rewrite split_append_sep, filter_app. apply process_lines_app.
Qed.

Lemma last_at_append (c : ascii) (a b : string) (pos found : Z) :
  last_at c (a ++ b) pos found = last_at c b (pos + len a) (last_at c a pos found).
Proof.
  revert pos found. induction a as [|x a IH]; intros pos found; push_append; simpl.
  - unfold len. simpl. rewrite Z.add_0_r. reflexivity.
  - rewrite IH. unfold len. simpl String.length.
    replace (pos + 1 + Z.of_nat (String.length a))
      with (pos + Z.of_nat (S (String.length a))) by lia.
    reflexivity.
Qed.

Lemma last_at_absent (c : ascii) (s : string) (pos found : Z) :
  has_char c s = false -> last_at c s pos found = found.
Proof.
  revert pos found. induction s as [|x s IH]; intros pos found H; simpl in *;
    [reflexivity|].
  apply orb_false_iff in H. destruct H as [Hx Hs]. rewrite Hx. apply IH. exact Hs.
Qed.

Lemma lastIndexOf_last (c : ascii) (x y : string) :
  has_char c y = false -> lastIndexOf c (x ++ String c y) = len x.
Proof.
  intros Hy. unfold lastIndexOf. rewrite last_at_append. simpl.
  rewrite Ascii.eqb_refl. rewrite last_at_absent by exact Hy. lia.
Qed.

Lemma slice_prefix (x y : string) : slice (x ++ y) 0 (len x) = x.
Proof.
  unfold slice. pose proof (len_nonneg x). pose proof (len_nonneg y).
  rewrite len_append.
  assert (E : (len x <? 0) = false) by (apply Z.ltb_ge; lia).
  rewrite E. change (0 <? 0) with false. cbv iota.
  rewrite (Z.min_l 0) by lia. rewrite Z.min_l by lia.
  rewrite Z.sub_0_r. change (Z.to_nat 0) with O. cbn [drop].
  unfold len. rewrite Nat2Z.id. apply take_append.
Qed.

Lemma slice_from_suffix (x y : string) : slice_from (x ++ y) (len x) = y.
Proof.
  unfold slice_from, slice. pose proof (len_nonneg x). pose proof (len_nonneg y).
  rewrite len_append.
  assert (E : (len x <? 0) = false) by (apply Z.ltb_ge; lia).
  assert (E' : (len x + len y <? 0) = false) by (apply Z.ltb_ge; lia).
  rewrite E, E'. rewrite !Z.min_l by lia.
  replace (len x + len y - len x) with (len y) by lia.
  unfold len. rewrite !Nat2Z.id, drop_append.
  apply take_ge. lia.
Qed.

(** X6.  When the buffer and the chunk together hold a newline, the [data]
    handler processes exactly the text before the last newline and carries
    the text after it, unprocessed, to the next chunk. *)
Theorem onData_processes_up_to_the_last_newline :
  forall (chunk x y : string) (s : StockfishInstance),
    stockfishOutputBuffer s ++ chunk = x ++ String newline y ->
    has_char newline y = false ->
    onData chunk s = process x (set_stockfishOutputBuffer y s).
Proof.
  intros chunk x y s Hsplit Hy. unfold onData. cbv zeta. rewrite Hsplit.
  rewrite lastIndexOf_last by exact Hy. rewrite slice_prefix.
  replace (x ++ String newline y) with ((x ++ String newline "") ++ y)
    by (rewrite append_assoc; reflexivity).
  replace (len x + 1) with (len (x ++ String newline ""))
    by (rewrite len_append; reflexivity).
  rewrite slice_from_suffix. rewrite !len_append.
  destruct y as [|c y].
  - change (len "") with 0. change (len (String newline "")) with 1.
    replace (len x =? len x + 1 + 0 - 1) with true by (symmetry; apply Z.eqb_eq; lia).
    reflexivity.
  - assert (E : (len x =? len x + len (String newline "") + len (String c y) - 1) = false).
    { apply Z.eqb_neq. unfold len. simpl String.length. lia. }
    rewrite E. reflexivity.
Qed.

Lemma onData_processes_up_to_the_last_newline_witness :
  onData ("e4" ++ nl ++ "info depth 2 sel")
         (set_stockfishOutputBuffer "info depth 1 multipv 1 score cp 10 pv e2" session_one)
  = process "info depth 1 multipv 1 score cp 10 pv e2e4"
            (set_stockfishOutputBuffer "info depth 2 sel" session_one).
Proof.
  apply (onData_processes_up_to_the_last_newline
           ("e4" ++ nl ++ "info depth 2 sel")
           "info depth 1 multipv 1 score cp 10 pv e2e4" "info depth 2 sel"
           (set_stockfishOutputBuffer "info depth 1 multipv 1 score cp 10 pv e2"
                                      session_one));
    vm_compute; reflexivity.
Defined.

(** ** The state gate *)

Lemma process_lines_not_ready (ls : list string) (s : StockfishInstance) :
  state s <> ready ->
  Forall (fun line => startsWith "bestmove" line = false) ls ->
  process_lines ls s = Returned s.
Proof.
  intros Hs Hls. induction Hls as [|line ls Hline _ IH]; simpl; [reflexivity|].
  unfold process_line. rewrite Hline.
  destruct (state s) eqn:E; try congruence; exact IH.
Qed.

(** The echo touches the trace only. *)
Lemma echo_frame (DEBUG : option string) (chunk : string) (s : StockfishInstance) :
  state (echo DEBUG chunk s) = state s /\
  stockfishOutputBuffer (echo DEBUG chunk s) = stockfishOutputBuffer s.
Proof. unfold echo. destruct (debug_enabled DEBUG); split; reflexivity. Qed.

Lemma onStdoutData_not_ready (DEBUG : option string) (chunk : string)
    (s : StockfishInstance) :
  state s <> ready ->
  Forall (fun line => startsWith "bestmove" line = false)
         (ready_lines (stockfishOutputBuffer s) chunk) ->
  onStdoutData DEBUG chunk s =
    Returned (set_stockfishOutputBuffer (carried (stockfishOutputBuffer s) chunk)
                                        (echo DEBUG chunk s)).
Proof.
  intros Hs Hls. unfold onStdoutData. rewrite onData_eq.
  destruct (echo_frame DEBUG chunk s) as [Es Eb]. rewrite Eb.
  apply process_lines_not_ready; [|exact Hls].
  cbn [state set_stockfishOutputBuffer]. rewrite Es. exact Hs.
Qed.

(** X7.  While the instance is not ready (stopping or terminated), engine
    output that holds no [bestmove] line is dropped whole.  The handler
    echoes the chunk to the console if [DEBUG] is ['true'] and replaces the
    carried buffer, and that is all: nothing is stored, no listener is
    called, and nothing but the echo is logged. *)
Theorem output_is_dropped_while_not_ready :
  forall (DEBUG : option string) (chunk : string) (s : StockfishInstance),
    state s <> ready ->
    Forall (fun line => startsWith "bestmove" line = false)
           (ready_lines (stockfishOutputBuffer s) chunk) ->
    onStdoutData DEBUG chunk s =
      Returned (set_stockfishOutputBuffer (carried (stockfishOutputBuffer s) chunk)
                                          (echo DEBUG chunk s)) /\
    emitted s (final (onStdoutData DEBUG chunk s)) =
      if debug_enabled DEBUG
      then [ConsoleError ("[ Stockfish ] <<< " ++ chunk)]
      else [].
Proof.
  intros DEBUG chunk s Hs Hls.
  rewrite (onStdoutData_not_ready DEBUG chunk s Hs Hls).
  split; [reflexivity|].
  cbn [final]. unfold echo. destruct (debug_enabled DEBUG).
  - apply emitted_app. reflexivity.
  - apply emitted_same_trace. reflexivity.
Qed.

Lemma output_is_dropped_while_not_ready_witness :
  state (stopAnalysing session_one) = stopping /\
  onStdoutData (Some "true") (depth1_line ++ nl) (stopAnalysing session_one) =
    Returned (set_stockfishOutputBuffer ""
                (emit [ConsoleError ("[ Stockfish ] <<< " ++ depth1_line ++ nl)]
                      (stopAnalysing session_one))) /\
  onStdoutData None (depth1_line ++ nl) (stopAnalysing session_one) =
    Returned (set_stockfishOutputBuffer "" (stopAnalysing session_one)).
Proof.
  assert (E : ready_lines (stockfishOutputBuffer (stopAnalysing session_one))
                          (depth1_line ++ nl) = [depth1_line])
    by (vm_compute; reflexivity).
  assert (Hls : Forall (fun line => startsWith "bestmove" line = false)
                       (ready_lines (stockfishOutputBuffer (stopAnalysing session_one))
                                    (depth1_line ++ nl)))
    by (rewrite E; constructor; [vm_compute; reflexivity|constructor]).
  assert (Hs : state (stopAnalysing session_one) <> ready)
    by (vm_compute; discriminate).
  split; [reflexivity|]. split.
  - destruct (output_is_dropped_while_not_ready (Some "true") (depth1_line ++ nl)
                (stopAnalysing session_one) Hs Hls) as [H _].
    rewrite H. vm_compute. reflexivity.
  - destruct (output_is_dropped_while_not_ready None (depth1_line ++ nl)
                (stopAnalysing session_one) Hs Hls) as [H _].
    rewrite H. vm_compute. reflexivity.
Defined.

(** X8.  The stop handshake.  [stopAnalysing] on an instance that has been
    started writes [stop] and makes it stopping; the lines that arrive before
    the engine's [bestmove] are dropped; the [bestmove] line makes the
    instance ready again and changes nothing else; the lines after it are
    processed as usual. *)
Theorem lines_are_dropped_until_bestmove :
  forall (s : StockfishInstance) (before after : list string) (b : string),
    hasStarted s = true ->
    Forall (fun line => startsWith "bestmove" line = false) before ->
    startsWith "bestmove" b = true ->
    trace (stopAnalysing s) = (trace s ++ [Write stop])%list /\
    state (stopAnalysing s) = stopping /\
    process_lines (before ++ b :: after) (stopAnalysing s) =
      process_lines after (set_state ready (stopAnalysing s)).
Proof.
  intros s before after b Hstarted Hbefore Hb.
  assert (E : stopAnalysing s
              = set_state stopping (write stop (set_currentAnalysisOptions null s))).
  { unfold stopAnalysing. cbn [hasStarted set_currentAnalysisOptions].
    rewrite Hstarted. reflexivity. }
  split; [rewrite E; reflexivity|]. split; [rewrite E; reflexivity|].
  rewrite process_lines_app.
  rewrite process_lines_not_ready; [|rewrite E; discriminate|exact Hbefore].
  cbn [process_lines]. unfold process_line at 1. rewrite Hb.
  cbn [state set_state]. rewrite (startsWith_bestmove_not_info b Hb). reflexivity.
Qed.

Lemma lines_are_dropped_until_bestmove_witness :
  hasStarted session_one = true /\
  process_lines [depth1_line; "bestmove e2e4 ponder e7e5"; depth1_line]
                (stopAnalysing session_one) =
    process_lines [depth1_line] (set_state ready (stopAnalysing session_one)).
Proof.
  split; [reflexivity|].
  apply (lines_are_dropped_until_bestmove session_one [depth1_line] [depth1_line]
           "bestmove e2e4 ponder e7e5").
  - reflexivity.
  - constructor; [vm_compute; reflexivity|constructor].
  - vm_compute. reflexivity.
Defined.

(** ** Slots of [bestLines] *)

Lemma Map_get_key_equiv (k k' : number) (m : list (number * JSArray)) :
  sameValueZero k k' = true -> Map_get k m = Map_get k' m.
Proof.
  intros H. apply sameValueZero_iff in H.
  induction m as [|[k0 a] m IH]; simpl; [reflexivity|].
  assert (E : sameValueZero k0 k = sameValueZero k0 k').
  { destruct (sameValueZero k0 k) eqn:E1; symmetry.
    - apply sameValueZero_iff in E1. apply sameValueZero_iff. congruence.
    - apply sameValueZero_false_iff in E1. apply sameValueZero_false_iff. congruence. }
  rewrite E, IH. reflexivity.
Qed.

Lemma sameValueZero_sym (a b : number) : sameValueZero a b = sameValueZero b a.
Proof.
  destruct (sameValueZero a b) eqn:E; symmetry.
  - apply sameValueZero_iff in E. apply sameValueZero_iff. congruence.
  - apply sameValueZero_false_iff in E. apply sameValueZero_false_iff. congruence.
Qed.


Lemma slot_of_set_index (i j : nat) (v : StockfishLine) (e : list (option StockfishLine)) :
  slot_of (set_index i v e) j = if Nat.eqb j i then Some v else slot_of e j.
Proof.
  unfold slot_of. revert j e.
  induction i as [|i IH]; intros [|j] [|h t]; simpl; try reflexivity.
  - destruct j; reflexivity.
  - rewrite IH. destruct (Nat.eqb j i); [reflexivity|]. destruct j; reflexivity.
  - apply IH.
Qed.

Lemma slot_store (d rank k : number) (l : StockfishLine) (j : nat)
    (m : list (number * JSArray)) :
  slot (store d rank l m) k j =
    match to_index (sub rank one) with
    | Some i => if sameValueZero d k && Nat.eqb j i then Some l else slot m k j
    | None => slot m k j
    end.
Proof.
  unfold slot. destruct (sameValueZero d k) eqn:Hk.
  - rewrite <- (Map_get_key_equiv d k (store d rank l m) Hk).
    rewrite <- (Map_get_key_equiv d k m Hk).
    rewrite Map_get_store_same. unfold array_set.
    destruct (to_index (sub rank one)) as [i|]; cbn [elems andb].
    + fold (slot_of (set_index i l
                       (elems match Map_get d m with Some a => a | None => empty_array end)) j).
      rewrite slot_of_set_index. destruct (Nat.eqb j i); [reflexivity|].
      unfold slot_of. destruct (Map_get d m); [reflexivity|].
      destruct j; reflexivity.
    + destruct (Map_get d m); [reflexivity|]. destruct j; reflexivity.
  - rewrite Map_get_store_other by exact Hk.
    destruct (to_index (sub rank one)); reflexivity.
Qed.

(** X9.  A decodable line whose rank is an array index ([lineNumber - 1 = i])
    is read back from slot [i] of its depth, and the store disturbs no other
    slot of that depth and no slot of another depth. *)
Theorem store_writes_exactly_one_slot :
  forall (line : string) (s : StockfishInstance) (sc : StockfishScore) (i : nat),
    has_fields line = true ->
    score_of line = Some sc ->
    to_index (sub (lineNumber_of line) one) = Some i ->
    forall (k : number) (j : nat),
      slot (bestLines (final (processInfo line s))) k j =
        if sameValueZero (depth_of line) k && Nat.eqb j i
        then Some {| line_score := perspective (turn s) sc; moves := moves_of line |}
        else slot (bestLines s) k j.
Proof.
  intros line s sc i Hf Hs Hi k j.
  rewrite (processInfo_bestLines line s sc Hf Hs), slot_store, Hi. reflexivity.
Qed.

Lemma store_writes_exactly_one_slot_witness :
  slot (bestLines (final (processInfo depth5_rank2 two_ranks_reported))) (of_Z 5) 1
    = Some {| line_score := {| score := div (of_Z 20) hundred; type := exact |};
              moves := ["d2d4"; "d7d5"] |} /\
  slot (bestLines (final (processInfo depth5_rank2 two_ranks_reported))) (of_Z 5) 0
    = slot (bestLines two_ranks_reported) (of_Z 5) 0 /\
  slot (bestLines (final (processInfo depth5_rank2 two_ranks_reported))) one 1
    = slot (bestLines two_ranks_reported) one 1.
Proof.
  assert (H : forall k j,
             slot (bestLines (final (processInfo depth5_rank2 two_ranks_reported))) k j =
               if sameValueZero (depth_of depth5_rank2) k && Nat.eqb j 1
               then Some {| line_score :=
                              perspective (turn two_ranks_reported)
                                {| score := div (of_Z 20) hundred; type := exact |};
                            moves := moves_of depth5_rank2 |}
               else slot (bestLines two_ranks_reported) k j).
  { apply (store_writes_exactly_one_slot depth5_rank2 two_ranks_reported
             {| score := div (of_Z 20) hundred; type := exact |} 1%nat);
      vm_compute; reflexivity. }
  split; [|split]; rewrite H; vm_compute; reflexivity.
Defined.

(** X10.  A decodable line whose rank is no array index (rank 0, a negative
    or fractional rank, a rank that is not a number) changes no slot of any
    depth: the line lands in a property that [length], [filter] and the
    listeners' array do not show.  An array for its depth exists afterwards
    all the same. *)
Theorem rank_that_is_no_index_fills_no_slot :
  forall (line : string) (s : StockfishInstance) (sc : StockfishScore),
    has_fields line = true ->
    score_of line = Some sc ->
    to_index (sub (lineNumber_of line) one) = None ->
    (forall (k : number) (j : nat),
        slot (bestLines (final (processInfo line s))) k j = slot (bestLines s) k j) /\
    Map_has (depth_of line) (bestLines (final (processInfo line s))) = true.
Proof.
  intros line s sc Hf Hs Hi. rewrite (processInfo_bestLines line s sc Hf Hs). split.
  - intros k j. rewrite slot_store, Hi. reflexivity.
  - unfold Map_has. rewrite Map_get_store_same. reflexivity.
Qed.

Lemma rank_that_is_no_index_fills_no_slot_witness :
  slot (bestLines (final (processInfo (info_line "3" "0" "cp" "12" "e2e4") session_one)))
       three 0 = None /\
  Map_has three
    (bestLines (final (processInfo (info_line "3" "0" "cp" "12" "e2e4") session_one)))
    = true.
Proof.
  destruct (rank_that_is_no_index_fills_no_slot
              (info_line "3" "0" "cp" "12" "e2e4") session_one
              {| score := div (of_Z 12) hundred; type := exact |})
    as [H1 H2]; try (vm_compute; reflexivity).
  split.
  - rewrite H1. reflexivity.
  - vm_compute in H2 |- *. exact H2.
Defined.

(** ** What a session keeps *)

Lemma slot_store_keeps (d rank k : number) (l : StockfishLine) (j : nat)
    (m : list (number * JSArray)) :
  slot m k j <> None -> slot (store d rank l m) k j <> None.
Proof.
  intros H. rewrite slot_store.
  destruct (to_index (sub rank one)) as [i|]; [|exact H].
  destruct (sameValueZero d k && Nat.eqb j i); [discriminate|exact H].
Qed.

Lemma process_line_keeps_slots (line : string) (s : StockfishInstance)
    (k : number) (j : nat) :
  slot (bestLines s) k j <> None ->
  slot (bestLines (final (process_line line s))) k j <> None.
Proof.
  intros H.
  destruct (process_line_bestLines_cases line s) as [E|(_ & l & E)]; rewrite E.
  - exact H.
  - apply slot_store_keeps. exact H.
Qed.

Lemma bestLines_apply_call (c : call) (s : StockfishInstance) :
  is_start c = false ->
  (forall chunk, c <> Data chunk) ->
  bestLines (apply_call c s) = bestLines s.
Proof.
  intros Hc Hd. destruct c; simpl in *; try reflexivity; try discriminate.
  - unfold stopAnalysing. simpl. destruct (hasStarted s); reflexivity.
  - exfalso. eapply Hd. reflexivity.
Qed.

(** X11.  Between resets a populated rank is never retracted: along calls
    none of which is a [startAnalysing], a slot of [bestLines] that holds a
    line keeps holding one (the same or a later line of that depth and
    rank). *)
Theorem populated_slot_stays_populated :
  forall (cs : list call) (s : StockfishInstance) (k : number) (j : nat),
    List.existsb is_start cs = false ->
    slot (bestLines s) k j <> None ->
    slot (bestLines (run cs s)) k j <> None.
Proof.
  induction cs as [|c cs IH]; intros s k j Hcs H; [exact H|].
  cbn [run List.existsb] in *.
  apply orb_false_iff in Hcs. destruct Hcs as [Hc Hcs].
  apply IH; [exact Hcs|].
  destruct c; try discriminate;
    try (rewrite bestLines_apply_call by (reflexivity || discriminate); exact H).
  cbn [apply_call].
  apply (onData_preserves
           (fun a b => slot (bestLines a) k j <> None -> slot (bestLines b) k j <> None));
    auto.
  intros line s0. apply process_line_keeps_slots.
Qed.

Lemma populated_slot_stays_populated_witness :
  slot (bestLines two_ranks_reported) one 1 <> None /\
  slot (bestLines (run [Stop; Data ("bestmove e2e4" ++ nl ++ depth5_rank2 ++ nl)]
                       two_ranks_reported)) one 1 <> None.
Proof.
  assert (H : slot (bestLines two_ranks_reported) one 1 <> None)
    by (vm_compute; discriminate).
  split; [exact H|].
  apply (populated_slot_stays_populated
           [Stop; Data ("bestmove e2e4" ++ nl ++ depth5_rank2 ++ nl)]
           two_ranks_reported one 1%nat); [reflexivity|exact H].
Defined.

(** *** The query *)


Lemma Map_get_store_keeps (d rank k : number) (l : StockfishLine)
    (m : list (number * JSArray)) :
  Map_get k m <> None -> Map_get k (store d rank l m) <> None.
Proof.
  intros H. destruct (sameValueZero d k) eqn:Hk.
  - rewrite <- (Map_get_key_equiv d k _ Hk), Map_get_store_same. discriminate.
  - rewrite Map_get_store_other by exact Hk. exact H.
Qed.

Lemma processInfo_query_defined (line : string) (s : StockfishInstance) :
  query_defined s -> query_defined (final (processInfo line s)).
Proof.
  unfold query_defined. intros H.
  destruct (has_fields line) eqn:Hf;
    [|unfold processInfo; rewrite Hf; exact H].
  destruct (score_of line) as [sc|] eqn:Hs;
    [|unfold processInfo; rewrite Hf, Hs; exact H].
  pose proof (processInfo_bestLines line s sc Hf Hs) as Hbl.
  destruct (processInfo_currentDepth line s) as [E|(_ & E & _)].
  - rewrite E. destruct H as [H|H]; [left; exact H|right].
    rewrite Hbl. apply Map_get_store_keeps. exact H.
  - right. rewrite E, Hbl, Map_get_store_same. discriminate.
Qed.

Lemma process_line_query_defined (line : string) (s : StockfishInstance) :
  query_defined s -> query_defined (final (process_line line s)).
Proof.
  intros H. unfold process_line. cbv zeta.
  destruct (startsWith "bestmove" line) eqn:Hb.
  - cbn [state set_state]. rewrite (startsWith_bestmove_not_info line Hb). exact H.
  - destruct (state s); try exact H.
    destruct (startsWith "info" line); [|exact H].
    destruct (includes "pv" line); [apply processInfo_query_defined; exact H|].
    destruct (includes "mate 0" line || includes "cp 0" line); [exact H|].
    destruct (includes "currmove" line || includes "NNUE evaluation" line); exact H.
Qed.

Lemma apply_call_query_defined (c : call) (s : StockfishInstance) :
  query_defined s -> query_defined (apply_call c s).
Proof.
  intros H. destruct c; cbn [apply_call]; try exact H.
  - left. reflexivity.
  - unfold stopAnalysing. cbn [hasStarted set_currentAnalysisOptions].
    destruct (hasStarted s); exact H.
  - apply (onData_preserves (fun a b => query_defined a -> query_defined b)); auto.
    intros line s0. apply process_line_query_defined.
Qed.

(** X12.  After [startAnalysing], whatever calls and engine output follow,
    [getCurrentBestLines] never answers a depth other than 0 with [lines]
    undefined: either [currentDepth] is 0, or [bestLines] has an array for
    [currentDepth]. *)
Theorem query_has_lines_once_a_depth_completed :
  forall (cs : list call) (s : StockfishInstance) (options : StockfishAnalysisOptions),
    depth (getCurrentBestLines (run cs (startAnalysing options s))) = zero \/
    exists linesOfCurrentDepth : JSArray,
      lines (getCurrentBestLines (run cs (startAnalysing options s)))
        = Some linesOfCurrentDepth.
Proof.
  intros cs s options.
  assert (H : query_defined (run cs (startAnalysing options s))).
  { assert (H0 : query_defined (startAnalysing options s)) by (left; reflexivity).
    revert H0. generalize (startAnalysing options s).
    induction cs as [|c cs IH]; intros s0 H0; [exact H0|].
    cbn [run]. apply IH. apply apply_call_query_defined. exact H0. }
  destruct H as [H|H]; [left; exact H|right].
  unfold getCurrentBestLines. cbn [lines].
  destruct (Map_get (currentDepth (run cs (startAnalysing options s)))
                    (bestLines (run cs (startAnalysing options s)))) as [a|];
    [exists a; reflexivity|contradiction].
Qed.

(** *** Listeners *)

Lemma processInfo_calls_registered (line : string) (s : StockfishInstance) :
  exists evs : list event,
    trace (final (processInfo line s)) = (trace s ++ evs)%list /\
    forall l a, In (Call l a) evs -> In l (analysisListeners s).
Proof.
  processInfo_paths line s.
  1,2: eexists; split; [reflexivity|];
       intros l a Hin; apply in_map_iff in Hin; destruct Hin as (l0 & E & Hl0);
       injection E as <- _; exact Hl0.
  1,2,4: exists []; rewrite app_nil_r; split; [reflexivity|intros l a []].
  eexists; split; [reflexivity|]. intros l a [E|[]]; discriminate.
Qed.

Lemma process_line_calls_registered (line : string) (s : StockfishInstance) :
  exists evs : list event,
    trace (final (process_line line s)) = (trace s ++ evs)%list /\
    forall l a, In (Call l a) evs -> In l (analysisListeners s).
Proof.
  assert (Hnil : forall s0 : StockfishInstance,
             exists evs : list event,
               trace s0 = (trace s0 ++ evs)%list /\
               forall l a, In (Call l a) evs -> In l (analysisListeners s0))
    by (intros s0; exists []; rewrite app_nil_r; split; [reflexivity|intros l a []]).
  unfold process_line. cbv zeta.
  destruct (startsWith "bestmove" line) eqn:Hb.
  - cbn [state set_state]. rewrite (startsWith_bestmove_not_info line Hb).
    apply (Hnil s).
  - destruct (state s); try apply Hnil.
    destruct (startsWith "info" line); [|apply Hnil].
    destruct (includes "pv" line); [apply processInfo_calls_registered|].
    destruct (includes "mate 0" line || includes "cp 0" line).
    + eexists; split; [reflexivity|].
      intros l a Hin. apply in_map_iff in Hin. destruct Hin as (l0 & E & Hl0).
      injection E as <- _. exact Hl0.
    + destruct (includes "currmove" line || includes "NNUE evaluation" line);
        [apply Hnil|].
      eexists; split; [reflexivity|]. intros l a [E|[E|[]]]; discriminate.
Qed.


Lemma calls_registered_refl (s : StockfishInstance) : calls_registered s s.
Proof.
  split; [reflexivity|]. exists []. rewrite app_nil_r.
  split; [reflexivity|intros l a []].
Qed.

Lemma calls_registered_trans (a b c : StockfishInstance) :
  calls_registered a b -> calls_registered b c -> calls_registered a c.
Proof.
  intros (L1 & e1 & T1 & C1) (L2 & e2 & T2 & C2). split; [congruence|].
  exists (e1 ++ e2)%list. split; [rewrite T2, T1, app_assoc; reflexivity|].
  intros l x Hin. apply in_app_or in Hin. destruct Hin as [Hin|Hin].
  - eapply C1; eassumption.
  - rewrite <- L1. eapply C2; eassumption.
Qed.

Lemma onData_calls_registered (chunk : string) (s : StockfishInstance) :
  calls_registered s (final (onData chunk s)).
Proof.
  apply (onData_preserves calls_registered).
  - apply calls_registered_refl.
  - apply calls_registered_trans.
  - intros line s0. split; [apply process_line_frame|].
    apply process_line_calls_registered.
  - intros b s0. split; [reflexivity|]. exists []. simpl. rewrite app_nil_r.
    split; [reflexivity|intros l a []].
Qed.

Lemma run_never_calls_unregistered (cs : list call) (s : StockfishInstance) (l : listener) :
  ~ In l (analysisListeners s) ->
  Forall (fun c => c <> Listen l) cs ->
  exists evs : list event,
    trace (run cs s) = (trace s ++ evs)%list /\ forall a, ~ In (Call l a) evs.
Proof.
  revert s. induction cs as [|c cs IH]; intros s Hl Hcs.
  - exists []. rewrite app_nil_r. split; [reflexivity|intros a []].
  - inversion Hcs as [|? ? Hc Hrest]; subst. cbn [run].
    assert (Hstep : ~ In l (analysisListeners (apply_call c s)) /\
                    exists evs : list event,
                      trace (apply_call c s) = (trace s ++ evs)%list /\
                      forall a, ~ In (Call l a) evs).
    { destruct c; cbn [apply_call].
      - split; [exact Hl|]. eexists; split; [reflexivity|].
        intros a [E|[]]; discriminate.
      - split; [exact Hl|]. eexists; split; [reflexivity|].
        intros a [E|[]]; discriminate.
      - split; [intros []|]. eexists; split.
        + unfold startAnalysing, write; simpl. rewrite <- app_assoc. reflexivity.
        + intros a [E|[E|[]]]; discriminate.
      - unfold stopAnalysing. cbn [hasStarted set_currentAnalysisOptions].
        destruct (hasStarted s); simpl.
        + split; [exact Hl|]. eexists; split; [reflexivity|].
          intros a [E|[]]; discriminate.
        + split; [exact Hl|]. exists []. rewrite app_nil_r.
          split; [reflexivity|intros a []].
      - split.
        + simpl. intros Hin. apply in_app_or in Hin. destruct Hin as [Hin|[E|[]]].
          * exact (Hl Hin).
          * apply Hc. rewrite E. reflexivity.
        + exists []. simpl. rewrite app_nil_r. split; [reflexivity|intros a []].
      - destruct (onData_calls_registered chunk s) as (L & evs & T & C).
        split; [rewrite L; exact Hl|].
        exists evs. split; [exact T|]. intros a Hin. apply Hl. eapply C. exact Hin. }
    destruct Hstep as (Hl' & e1 & T1 & C1).
    destruct (IH (apply_call c s) Hl' Hrest) as (e2 & T2 & C2).
    exists (e1 ++ e2)%list. split; [rewrite T2, T1, app_assoc; reflexivity|].
    intros a Hin. apply in_app_or in Hin. destruct Hin as [Hin|Hin].
    + exact (C1 a Hin).
    + exact (C2 a Hin).
Qed.

(** X13.  Only registered listeners are called, and [startAnalysing] drops
    the registrations: a listener that is not registered again after a
    [startAnalysing] is never called in what follows, even if it had been
    registered before. *)
Theorem listener_is_not_called_unless_registered_after_start :
  forall (cs : list call) (s : StockfishInstance) (options : StockfishAnalysisOptions)
         (l : listener) (a : StockfishAnalysis),
    Forall (fun c => c <> Listen l) cs ->
    ~ In (Call l a)
         (emitted (startAnalysing options s) (run cs (startAnalysing options s))).
Proof.
  intros cs s options l a Hcs.
  destruct (run_never_calls_unregistered cs (startAnalysing options s) l)
    as (evs & T & C); [intros []|exact Hcs|].
  rewrite (emitted_app _ _ _ T). apply C.
Qed.

Lemma listener_is_not_called_unless_registered_after_start_witness :
  analysisListeners (onAnalysisData 7%nat blank) = [7%nat] /\
  emitted (startAnalysing {| opt_lines := None |} (onAnalysisData 7%nat blank))
          (run [Listen 0%nat; Data (depth1_line ++ nl)]
               (startAnalysing {| opt_lines := None |} (onAnalysisData 7%nat blank)))
    = [Call 0%nat
         {| depth := one;
            lines := Some {| elems := [Some {| line_score := {| score := tenth;
                                                                type := exact |};
                                               moves := ["e2e4"] |}];
                             named := [] |};
            noLegalMoves := false |}] /\
  forall a : StockfishAnalysis,
    ~ In (Call 7%nat a)
         (emitted (startAnalysing {| opt_lines := None |} (onAnalysisData 7%nat blank))
                  (run [Listen 0%nat; Data (depth1_line ++ nl)]
                       (startAnalysing {| opt_lines := None |}
                                       (onAnalysisData 7%nat blank)))).
Proof.
  split; [reflexivity|]. split; [vm_compute; reflexivity|].
  intros a.
  apply (listener_is_not_called_unless_registered_after_start
           [Listen 0%nat; Data (depth1_line ++ nl)] (onAnalysisData 7%nat blank)
           {| opt_lines := None |} 7%nat a).
  repeat constructor; discriminate.
Defined.

(** ** The pool: capacity, release and termination *)

Lemma size_set_le (k : string) (r : ref) (m : StringMap.t) :
  (StringMap.size (StringMap.set k r m) <= S (StringMap.size m))%nat.
Proof.
  unfold StringMap.size. induction m as [|[k' r'] m IH]; simpl; [lia|].
  destruct (String.eqb k' k); simpl; lia.
Qed.

Lemma size_delete_le (k : string) (m : StringMap.t) :
  (StringMap.size (StringMap.delete k m) <= StringMap.size m)%nat.
Proof.
  unfold StringMap.size. induction m as [|[k' r'] m IH]; simpl; [lia|].
  destruct (String.eqb k' k); simpl; lia.
Qed.

Lemma idle_bound_getInstance (fresh : string) (p p' : Pool) (r : ref) :
  (StringMap.size (idleInstances p) <= MAX_IDLE_INSTANCES)%nat ->
  getInstance fresh p = Some (p', r) ->
  (StringMap.size (idleInstances p') <= MAX_IDLE_INSTANCES)%nat.
Proof.
  intros Hb. unfold getInstance.
  destruct (0 <? StringMap.size (idleInstances p))%nat eqn:E.
  - destruct (StringMap.first (idleInstances p)) as [i|]; [|discriminate].
    destruct (deref p i) as [s|]; [|discriminate].
    intros H. injection H as <- _. simpl.
    pose proof (size_delete_le (id s) (idleInstances p)). lia.
  - apply Nat.ltb_ge in E.
    unfold construct, initialise.
    match goal with
    | |- context [deref ?q ?x] => destruct (deref q x) as [s|]; [|discriminate]
    end.
    match goal with
    | |- context [deref ?q ?x] => destruct (deref q x) as [s'|]; [|discriminate]
    end.
    intros H. injection H as <- _. simpl.
    pose proof (size_set_le (id (reset (emit [Spawn] (set_id fresh s))))
                            (List.length (heap p)) (idleInstances p)).
    unfold MAX_IDLE_INSTANCES. simpl in *. lia.
Qed.

Lemma idle_bound_terminate (r : ref) (p p' : Pool) :
  (StringMap.size (idleInstances p) <= MAX_IDLE_INSTANCES)%nat ->
  terminate r p = Some p' ->
  (StringMap.size (idleInstances p') <= MAX_IDLE_INSTANCES)%nat.
Proof.
  intros Hb. unfold terminate. destruct (deref p r) as [s|]; [|discriminate].
  intros H. injection H as <-. simpl.
  pose proof (size_delete_le (id s) (idleInstances p)). lia.
Qed.

Lemma idle_bound_stopUsing (r : ref) (p p' : Pool) :
  (StringMap.size (idleInstances p) <= MAX_IDLE_INSTANCES)%nat ->
  stopUsing r p = Some p' ->
  (StringMap.size (idleInstances p') <= MAX_IDLE_INSTANCES)%nat.
Proof.
  intros Hb. unfold stopUsing. destruct (deref p r) as [s|]; [|discriminate].
  cbn [idleInstances set_used].
  destruct (Nat.eqb (StringMap.size (idleInstances p)) MAX_IDLE_INSTANCES) eqn:E.
  - apply idle_bound_terminate. exact Hb.
  - apply Nat.eqb_neq in E. intros H. injection H as <-. simpl.
    pose proof (size_set_le (id s) r (idleInstances p)). lia.
Qed.

(** X14.  Acquiring, releasing and terminating never let the idle map grow
    past [MAX_IDLE_INSTANCES]: from a pool within the bound, every sequence of
    [getInstance], [stopUsing] and [terminate] calls leaves at most four idle
    entries. *)
Theorem idle_map_stays_within_capacity :
  forall (cs : list pool_call) (p p' : Pool),
    (StringMap.size (idleInstances p) <= MAX_IDLE_INSTANCES)%nat ->
    pool_run cs p = Some p' ->
    (StringMap.size (idleInstances p') <= MAX_IDLE_INSTANCES)%nat.
Proof.
  induction cs as [|c cs IH]; intros p p' Hb Hrun; simpl in Hrun.
  - injection Hrun as <-. exact Hb.
  - destruct (pool_step c p) as [p1|] eqn:E; [|discriminate].
    apply (IH p1 p'); [|exact Hrun].
    destruct c; simpl in E.
    + destruct (getInstance fresh p) as [[q r]|] eqn:G; [|discriminate].
      injection E as <-. eapply idle_bound_getInstance; eassumption.
    + eapply idle_bound_stopUsing; eassumption.
    + eapply idle_bound_terminate; eassumption.
Qed.

Lemma get_not_in (k : string) (m : StringMap.t) :
  ~ In k (List.map fst m) -> StringMap.get k m = None.
Proof.
  induction m as [|[k' r'] m IH]; simpl; [reflexivity|].
  intros H. destruct (String.eqb_spec k' k) as [->|Hne].
  - exfalso. apply H. left. reflexivity.
  - apply IH. intros Hin. apply H. right. exact Hin.
Qed.

Lemma get_delete_same (k : string) (m : StringMap.t) :
  keys_unique m -> StringMap.get k (StringMap.delete k m) = None.
Proof.
  unfold keys_unique. induction m as [|[k' r'] m IH]; simpl; [reflexivity|].
  intros H. inversion H as [|? ? Hnotin Hrest]; subst.
  destruct (String.eqb_spec k' k) as [->|Hne].
  - apply get_not_in. exact Hnotin.
  - simpl. apply String.eqb_neq in Hne. rewrite Hne. apply IH. exact Hrest.
Qed.

Lemma keys_delete_subset (k x : string) (m : StringMap.t) :
  In x (List.map fst (StringMap.delete k m)) -> In x (List.map fst m).
Proof.
  induction m as [|[k' r'] m IH]; simpl; [auto|].
  destruct (String.eqb k' k); simpl; [auto|].
  intros [E|Hin]; [left; exact E|right; apply IH; exact Hin].
Qed.

Lemma keys_unique_delete (k : string) (m : StringMap.t) :
  keys_unique m -> keys_unique (StringMap.delete k m).
Proof.
  unfold keys_unique. induction m as [|[k' r'] m IH]; simpl; [auto|].
  intros H. inversion H as [|? ? Hnotin Hrest]; subst.
  destruct (String.eqb k' k); [exact Hrest|].
  simpl. constructor; [|apply IH; exact Hrest].
  intros Hin. apply Hnotin. eapply keys_delete_subset. exact Hin.
Qed.

Lemma stopUsing_outcome :
  forall (r : ref) (p : Pool) (s : StockfishInstance),
    deref p r = Some s ->
    keys_unique (usedInstances p) ->
    keys_unique (idleInstances p) ->
    exists p' : Pool,
      stopUsing r p = Some p' /\
      StringMap.get (id s) (usedInstances p') = None /\
      if Nat.eqb (StringMap.size (idleInstances p)) MAX_IDLE_INSTANCES
      then StringMap.get (id s) (idleInstances p') = None /\
           deref p' r = Some (emit [Kill] (set_state terminated s))
      else StringMap.get (id s) (idleInstances p') = Some r /\
           deref p' r = Some s.
Proof.
  intros r p s Hs Hused Hidle.
  assert (Hr : (r < List.length (heap p))%nat)
    by (apply nth_error_Some; unfold deref in Hs; congruence).
  unfold stopUsing. rewrite Hs. cbn [idleInstances set_used].
  destruct (Nat.eqb (StringMap.size (idleInstances p)) MAX_IDLE_INSTANCES).
  - unfold terminate.
    assert (E : deref (set_used (StringMap.delete (id s) (usedInstances p)) p) r = Some s)
      by exact Hs.
    rewrite E. eexists. split; [reflexivity|]. simpl.
    split; [|split].
    + apply get_delete_same. apply keys_unique_delete. exact Hused.
    + apply get_delete_same. exact Hidle.
    + apply deref_assign. exact Hr.
  - eexists. split; [reflexivity|]. simpl.
    split; [apply get_delete_same; exact Hused|].
    split; [apply StringMap_get_set|exact Hs].
Qed.

(** X15.  [stopUsing] takes the instance out of the used map.  If the idle
    map then holds exactly [MAX_IDLE_INSTANCES] entries the instance is
    terminated: its process is killed, its state is terminated and its
    identifier is in neither map.  Otherwise it becomes idle, untouched. *)
Theorem stopUsing_parks_or_terminates :
  forall (r : ref) (p : Pool) (s : StockfishInstance),
    deref p r = Some s ->
    keys_unique (usedInstances p) ->
    keys_unique (idleInstances p) ->
    exists p' : Pool,
      stopUsing r p = Some p' /\
      StringMap.get (id s) (usedInstances p') = None /\
      if Nat.eqb (StringMap.size (idleInstances p)) MAX_IDLE_INSTANCES
      then StringMap.get (id s) (idleInstances p') = None /\
           deref p' r = Some (emit [Kill] (set_state terminated s))
      else StringMap.get (id s) (idleInstances p') = Some r /\
           deref p' r = Some s.
Proof. exact stopUsing_outcome. Qed.

Lemma stopUsing_parks_or_terminates_witness :
  StringMap.size (idleInstances pool_at_capacity) = MAX_IDLE_INSTANCES /\
  exists p' : Pool,
    stopUsing 4%nat pool_at_capacity = Some p' /\
    StringMap.get "a4" (usedInstances p') = None /\
    StringMap.get "a4" (idleInstances p') = None /\
    idleInstances p' = idleInstances pool_at_capacity /\
    deref p' 4%nat =
      Some (emit [Kill] (set_state terminated
              (set_state ready (write ucinewgame (write uci
                 (set_stockfishOutputBuffer ""
                    (reset (emit [Spawn] (set_id "a4" blank))))))))).
Proof.
  split; [vm_compute; reflexivity|].
  destruct (stopUsing_parks_or_terminates 4%nat pool_at_capacity
              (set_state ready (write ucinewgame (write uci
                 (set_stockfishOutputBuffer ""
                    (reset (emit [Spawn] (set_id "a4" blank))))))))
    as (p' & Hstop & Hused & Hrest).
  - vm_compute. reflexivity.
  - vm_compute. repeat constructor; simpl; intuition discriminate.
  - vm_compute. repeat constructor; simpl; intuition discriminate.
  - change (Nat.eqb (StringMap.size (idleInstances pool_at_capacity)) MAX_IDLE_INSTANCES)
      with true in Hrest.
    destruct Hrest as [Hidle Hderef].
    exists p'. repeat split; try assumption.
    vm_compute in Hstop. injection Hstop as <-. vm_compute. reflexivity.
Defined.

Lemma idle_map_stays_within_capacity_witness :
  (StringMap.size (idleInstances pool_at_capacity) <= MAX_IDLE_INSTANCES)%nat /\
  exists p' : Pool,
    pool_run [Release 4%nat; Acquire "c0"; Release 0%nat] pool_at_capacity = Some p' /\
    (StringMap.size (idleInstances p') <= MAX_IDLE_INSTANCES)%nat.
Proof.
  assert (Hb : (StringMap.size (idleInstances pool_at_capacity) <= MAX_IDLE_INSTANCES)%nat)
    by (vm_compute; lia).
  split; [exact Hb|].
  destruct (pool_run [Release 4%nat; Acquire "c0"; Release 0%nat] pool_at_capacity)
    as [p'|] eqn:E; [|vm_compute in E; discriminate].
  exists p'. split; [reflexivity|].
  exact (idle_map_stays_within_capacity _ _ _ Hb E).
Defined.

(** [state] after one line: ready after a [bestmove] line, else as before. *)
Lemma process_line_state (line : string) (s : StockfishInstance) :
  state (final (process_line line s)) =
    if startsWith "bestmove" line then ready else state s.
Proof.
  unfold process_line. cbv zeta.
  destruct (startsWith "bestmove" line) eqn:Hb.
  - cbn [state set_state]. rewrite (startsWith_bestmove_not_info line Hb). reflexivity.
  - destruct (state s) eqn:Es; try (simpl; exact Es).
    destruct (startsWith "info" line); [|simpl; exact Es].
    destruct (includes "pv" line).
    + destruct (processInfo_frame line s) as (_ & _ & _ & F & _). rewrite F. exact Es.
    + destruct (includes "mate 0" line || includes "cp 0" line); [simpl; exact Es|].
      destruct (includes "currmove" line || includes "NNUE evaluation" line);
        simpl; exact Es.
Qed.

Lemma process_lines_stay_ready (ls : list string) (s : StockfishInstance) :
  state s = ready -> state (final (process_lines ls s)) = ready.
Proof.
  revert s. induction ls as [|line ls IH]; intros s Hs; simpl; [exact Hs|].
  pose proof (process_line_state line s) as H. rewrite Hs in H.
  assert (H' : state (final (process_line line s)) = ready)
    by (rewrite H; destruct (startsWith "bestmove" line); reflexivity).
  destruct (process_line line s) as [s1|e s1]; simpl in *.
  - apply IH. exact H'.
  - exact H'.
Qed.

(** From a state other than ready, the lines are skipped up to the first
    [bestmove] line, which makes the instance ready for good. *)
Lemma process_lines_bestmove (ls : list string) (s : StockfishInstance) :
  state s <> ready ->
  Exists (fun line => startsWith "bestmove" line = true) ls ->
  state (final (process_lines ls s)) = ready.
Proof.
  intros Hs Hex. induction ls as [|line ls IH]; [inversion Hex|].
  simpl. destruct (startsWith "bestmove" line) eqn:Hb.
  - pose proof (process_line_state line s) as H. rewrite Hb in H.
    destruct (process_line line s) as [s1|e s1]; simpl in *.
    + apply process_lines_stay_ready. exact H.
    + exact H.
  - assert (E : process_line line s = Returned s).
    { unfold process_line. rewrite Hb. destruct (state s); try congruence; reflexivity. }
    rewrite E. apply IH.
    inversion Hex as [? ? Hhead|? ? Htail]; subst; [congruence|exact Htail].
Qed.

Lemma onStdoutChunks_not_ready (DEBUG : option string) (chunks : list string)
    (s : StockfishInstance) :
  state s <> ready ->
  Forall (fun line => startsWith "bestmove" line = false)
         (lines_processed (stockfishOutputBuffer s) (List.map Data chunks)) ->
  state (onStdoutChunks DEBUG chunks s) = state s.
Proof.
  revert s. induction chunks as [|c cs IH]; intros s Hs Hls; [reflexivity|].
  cbn [List.map lines_processed onStdoutChunks] in *.
  apply Forall_app in Hls. destruct Hls as [Hready Hrest].
  rewrite (onStdoutData_not_ready DEBUG c s Hs Hready). cbn [final].
  destruct (echo_frame DEBUG c s) as [Es Eb].
  rewrite IH; cbn [state stockfishOutputBuffer set_stockfishOutputBuffer].
  - exact Es.
  - rewrite Es. exact Hs.
  - exact Hrest.
Qed.

(** The [exit] handler on an instance that is not terminated: the instance
    is respawned under the identifier [fresh] and registered as idle. *)
Lemma onExit_respawns (fresh : string) (r : ref) (p : Pool) (s : StockfishInstance) :
  deref p r = Some s ->
  state s <> terminated ->
  exists (p' : Pool) (s' : StockfishInstance) (evs : list event),
    onExit fresh r p = Some p' /\
    deref p' r = Some s' /\
    id s' = fresh /\
    state s' = ready /\
    StringMap.get fresh (idleInstances p') = Some r /\
    trace s' = (trace s ++ ConsoleWarn :: Spawn :: evs)%list.
Proof.
  intros Hs Hst.
  assert (Hr : (r < List.length (heap p))%nat)
    by (apply nth_error_Some; unfold deref in Hs; congruence).
  unfold onExit. rewrite Hs.
  destruct (state s) eqn:Est; try congruence.
  all: unfold initialise; rewrite deref_assign by exact Hr; simpl.
  all: rewrite deref_assign by (simpl; rewrite length_replace_nth; exact Hr); simpl.
  all: destruct (currentAnalysisOptions s) as [| |options] eqn:Ecur; simpl.
  all: eexists _, _, _; split; [reflexivity|].
  all: split;
       [ apply deref_assign; simpl; rewrite ?length_replace_nth; exact Hr |].
  all: simpl; repeat split; try reflexivity; try apply StringMap_get_set.
  all: rewrite <- ?app_assoc; simpl; reflexivity.
Qed.

(** X16.  [terminate] takes the identifier out of both maps, makes the
    instance terminated and kills the process.  The [exit] event that the
    kill brings about is ignored, and the instance is not respawned, if the
    engine output delivered between the kill and the exit holds no
    [bestmove] line; this covers an exit with no output in between.  If a
    chunk with a [bestmove] line is delivered first, [process] makes the
    terminated instance ready again, and the [exit] handler then respawns
    the engine under a fresh identifier and registers it as idle. *)
Theorem exit_after_terminate_respawns_only_after_bestmove :
  forall (r : ref) (p : Pool) (s : StockfishInstance),
    deref p r = Some s ->
    keys_unique (usedInstances p) ->
    keys_unique (idleInstances p) ->
    exists p' : Pool,
      terminate r p = Some p' /\
      StringMap.get (id s) (usedInstances p') = None /\
      StringMap.get (id s) (idleInstances p') = None /\
      deref p' r = Some (emit [Kill] (set_state terminated s)) /\
      (forall (DEBUG : option string) (chunks : list string) (fresh : string),
          Forall (fun line => startsWith "bestmove" line = false)
                 (lines_processed (stockfishOutputBuffer s) (List.map Data chunks)) ->
          onExit fresh r
            (assign r (onStdoutChunks DEBUG chunks (emit [Kill] (set_state terminated s))) p')
          = Some
            (assign r (onStdoutChunks DEBUG chunks (emit [Kill] (set_state terminated s))) p'))
      /\
      (forall (DEBUG : option string) (chunk : string) (fresh : string),
          Exists (fun line => startsWith "bestmove" line = true)
                 (ready_lines (stockfishOutputBuffer s) chunk) ->
          exists (p3 : Pool) (s3 : StockfishInstance),
            onExit fresh r
              (assign r (final (onStdoutData DEBUG chunk
                                  (emit [Kill] (set_state terminated s)))) p')
            = Some p3 /\
            deref p3 r = Some s3 /\
            id s3 = fresh /\
            state s3 = ready /\
            StringMap.get fresh (idleInstances p3) = Some r /\
            In Spawn
               (emitted (final (onStdoutData DEBUG chunk
                                  (emit [Kill] (set_state terminated s)))) s3)).
Proof.
  intros r p s Hs Hused Hidle.
  assert (Hr : (r < List.length (heap p))%nat)
    by (apply nth_error_Some; unfold deref in Hs; congruence).
  unfold terminate. rewrite Hs. eexists. split; [reflexivity|].
  split; [apply get_delete_same; exact Hused|].
  split; [apply get_delete_same; exact Hidle|].
  split; [apply deref_assign; exact Hr|].
  set (st := emit [Kill] (set_state terminated s)).
  set (p' := assign r st _).
  assert (Hr' : (r < List.length (heap p'))%nat)
    by (subst p'; simpl; rewrite length_replace_nth; exact Hr).
  split.
  - intros DEBUG chunks fresh Hls. unfold onExit.
    rewrite deref_assign by exact Hr'.
    rewrite (onStdoutChunks_not_ready DEBUG chunks st);
      [reflexivity | subst st; simpl; discriminate | exact Hls].
  - intros DEBUG chunk fresh Hex.
    set (s2 := final (onStdoutData DEBUG chunk st)).
    assert (Hs2 : state s2 = ready).
    { subst s2. unfold onStdoutData. rewrite onData_eq.
      destruct (echo_frame DEBUG chunk st) as [Es Eb]. rewrite Eb.
      apply process_lines_bestmove; [|exact Hex].
      cbn [state set_stockfishOutputBuffer]. rewrite Es. subst st. simpl. discriminate. }
    destruct (onExit_respawns fresh r (assign r s2 p') s2)
      as (p3 & s3 & evs & E & D & I & S & G & T).
    + apply deref_assign. exact Hr'.
    + rewrite Hs2. discriminate.
    + exists p3, s3. repeat split; try assumption.
      rewrite (emitted_app _ _ _ T). right. left. reflexivity.
Qed.

Lemma exit_after_terminate_respawns_only_after_bestmove_witness :
  exists p' : Pool,
    terminate 0%nat pool_in_session = Some p' /\
    usedInstances p' = [] /\ idleInstances p' = [] /\
    onExit "77c0" 0%nat p' = Some p' /\
    exists (p3 : Pool) (s3 : StockfishInstance),
      onExit "77c0" 0%nat
        (assign 0%nat
           (final (onStdoutData None ("bestmove e2e4" ++ nl)
                     (emit [Kill] (set_state terminated started_instance)))) p')
      = Some p3 /\
      deref p3 0%nat = Some s3 /\
      id s3 = "77c0" /\
      state s3 = ready /\
      StringMap.get "77c0" (idleInstances p3) = Some 0%nat.
Proof.
  destruct (exit_after_terminate_respawns_only_after_bestmove 0%nat pool_in_session
              started_instance)
    as (p' & Hterm & _ & _ & _ & Hquiet & Hbest).
  - vm_compute. reflexivity.
  - vm_compute. repeat constructor; simpl; intuition discriminate.
  - vm_compute. repeat constructor; simpl; intuition discriminate.
  - exists p'. split; [exact Hterm|].
    assert (Hp' : usedInstances p' = [] /\ idleInstances p' = [] /\
                  assign 0%nat (emit [Kill] (set_state terminated started_instance)) p' = p')
      by (vm_compute in Hterm; injection Hterm as <-; repeat split; reflexivity).
    destruct Hp' as (Hu & Hi & Hfix).
    split; [exact Hu|]. split; [exact Hi|]. split.
    + pose proof (Hquiet None [] "77c0") as H. cbn [onStdoutChunks] in H.
      rewrite Hfix in H. apply H. constructor.
    + destruct (Hbest None ("bestmove e2e4" ++ nl) "77c0")
        as (p3 & s3 & E & D & I & S & G & _).
      * assert (E : ready_lines (stockfishOutputBuffer started_instance)
                                ("bestmove e2e4" ++ nl) = ["bestmove e2e4"])
          by (vm_compute; reflexivity).
        rewrite E. constructor. vm_compute. reflexivity.
      * exists p3, s3. repeat split; assumption.
Defined.

(** X17.  Release and acquire round trip.  An instance released while the
    idle map is empty is the one the next [getInstance] returns: no process is
    spawned, the instance object is untouched, the idle map is empty again and
    the instance is back under its identifier in the used map. *)
Theorem released_instance_is_reused :
  forall (r : ref) (p : Pool) (s : StockfishInstance) (fresh : string),
    deref p r = Some s ->
    idleInstances p = [] ->
    exists p1 p2 : Pool,
      stopUsing r p = Some p1 /\
      getInstance fresh p1 = Some (p2, r) /\
      heap p2 = heap p /\
      idleInstances p2 = [] /\
      usedInstances p2 =
        StringMap.set (id s) r (StringMap.delete (id s) (usedInstances p)).
Proof.
  intros r p s fresh Hs Hidle.
  unfold stopUsing. rewrite Hs. cbn [idleInstances set_used]. rewrite Hidle.
  cbn [StringMap.size List.length Nat.eqb MAX_IDLE_INSTANCES StringMap.set].
  eexists _, _. split; [reflexivity|].
  unfold getInstance. cbn [idleInstances set_idle StringMap.size List.length Nat.ltb Nat.leb
                            StringMap.first].
  assert (E : deref (set_idle [(id s, r)]
                       (set_used (StringMap.delete (id s) (usedInstances p)) p)) r
              = Some s) by exact Hs.
  rewrite E. cbn [idleInstances set_idle StringMap.delete]. rewrite String.eqb_refl.
  split; [reflexivity|]. repeat split.
Qed.

Lemma released_instance_is_reused_witness :
  exists p1 p2 : Pool,
    stopUsing 0%nat (set_idle [] pool_in_session) = Some p1 /\
    getInstance "77c0" p1 = Some (p2, 0%nat) /\
    heap p2 = heap pool_in_session /\
    idleInstances p2 = [] /\
    usedInstances p2 = [("a3f1", 0%nat)].
Proof.
  destruct (released_instance_is_reused 0%nat (set_idle [] pool_in_session)
              (startAnalysing {| opt_lines := Some three |}
                 (set_state ready (write ucinewgame (write uci
                    (set_stockfishOutputBuffer ""
                       (reset (emit [Spawn] (set_id "a3f1" blank))))))))
              "77c0")
    as (p1 & p2 & H1 & H2 & H3 & H4 & H5); try (vm_compute; reflexivity).
  exists p1, p2. repeat split; assumption.
Defined.

(** ** Restart after an engine exit *)

Lemma feed_calls_registered (chunks : list string) (s : StockfishInstance) :
  calls_registered s (final (feed chunks s)).
Proof.
  revert s. induction chunks as [|c cs IH]; intros s; simpl.
  - apply calls_registered_refl.
  - pose proof (onData_calls_registered c s) as H.
    destruct (onData c s) as [s1|e s1]; simpl in *.
    + eapply calls_registered_trans; [exact H|apply IH].
    + exact H.
Qed.

(** X18.  What a restart loses.  When the process of a live instance exits,
    the handler respawns the engine but sends it no position, and the
    re-initialisation resets the analysis data and the listeners: afterwards
    [bestLines] is empty, [currentDepth] is 0 and no listener is registered,
    so that none is called for any output of the new process; the cached side
    to move is kept. *)
Theorem restart_drops_listeners_and_position :
  forall (fresh : string) (r : ref) (p : Pool) (s : StockfishInstance),
    deref p r = Some s ->
    state s <> terminated ->
    exists (p' : Pool) (s' : StockfishInstance),
      onExit fresh r p = Some p' /\
      deref p' r = Some s' /\
      analysisListeners s' = [] /\
      bestLines s' = [] /\
      currentDepth s' = zero /\
      turn s' = turn s /\
      Forall no_position (emitted s s') /\
      forall (chunks : list string) (l : listener) (a : StockfishAnalysis),
        ~ In (Call l a) (emitted s' (final (feed chunks s'))).
Proof.
  intros fresh r p s Hs Hst.
  assert (Hr : (r < List.length (heap p))%nat)
    by (apply nth_error_Some; unfold deref in Hs; congruence).
  assert (Hquiet : forall s0 : StockfishInstance,
             analysisListeners s0 = [] ->
             forall chunks l a, ~ In (Call l a) (emitted s0 (final (feed chunks s0)))).
  { intros s0 Hl chunks l a Hin.
    destruct (feed_calls_registered chunks s0) as (_ & evs & T & C).
    rewrite (emitted_app _ _ _ T) in Hin. apply C in Hin. rewrite Hl in Hin.
    contradiction. }
  unfold onExit. rewrite Hs.
  destruct (state s) eqn:Est; try congruence.
  all: unfold initialise; rewrite deref_assign by exact Hr; simpl.
  all: rewrite deref_assign by (simpl; rewrite length_replace_nth; exact Hr); simpl.
  all: destruct (currentAnalysisOptions s) as [| |options] eqn:Ecur; simpl.
  all: eexists _, _; split; [reflexivity|].
  all: split; [apply deref_assign; simpl; rewrite ?length_replace_nth; exact Hr|].
  all: simpl; repeat split; try reflexivity; try (apply Hquiet; reflexivity).
  all: erewrite emitted_app by (simpl; rewrite <- ?app_assoc; simpl; reflexivity).
  all: repeat constructor.
Qed.

Lemma restart_drops_listeners_and_position_witness :
  exists s0 : StockfishInstance,
    deref (assign 0%nat session_black pool_in_session) 0%nat = Some s0 /\
    analysisListeners s0 = [0%nat] /\
    exists (p' : Pool) (s' : StockfishInstance),
      onExit "77c0" 0%nat (assign 0%nat session_black pool_in_session) = Some p' /\
      deref p' 0%nat = Some s' /\
      analysisListeners s' = [] /\
      turn s' = Some black /\
      emitted s0 s' = [ConsoleWarn; Spawn; Write uci; Write ucinewgame;
                       Write (setoption_MultiPV one); Write go_infinite].
Proof.
  exists session_black. split; [reflexivity|]. split; [reflexivity|].
  destruct (restart_drops_listeners_and_position "77c0" 0%nat
              (assign 0%nat session_black pool_in_session) session_black)
    as (p' & s' & Hexit & Hderef & Hl & _ & _ & Hturn & _).
  - reflexivity.
  - vm_compute. discriminate.
  - exists p', s'. repeat split; try assumption.
    vm_compute in Hexit. injection Hexit as <-.
    vm_compute in Hderef. injection Hderef as <-.
    vm_compute. reflexivity.
Defined.

(** X19.  A crash after a stop does not restart the analysis:
    [stopAnalysing] clears the recorded options, so the exit handler that runs
    next respawns the engine and puts it in UCI mode, and sends neither
    [setoption] nor [go]. *)
Theorem exit_after_stop_does_not_replay :
  forall (fresh : string) (r : ref) (p : Pool) (s : StockfishInstance),
    deref p r = Some s ->
    state s <> terminated ->
    exists (p1 p2 : Pool) (s2 : StockfishInstance),
      on_instance stopAnalysing r p = Some p1 /\
      onExit fresh r p1 = Some p2 /\
      deref p2 r = Some s2 /\
      emitted (stopAnalysing s) s2 = [ConsoleWarn; Spawn; Write uci; Write ucinewgame] /\
      state s2 = ready.
Proof.
  intros fresh r p s Hs Hst.
  assert (Hr : (r < List.length (heap p))%nat)
    by (apply nth_error_Some; unfold deref in Hs; congruence).
  unfold on_instance. rewrite Hs. eexists _, _, _. split; [reflexivity|].
  unfold onExit. rewrite deref_assign by exact Hr.
  assert (Hst' : state (stopAnalysing s) <> terminated).
  { unfold stopAnalysing. cbn [hasStarted set_currentAnalysisOptions].
    destruct (hasStarted s); simpl; [discriminate|exact Hst]. }
  assert (Hcur : currentAnalysisOptions (stopAnalysing s) = null).
  { unfold stopAnalysing. cbn [hasStarted set_currentAnalysisOptions].
    destruct (hasStarted s); reflexivity. }
  destruct (state (stopAnalysing s)) eqn:Est; try congruence.
  all: unfold initialise;
       rewrite deref_assign by (simpl; rewrite length_replace_nth; exact Hr); simpl.
  all: rewrite deref_assign by (simpl; rewrite !length_replace_nth; exact Hr); simpl.
  all: rewrite Hcur.
  all: split; [reflexivity|].
  all: split; [apply deref_assign; simpl; rewrite !length_replace_nth; exact Hr|].
  all: split; [|reflexivity].
  all: apply emitted_app; simpl; rewrite <- ?app_assoc; reflexivity.
Qed.

Lemma exit_after_stop_does_not_replay_witness :
  exists (p1 p2 : Pool) (s2 : StockfishInstance),
    on_instance stopAnalysing 0%nat pool_in_session = Some p1 /\
    onExit "77c0" 0%nat p1 = Some p2 /\
    deref p2 0%nat = Some s2 /\
    trace s2 = [Spawn; Write uci; Write ucinewgame;
                Write (setoption_MultiPV three); Write go_infinite; Write stop;
                ConsoleWarn; Spawn; Write uci; Write ucinewgame].
Proof.
  destruct (exit_after_stop_does_not_replay "77c0" 0%nat pool_in_session
              (startAnalysing {| opt_lines := Some three |}
                 (set_state ready (write ucinewgame (write uci
                    (set_stockfishOutputBuffer ""
                       (reset (emit [Spawn] (set_id "a3f1" blank)))))))))
    as (p1 & p2 & s2 & H1 & H2 & H3 & _).
  - vm_compute. reflexivity.
  - vm_compute. discriminate.
  - exists p1, p2, s2. repeat split; try assumption.
    vm_compute in H1. injection H1 as <-.
    vm_compute in H2. injection H2 as <-.
    vm_compute in H3. injection H3 as <-.
    vm_compute. reflexivity.
Defined.

(** ** The request handlers *)

Lemma getInstance_succeeds (fresh : string) (p : Pool) :
  idle_allocated p ->
  exists (p1 : Pool) (r : ref) (s : StockfishInstance),
    getInstance fresh p = Some (p1, r) /\
    deref p1 r = Some s /\
    (r < List.length (heap p1))%nat /\
    usedInstances p1 = StringMap.set (id s) r (usedInstances p).
Proof.
  intros Hidle. unfold getInstance.
  destruct (idleInstances p) as [|[k r] rest] eqn:E.
  - cbn [StringMap.size List.length Nat.ltb Nat.leb].
    unfold construct, initialise, deref. cbn [heap].
    rewrite nth_error_snoc. cbn [heap assign set_idle].
    rewrite nth_error_replace_nth by (rewrite length_app; simpl; lia).
    eexists _, _, _. split; [reflexivity|].
    cbn [heap usedInstances set_used assign set_idle].
    rewrite nth_error_replace_nth by (rewrite length_app; simpl; lia).
    split; [reflexivity|].
    split; [rewrite length_replace_nth, length_app; simpl; lia|reflexivity].
  - cbn [StringMap.size List.length Nat.ltb Nat.leb StringMap.first].
    unfold idle_allocated in Hidle. rewrite E in Hidle.
    inversion Hidle as [|? ? Hr _]; subst. simpl in Hr.
    destruct (deref p r) as [s|] eqn:D;
      [|unfold deref in D; apply nth_error_None in D; lia].
    eexists _, _, _. split; [reflexivity|].
    split; [exact D|]. split; [exact Hr|reflexivity].
Qed.

Lemma start_on_succeeds (setBoardstate : StockfishInstance -> StockfishInstance)
    (fresh : string) (req : Routes.StartAnalysingRequest) (p : Pool) :
  idle_allocated p ->
  (forall s, id (setBoardstate s) = id s) ->
  exists (p1 : Pool) (r : ref) (s : StockfishInstance),
    getInstance fresh p = Some (p1, r) /\
    deref p1 r = Some s /\
    (r < List.length (heap p1))%nat /\
    usedInstances p1 = StringMap.set (id s) r (usedInstances p) /\
    Routes.start_on setBoardstate fresh req p =
      Some ({| Routes.statusCode := 200; Routes.sent := Routes.StartAnalysingResponse (id s) |},
            assign r (startAnalysing {| opt_lines := Routes.req_lines req |}
                                     (setBoardstate s)) p1).
Proof.
  intros Hidle Hid.
  destruct (getInstance_succeeds fresh p Hidle) as (p1 & r & s & G & D & Hr & U).
  exists p1, r, s. repeat split; try assumption.
  unfold Routes.start_on. rewrite G. unfold on_instance. rewrite D.
  rewrite deref_assign by exact Hr. cbn [id startAnalysing].
  unfold startAnalysing, write, emit, reset. cbn [id set_analysisOptions set_analysisListeners
    set_currentDepth set_bestLines set_hasStarted set_currentAnalysisOptions].
  rewrite Hid. reflexivity.
Qed.

Lemma id_setBoardstateByFen (f : string) (s : StockfishInstance) :
  id (setBoardstateByFen f s) = id s.
Proof. reflexivity. Qed.

Lemma id_setBoardstateByMoves (m : string) (s : StockfishInstance) :
  id (setBoardstateByMoves m s) = id s.
Proof. reflexivity. Qed.

(** The handler of a start request that names a position, on a pool whose
    idle instances are allocated. *)
Lemma startAnalysing_route_succeeds (fresh : string) (req : Routes.StartAnalysingRequest)
    (p : Pool) :
  idle_allocated p ->
  (Routes.req_moves req <> None \/ Routes.req_fen req <> None) ->
  exists (p1 : Pool) (r : ref) (s s' : StockfishInstance),
    getInstance fresh p = Some (p1, r) /\
    deref p1 r = Some s /\
    (r < List.length (heap p1))%nat /\
    usedInstances p1 = StringMap.set (id s) r (usedInstances p) /\
    id s' = id s /\
    currentDepth s' = zero /\ bestLines s' = [] /\
    Routes.startAnalysing fresh req p =
      Some ({| Routes.statusCode := 200; Routes.sent := Routes.StartAnalysingResponse (id s) |},
            assign r s' p1).
Proof.
  intros Hidle Hpos. unfold Routes.startAnalysing.
  destruct (Routes.req_moves req) as [m|] eqn:Em.
  - destruct (start_on_succeeds (setBoardstateByMoves m) fresh req p Hidle
                (id_setBoardstateByMoves m)) as (p1 & r & s & G & D & Hr & U & S).
    exists p1, r, s,
      (startAnalysing {| opt_lines := Routes.req_lines req |} (setBoardstateByMoves m s)).
    repeat split; try assumption.
  - destruct (Routes.req_fen req) as [f|] eqn:Ef; [|destruct Hpos; congruence].
    destruct (start_on_succeeds (setBoardstateByFen f) fresh req p Hidle
                (id_setBoardstateByFen f)) as (p1 & r & s & G & D & Hr & U & S).
    exists p1, r, s,
      (startAnalysing {| opt_lines := Routes.req_lines req |} (setBoardstateByFen f s)).
    repeat split; try assumption.
Qed.

(** X20.  A request that is not answered with 200 changes nothing: a start
    request is refused (with 400) only when it names neither moves nor a FEN,
    and then touches no instance; a stop request without an id (400) or with
    an id that is not in the used map (404) leaves the pool as it is; a query
    never changes the pool, whatever its answer. *)
Theorem refused_requests_change_nothing :
  forall (p p' : Pool) (resp : Routes.response),
    (forall fresh req,
        Routes.startAnalysing fresh req p = Some (resp, p') ->
        Routes.statusCode resp <> 200%nat ->
        p' = p /\ Routes.req_moves req = None /\ Routes.req_fen req = None) /\
    (forall req,
        Routes.stopAnalysing req p = Some (resp, p') ->
        Routes.statusCode resp <> 200%nat ->
        p' = p /\
        match Routes.stop_id req with
        | Some i => StringMap.get i (usedInstances p) = None
        | None => True
        end) /\
    (forall req, Routes.getBestLines req p = Some (resp, p') -> p' = p).
Proof.
  intros p p' resp. split; [|split].
  - intros fresh req H Hcode. unfold Routes.startAnalysing in H.
    assert (Hon : forall f, Routes.start_on f fresh req p = Some (resp, p') -> False).
    { intros f Hf. unfold Routes.start_on in Hf.
      destruct (getInstance fresh p) as [[q r]|]; [|discriminate].
      destruct (on_instance _ r q) as [q'|]; [|discriminate].
      destruct (deref q' r); [|discriminate].
      injection Hf as <- _. apply Hcode. reflexivity. }
    destruct (Routes.req_moves req) as [m|]; [exfalso; eapply Hon; exact H|].
    destruct (Routes.req_fen req) as [f|]; [exfalso; eapply Hon; exact H|].
    injection H as _ <-. repeat split.
  - intros req H Hcode. unfold Routes.stopAnalysing in H.
    destruct (Routes.stop_id req) as [i|]; [|injection H as _ <-; split; trivial].
    destruct (StringMap.get i (usedInstances p)) as [r|];
      [|injection H as _ <-; split; reflexivity].
    destruct (on_instance stopAnalysing r p) as [q|]; [|discriminate].
    destruct (stopUsing r q) as [q'|]; [|discriminate].
    injection H as <- _. exfalso. apply Hcode. reflexivity.
  - intros req H. unfold Routes.getBestLines in H.
    destruct (Routes.query_id req) as [i|]; [|injection H as _ <-; reflexivity].
    destruct (StringMap.get i (usedInstances p)) as [r|];
      [|injection H as _ <-; reflexivity].
    destruct (deref p r); [|discriminate]. injection H as _ <-. reflexivity.
Qed.

Lemma refused_requests_change_nothing_witness :
  Routes.stopAnalysing {| Routes.stop_id := Some "77c0" |} pool_in_session
    = Some ({| Routes.statusCode := 404; Routes.sent := Routes.NoAnalysisFound |},
            pool_in_session) /\
  Routes.startAnalysing "77c0"
    {| Routes.req_moves := None; Routes.req_fen := None; Routes.req_lines := Some three |}
    pool_in_session
    = Some ({| Routes.statusCode := 400; Routes.sent := Routes.MissingMovesOrFen |},
            pool_in_session).
Proof.
  destruct (refused_requests_change_nothing pool_in_session pool_in_session
              {| Routes.statusCode := 404; Routes.sent := Routes.NoAnalysisFound |})
    as (_ & Hstop & _).
  destruct (Hstop {| Routes.stop_id := Some "77c0" |}) as [_ Hget];
    [vm_compute; reflexivity | discriminate |].
  split; vm_compute; reflexivity.
Defined.

(** X21.  Start, then query.  On a pool whose idle instances are allocated,
    a start request that names a position is answered with 200 and an id, and
    a query with that id right afterwards is answered with 200, depth 0 and
    [lines] undefined. *)
Theorem query_after_start_is_empty :
  forall (fresh : string) (req : Routes.StartAnalysingRequest) (p : Pool),
    idle_allocated p ->
    (Routes.req_moves req <> None \/ Routes.req_fen req <> None) ->
    exists (i : string) (p1 : Pool),
      Routes.startAnalysing fresh req p =
        Some ({| Routes.statusCode := 200;
                 Routes.sent := Routes.StartAnalysingResponse i |}, p1) /\
      Routes.getBestLines {| Routes.query_id := Some i |} p1 =
        Some ({| Routes.statusCode := 200;
                 Routes.sent := Routes.BestLines {| depth := zero; lines := None;
                                                    noLegalMoves := false |} |}, p1).
Proof.
  intros fresh req p Hidle Hpos.
  destruct (startAnalysing_route_succeeds fresh req p Hidle Hpos)
    as (p1 & r & s & s' & G & D & Hr & U & Hid & Hcd & Hbl & Hstart).
  eexists _, _. split; [exact Hstart|].
  unfold Routes.getBestLines. cbn [Routes.query_id usedInstances assign].
  rewrite U, StringMap_get_set. rewrite deref_assign by exact Hr.
  unfold getCurrentBestLines. rewrite Hcd, Hbl. reflexivity.
Qed.

Lemma query_after_start_is_empty_witness :
  exists p1 : Pool,
    Routes.startAnalysing "a3f1"
      {| Routes.req_moves := Some "e2e4 e7e5"; Routes.req_fen := None;
         Routes.req_lines := None |} empty_pool =
      Some ({| Routes.statusCode := 200;
               Routes.sent := Routes.StartAnalysingResponse "a3f1" |}, p1) /\
    Routes.getBestLines {| Routes.query_id := Some "a3f1" |} p1 =
      Some ({| Routes.statusCode := 200;
               Routes.sent := Routes.BestLines {| depth := zero; lines := None;
                                                  noLegalMoves := false |} |}, p1).
Proof.
  destruct (query_after_start_is_empty "a3f1"
              {| Routes.req_moves := Some "e2e4 e7e5"; Routes.req_fen := None;
                 Routes.req_lines := None |} empty_pool)
    as (i & p1 & H1 & H2).
  - constructor.
  - left. discriminate.
  - assert (E : i = "a3f1") by (vm_compute in H1; injection H1 as <- _; reflexivity).
    subst i. exists p1. split; assumption.
Defined.

Lemma keys_set_subset (k x : string) (r : ref) (m : StringMap.t) :
  In x (List.map fst (StringMap.set k r m)) -> x = k \/ In x (List.map fst m).
Proof.
  induction m as [|[k' r'] m IH]; simpl.
  - intros [E|[]]. left. symmetry. exact E.
  - destruct (String.eqb k' k); simpl.
    + intros [E|Hin]; [right; left; exact E|right; right; exact Hin].
    + intros [E|Hin]; [right; left; exact E|].
      destruct (IH Hin) as [E|Hin']; [left; exact E|right; right; exact Hin'].
Qed.

Lemma keys_unique_set (k : string) (r : ref) (m : StringMap.t) :
  keys_unique m -> keys_unique (StringMap.set k r m).
Proof.
  unfold keys_unique. induction m as [|[k' r'] m IH]; simpl.
  - intros _. constructor; [intros []|constructor].
  - intros H. inversion H as [|? ? Hnotin Hrest]; subst.
    destruct (String.eqb_spec k' k) as [->|Hne]; simpl.
    + constructor; assumption.
    + constructor; [|apply IH; exact Hrest].
      intros Hin. destruct (keys_set_subset _ _ _ _ Hin) as [E|Hin'];
        [apply Hne; exact E|apply Hnotin; exact Hin'].
Qed.

(** X22.  Start, stop, and the id is gone.  On a pool with allocated idle
    instances and distinct keys, the id answered by a start request is
    accepted by a stop request (200); after that the same id is unknown: a
    query and a second stop with it are answered with 404. *)
Theorem id_is_unknown_after_stop :
  forall (fresh : string) (req : Routes.StartAnalysingRequest) (p : Pool),
    idle_allocated p ->
    keys_unique (usedInstances p) ->
    keys_unique (idleInstances p) ->
    (Routes.req_moves req <> None \/ Routes.req_fen req <> None) ->
    exists (i : string) (p1 p2 : Pool),
      Routes.startAnalysing fresh req p =
        Some ({| Routes.statusCode := 200;
                 Routes.sent := Routes.StartAnalysingResponse i |}, p1) /\
      Routes.stopAnalysing {| Routes.stop_id := Some i |} p1 =
        Some ({| Routes.statusCode := 200; Routes.sent := Routes.AnalysisStopped |}, p2) /\
      Routes.getBestLines {| Routes.query_id := Some i |} p2 =
        Some ({| Routes.statusCode := 404; Routes.sent := Routes.NoAnalysisFound |}, p2) /\
      Routes.stopAnalysing {| Routes.stop_id := Some i |} p2 =
        Some ({| Routes.statusCode := 404; Routes.sent := Routes.NoAnalysisFound |}, p2).
Proof.
  intros fresh req p Hidle Hused Hidlek Hpos.
  destruct (startAnalysing_route_succeeds fresh req p Hidle Hpos)
    as (p1 & r & s & s' & G & D & Hr & U & Hid & _ & _ & Hstart).
  assert (Hidle1 : keys_unique (idleInstances p1)).
  { revert G. unfold getInstance.
    destruct (0 <? StringMap.size (idleInstances p))%nat.
    - destruct (StringMap.first (idleInstances p)) as [i0|]; [|discriminate].
      destruct (deref p i0) as [s0|]; [|discriminate].
      intros G. injection G as <- _. simpl. apply keys_unique_delete. exact Hidlek.
    - unfold construct, initialise.
      match goal with
      | |- context [deref ?q ?x] => destruct (deref q x) as [s0|]; [|discriminate]
      end.
      match goal with
      | |- context [deref ?q ?x] => destruct (deref q x) as [s1|]; [|discriminate]
      end.
      intros G. injection G as <- _. simpl. apply keys_unique_set. exact Hidlek. }
  set (q := assign r (stopAnalysing s') (assign r s' p1)).
  assert (Hq : deref q r = Some (stopAnalysing s'))
    by (apply deref_assign; simpl; rewrite length_replace_nth; exact Hr).
  assert (Hidq : id (stopAnalysing s') = id s).
  { rewrite <- Hid. unfold stopAnalysing. cbn [hasStarted set_currentAnalysisOptions].
    destruct (hasStarted s'); reflexivity. }
  destruct (stopUsing_outcome r q (stopAnalysing s') Hq) as (p2 & Hstop & Hgone & _).
  { subst q. simpl. rewrite U. apply keys_unique_set. exact Hused. }
  { subst q. simpl. exact Hidle1. }
  rewrite Hidq in Hgone.
  exists (id s), (assign r s' p1), p2. split; [exact Hstart|].
  split; [|split].
  - unfold Routes.stopAnalysing. cbn [Routes.stop_id usedInstances assign].
    rewrite U, StringMap_get_set. unfold on_instance.
    rewrite deref_assign by exact Hr. fold q. rewrite Hstop. reflexivity.
  - unfold Routes.getBestLines. cbn [Routes.query_id]. rewrite Hgone. reflexivity.
  - unfold Routes.stopAnalysing. cbn [Routes.stop_id]. rewrite Hgone. reflexivity.
Qed.

Lemma id_is_unknown_after_stop_witness :
  exists p1 p2 : Pool,
    Routes.startAnalysing "a3f1"
      {| Routes.req_moves := None; Routes.req_fen := Some fen_black_to_move;
         Routes.req_lines := Some three |} empty_pool =
      Some ({| Routes.statusCode := 200;
               Routes.sent := Routes.StartAnalysingResponse "a3f1" |}, p1) /\
    Routes.stopAnalysing {| Routes.stop_id := Some "a3f1" |} p1 =
      Some ({| Routes.statusCode := 200; Routes.sent := Routes.AnalysisStopped |}, p2) /\
    Routes.getBestLines {| Routes.query_id := Some "a3f1" |} p2 =
      Some ({| Routes.statusCode := 404; Routes.sent := Routes.NoAnalysisFound |}, p2).
Proof.
  destruct (id_is_unknown_after_stop "a3f1"
              {| Routes.req_moves := None; Routes.req_fen := Some fen_black_to_move;
                 Routes.req_lines := Some three |} empty_pool)
    as (i & p1 & p2 & H1 & H2 & H3 & _).
  - constructor.
  - constructor.
  - constructor.
  - right. discriminate.
  - assert (E : i = "a3f1") by (vm_compute in H1; injection H1 as <- _; reflexivity).
    subst i. exists p1, p2. repeat split; assumption.
Defined.

Lemma id_startAnalysing (o : StockfishAnalysisOptions) (s : StockfishInstance) :
  id (startAnalysing o s) = id s.
Proof. reflexivity. Qed.

Lemma replace_nth_snoc {A : Type} (l : list A) (x y : A) :
  replace_nth (List.length l) y (l ++ [x]) = (l ++ [y])%list.
Proof. induction l as [|h t IH]; simpl; [reflexivity|]. rewrite IH. reflexivity. Qed.

(** X23.  On a pool with no idle instance, two start requests in a row are
    answered with the same id: the instance constructed for the first is
    still registered as idle, so the second request is given that instance,
    which is started again with the second position.  Both clients then hold
    the one id of the one engine. *)
Theorem two_starts_share_one_engine :
  forall (fresh1 fresh2 : string) (req1 req2 : Routes.StartAnalysingRequest) (p : Pool),
    idleInstances p = [] ->
    (Routes.req_moves req1 <> None \/ Routes.req_fen req1 <> None) ->
    (Routes.req_moves req2 <> None \/ Routes.req_fen req2 <> None) ->
    exists (p1 p2 : Pool),
      Routes.startAnalysing fresh1 req1 p =
        Some ({| Routes.statusCode := 200;
                 Routes.sent := Routes.StartAnalysingResponse fresh1 |}, p1) /\
      Routes.startAnalysing fresh2 req2 p1 =
        Some ({| Routes.statusCode := 200;
                 Routes.sent := Routes.StartAnalysingResponse fresh1 |}, p2) /\
      List.length (heap p2) = S (List.length (heap p)) /\
      idleInstances p2 = [].
Proof.
  intros fresh1 fresh2 req1 req2 p Hidle H1 H2.
  assert (Hstart : forall f,
             (forall s, id (f s) = id s) ->
             exists s1 : StockfishInstance,
               id s1 = fresh1 /\
               Routes.start_on f fresh1 req1 p =
                 Some ({| Routes.statusCode := 200;
                          Routes.sent := Routes.StartAnalysingResponse fresh1 |},
                       {| heap := (heap p ++ [s1])%list;
                          usedInstances :=
                            StringMap.set fresh1 (List.length (heap p)) (usedInstances p);
                          idleInstances := [(fresh1, List.length (heap p))] |})).
  { intros f Hf. unfold Routes.start_on, getInstance. rewrite Hidle.
    cbn [StringMap.size List.length Nat.ltb Nat.leb].
    unfold construct, initialise, deref. cbn [heap].
    rewrite nth_error_snoc. unfold assign, set_idle.
    cbn [heap idleInstances usedInstances].
    rewrite replace_nth_snoc, nth_error_snoc.
    unfold on_instance, deref, assign, set_used, set_idle.
    cbn [heap idleInstances usedInstances].
    rewrite nth_error_snoc, replace_nth_snoc, Hidle.
    cbn [heap]. rewrite nth_error_snoc, id_startAnalysing, Hf.
    eexists. split; [|reflexivity].
    rewrite id_startAnalysing, Hf. reflexivity. }
  assert (Hagain : forall f (s1 : StockfishInstance),
             (forall s, id (f s) = id s) ->
             id s1 = fresh1 ->
             exists s2 : StockfishInstance,
               Routes.start_on f fresh2 req2
                 {| heap := (heap p ++ [s1])%list;
                    usedInstances :=
                      StringMap.set fresh1 (List.length (heap p)) (usedInstances p);
                    idleInstances := [(fresh1, List.length (heap p))] |} =
                 Some ({| Routes.statusCode := 200;
                          Routes.sent := Routes.StartAnalysingResponse fresh1 |},
                       {| heap := (heap p ++ [s2])%list;
                          usedInstances :=
                            StringMap.set fresh1 (List.length (heap p))
                              (StringMap.set fresh1 (List.length (heap p))
                                 (usedInstances p));
                          idleInstances := [] |})).
  { intros f s1 Hf Hs1. unfold Routes.start_on, getInstance.
    cbn [idleInstances StringMap.size List.length Nat.ltb Nat.leb StringMap.first].
    unfold deref. cbn [heap]. rewrite nth_error_snoc.
    unfold set_idle, set_used. cbn [idleInstances usedInstances heap]. rewrite Hs1.
    cbn [StringMap.delete fst]. rewrite String.eqb_refl.
    unfold on_instance, deref, assign. cbn [heap idleInstances usedInstances].
    rewrite nth_error_snoc, replace_nth_snoc.
    cbn [heap]. rewrite nth_error_snoc, id_startAnalysing, Hf, Hs1.
    eexists. reflexivity. }
  assert (Hroute : forall fresh req q resp,
             (Routes.req_moves req <> None \/ Routes.req_fen req <> None) ->
             (forall f, (forall s, id (f s) = id s) ->
                        Routes.start_on f fresh req q = resp f) ->
             exists f, Routes.startAnalysing fresh req q = resp f).
  { intros fresh req q resp Hpos Hall. unfold Routes.startAnalysing.
    destruct (Routes.req_moves req) as [m|].
    - exists (setBoardstateByMoves m). apply Hall. reflexivity.
    - destruct (Routes.req_fen req) as [f0|]; [|destruct Hpos; congruence].
      exists (setBoardstateByFen f0). apply Hall. reflexivity. }
  unfold Routes.startAnalysing.
  destruct (Routes.req_moves req1) as [m1|].
  - destruct (Hstart (setBoardstateByMoves m1) (fun s => eq_refl)) as (s1 & Hs1 & E1).
    rewrite E1.
    destruct (Routes.req_moves req2) as [m2|].
    + destruct (Hagain (setBoardstateByMoves m2) s1 (fun s => eq_refl) Hs1) as (s2 & E2).
      eexists _, _. split; [reflexivity|]. split; [exact E2|].
      cbn [heap idleInstances]. rewrite length_app. simpl. split; [lia|reflexivity].
    + destruct (Routes.req_fen req2) as [f2|]; [|destruct H2; congruence].
      destruct (Hagain (setBoardstateByFen f2) s1 (fun s => eq_refl) Hs1) as (s2 & E2).
      eexists _, _. split; [reflexivity|]. split; [exact E2|].
      cbn [heap idleInstances]. rewrite length_app. simpl. split; [lia|reflexivity].
  - destruct (Routes.req_fen req1) as [f1|]; [|destruct H1; congruence].
    destruct (Hstart (setBoardstateByFen f1) (fun s => eq_refl)) as (s1 & Hs1 & E1).
    rewrite E1.
    destruct (Routes.req_moves req2) as [m2|].
    + destruct (Hagain (setBoardstateByMoves m2) s1 (fun s => eq_refl) Hs1) as (s2 & E2).
      eexists _, _. split; [reflexivity|]. split; [exact E2|].
      cbn [heap idleInstances]. rewrite length_app. simpl. split; [lia|reflexivity].
    + destruct (Routes.req_fen req2) as [f2|]; [|destruct H2; congruence].
      destruct (Hagain (setBoardstateByFen f2) s1 (fun s => eq_refl) Hs1) as (s2 & E2).
      eexists _, _. split; [reflexivity|]. split; [exact E2|].
      cbn [heap idleInstances]. rewrite length_app. simpl. split; [lia|reflexivity].
Qed.

Lemma two_starts_share_one_engine_witness :
  exists p1 p2 : Pool,
    Routes.startAnalysing "a3f1"
      {| Routes.req_moves := None; Routes.req_fen := Some fen_black_to_move;
         Routes.req_lines := Some three |} empty_pool =
      Some ({| Routes.statusCode := 200;
               Routes.sent := Routes.StartAnalysingResponse "a3f1" |}, p1) /\
    Routes.startAnalysing "77c0"
      {| Routes.req_moves := Some "e2e4 e7e5"; Routes.req_fen := None;
         Routes.req_lines := None |} p1 =
      Some ({| Routes.statusCode := 200;
               Routes.sent := Routes.StartAnalysingResponse "a3f1" |}, p2) /\
    List.length (heap p2) = 1%nat.
Proof.
  destruct (two_starts_share_one_engine "a3f1" "77c0"
              {| Routes.req_moves := None; Routes.req_fen := Some fen_black_to_move;
                 Routes.req_lines := Some three |}
              {| Routes.req_moves := Some "e2e4 e7e5"; Routes.req_fen := None;
                 Routes.req_lines := None |} empty_pool)
    as (p1 & p2 & H1 & H2 & H3 & _).
  - reflexivity.
  - right. discriminate.
  - left. discriminate.
  - exists p1, p2. repeat split; assumption.
Defined.

(** ** The echo of the [data] handler

    Nothing in [process] reads the effects recorded so far, so the echo at
    the head of the handler shows in the trace and nowhere else. *)

Lemma emit_with_earlier (earlier evs : list event) (s : StockfishInstance) :
  emit evs (with_earlier earlier s) = with_earlier earlier (emit evs s).
Proof. unfold emit, with_earlier. simpl. rewrite app_assoc. reflexivity. Qed.

Lemma processInfo_with_earlier (earlier : list event) (line : string)
    (s : StockfishInstance) :
  processInfo line (with_earlier earlier s) =
    outcome_map (with_earlier earlier) (processInfo line s).
Proof.
  unfold processInfo.
  destruct (has_fields line); simpl; [|reflexivity].
  destruct (score_of line) as [sc|]; simpl.
  - unfold analysisComplete. simpl.
    destruct (analysisOptions s) as [| |options]; try reflexivity.
    match goal with
    | |- context [if ?b then Some true else _] => destruct b
    end.
    + simpl. unfold notify. simpl.
      destruct (ltb (currentDepth s) (depth_of line)); simpl;
        unfold with_earlier, emit, set_currentDepth; simpl;
        rewrite app_assoc; reflexivity.
    + destruct (ltb one (depth_of line)); simpl; [|reflexivity].
      match goal with
      | |- context [match Map_get one ?m with _ => _ end] => destruct (Map_get one m)
      end; [|reflexivity].
      match goal with
      | |- context [if ?b then notify _ _ else _] => destruct b
      end; simpl; [|reflexivity].
      unfold notify. simpl.
      destruct (ltb (currentDepth s) (depth_of line)); simpl;
        unfold with_earlier, emit, set_currentDepth; simpl;
        rewrite app_assoc; reflexivity.
  - rewrite emit_with_earlier. reflexivity.
Qed.

Lemma process_line_with_earlier (earlier : list event) (line : string)
    (s : StockfishInstance) :
  process_line line (with_earlier earlier s) =
    outcome_map (with_earlier earlier) (process_line line s).
Proof.
  unfold process_line. cbv zeta.
  destruct (startsWith "bestmove" line) eqn:Hb.
  - cbn [state set_state with_earlier].
    rewrite (startsWith_bestmove_not_info line Hb). reflexivity.
  - cbn [state with_earlier]. fold (with_earlier earlier s).
    destruct (state s); try reflexivity.
    destruct (startsWith "info" line); [|reflexivity].
    destruct (includes "pv" line); [apply processInfo_with_earlier|].
    destruct (includes "mate 0" line || includes "cp 0" line).
    + unfold processNoLegalMoves, notify. cbn [analysisListeners with_earlier].
      fold (with_earlier earlier s). rewrite emit_with_earlier. reflexivity.
    + destruct (includes "currmove" line || includes "NNUE evaluation" line);
        [reflexivity|].
      rewrite emit_with_earlier. reflexivity.
Qed.

Lemma process_lines_with_earlier (earlier : list event) (ls : list string)
    (s : StockfishInstance) :
  process_lines ls (with_earlier earlier s) =
    outcome_map (with_earlier earlier) (process_lines ls s).
Proof.
  revert s. induction ls as [|line ls IH]; intros s; simpl; [reflexivity|].
  rewrite process_line_with_earlier.
  destruct (process_line line s) as [s1|e s1]; simpl; [apply IH|reflexivity].
Qed.

Lemma onData_with_earlier (earlier : list event) (chunk : string)
    (s : StockfishInstance) :
  onData chunk (with_earlier earlier s) =
    outcome_map (with_earlier earlier) (onData chunk s).
Proof.
  rewrite !onData_eq. cbn [stockfishOutputBuffer with_earlier].
  fold (with_earlier earlier s).
  apply (process_lines_with_earlier earlier _
           (set_stockfishOutputBuffer _ s)).
Qed.

Lemma with_earlier_without_trace (s : StockfishInstance) :
  with_earlier (trace s) (without_trace s) = s.
Proof. destruct s. unfold with_earlier, without_trace. simpl. rewrite app_nil_r. reflexivity. Qed.

Lemma echo_with_earlier (DEBUG : option string) (chunk : string) (s : StockfishInstance) :
  echo DEBUG chunk s =
    with_earlier (trace s ++ emitted s (echo DEBUG chunk s)) (without_trace s).
Proof.
  unfold echo. destruct (debug_enabled DEBUG).
  - erewrite emitted_app by reflexivity.
    destruct s. unfold with_earlier, without_trace, emit. simpl.
    rewrite app_nil_r. reflexivity.
  - rewrite emitted_refl, app_nil_r. symmetry. apply with_earlier_without_trace.
Qed.

(** With [DEBUG] not set the handler is [onData]. *)
Lemma onStdoutData_unset (chunk : string) (s : StockfishInstance) :
  onStdoutData None chunk s = onData chunk s.
Proof. reflexivity. Qed.

(** X24.  The echo under [DEBUG] changes nothing but the console: whatever
    [DEBUG] holds, the [data] handler throws or returns as it does with
    [DEBUG] not set, leaves the same [bestLines], [currentDepth], [state]
    and carried buffer, and has the same effects, listener calls included,
    in the same order, after the one echo line that [DEBUG = 'true'] adds. *)
Theorem debug_echo_changes_the_console_only :
  forall (DEBUG : option string) (chunk : string) (s : StockfishInstance),
    raised (onStdoutData DEBUG chunk s) = raised (onStdoutData None chunk s) /\
    bestLines (final (onStdoutData DEBUG chunk s))
      = bestLines (final (onStdoutData None chunk s)) /\
    currentDepth (final (onStdoutData DEBUG chunk s))
      = currentDepth (final (onStdoutData None chunk s)) /\
    state (final (onStdoutData DEBUG chunk s))
      = state (final (onStdoutData None chunk s)) /\
    stockfishOutputBuffer (final (onStdoutData DEBUG chunk s))
      = stockfishOutputBuffer (final (onStdoutData None chunk s)) /\
    emitted s (final (onStdoutData DEBUG chunk s)) =
      ((if debug_enabled DEBUG
        then [ConsoleError ("[ Stockfish ] <<< " ++ chunk)] else [])
         ++ emitted s (final (onStdoutData None chunk s)))%list.
Proof.
  intros DEBUG chunk s. rewrite onStdoutData_unset.
  assert (E : emitted s (echo DEBUG chunk s) =
              if debug_enabled DEBUG
              then [ConsoleError ("[ Stockfish ] <<< " ++ chunk)] else []).
  { unfold echo. destruct (debug_enabled DEBUG);
      [apply emitted_app; reflexivity|apply emitted_refl]. }
  assert (H1 : onData chunk s =
               outcome_map (with_earlier (trace s)) (onData chunk (without_trace s)))
    by (rewrite <- onData_with_earlier, with_earlier_without_trace; reflexivity).
  assert (H2 : onStdoutData DEBUG chunk s =
               outcome_map (with_earlier (trace s ++ emitted s (echo DEBUG chunk s)))
                           (onData chunk (without_trace s)))
    by (unfold onStdoutData; rewrite <- onData_with_earlier; f_equal;
        apply echo_with_earlier).
  rewrite H2, H1, E.
  destruct (onData chunk (without_trace s)) as [s1|e s1]; cbn [outcome_map final raised];
    repeat split; try reflexivity.
  all: rewrite (emitted_app s (with_earlier (trace s) s1) (trace s1) eq_refl).
  all: apply emitted_app; cbn [trace with_earlier]; rewrite app_assoc; reflexivity.
Qed.
